(** * QuickStay: the AI booking agent and the Clerk webhook

    A shallow embedding of [server/controllers/aiAgentController.js]
    ([searchHotels], [formatRoomsForAI], [chatWithAI],
    [createBookingViaAI]) and of the Clerk webhook controller
    ([clerkWebhooks]).

    JavaScript values are an inductive type, numbers are IEEE 754
    doubles (NaN, the two infinities and the rationals that a double
    denotes: every arithmetic operation rounds its exact result to the
    nearest double, ties to even), handlers are computations in a
    state-and-exception monad over the database and a log of the calls
    made to external services.
    What the JavaScript runtime and the external services (the language
    model, MongoDB queries on rooms and hotels, the mailer, svix) do is
    taken as a parameter: records [Runtime] and [Services]. *)

From Stdlib Require Import ZArith QArith Qround Qabs Qpower List String Ascii Bool.
From Stdlib Require Import Lia Lqa SpecFloat.
From Stdlib Require Import DecimalString.
From Equations Require Import Equations.
Import ListNotations.

Set Warnings "-register-all".

Local Open Scope list_scope.
Local Open Scope string_scope.

(* ===================================================================== *)
(** * JavaScript values                                                   *)
(* ===================================================================== *)

Module JS.

(** ** Strings *)

Definition LF : string := String "010"%char EmptyString.
Definition DQ : string := String "034"%char EmptyString.

(** [s.includes(sub)] *)
Fixpoint includes (s sub : string) : bool :=
  match s with
  | EmptyString => prefix sub EmptyString
  | String _ s' => prefix sub s || includes s' sub
  end.

(** [s.startsWith(p)] *)
Definition startsWith (s p : string) : bool := prefix p s.

Fixpoint drop (n : nat) (s : string) : string :=
  match n, s with
  | O, _ => s
  | S _, EmptyString => EmptyString
  | S n', String _ s' => drop n' s'
  end.

(** [s.replace(/pat\n?/g, "")] for a non-empty literal [pat]: every
    occurrence of [pat], with the line feed that follows it if there is
    one, is removed, scanning from the left.  [skip] counts the
    characters of the current match that are still to be dropped. *)
Fixpoint remove_all_from (skip : nat) (pat s : string) : string :=
  match s with
  | EmptyString => EmptyString
  | String c s' =>
      match skip with
      | S k => remove_all_from k pat s'
      | O =>
          if prefix pat s then
            let after := drop (String.length pat) s in
            remove_all_from
              (String.length pat - 1 + (if prefix LF after then 1 else 0))
              pat s'
          else String c (remove_all_from 0 pat s')
      end
  end.

Definition remove_all (pat s : string) : string := remove_all_from 0 pat s.

(** ** Numbers *)

(** A JavaScript number is a double: [NaN], an infinity, or a finite
    double, which is given by the rational that it denotes.  The two
    zeros are one value, [Fin 0]: the handlers never divide by a number
    that they computed and never look at the sign of a zero. *)
Inductive number : Type :=
| NaN
| Inf (negative : bool)
| Fin (q : Q).

Definition num_of_Z (z : Z) : number := Fin (inject_Z z).
Definition num_of_nat (n : nat) : number := num_of_Z (Z.of_nat n).

Definition q_zero (q : Q) : bool := Qeq_bool q 0.
Definition q_neg (q : Q) : bool := (Qnum q <? 0)%Z.

(** Numbers that are falsy: [NaN] and zero. *)
Definition num_falsy (n : number) : bool :=
  match n with
  | NaN => true
  | Inf _ => false
  | Fin q => q_zero q
  end.

(** *** Rounding to a double

    The arithmetic of JavaScript is that of IEEE 754 binary64: the
    result of an operation is its exact result rounded to the nearest
    double, to the one with an even significand when two are as near. *)

Definition pow2 (e : Z) : Q := Qpower 2 e.

(** The binary logarithm of a positive rational, rounded down. *)
Definition ilog2 (q : Q) : Z :=
  let e := (Z.log2 (Qnum q) - Z.log2 (Z.pos (Qden q)))%Z in
  if Qle_bool (pow2 e) q then e else (e - 1)%Z.

(** The nearest integer, the even one of two. *)
Definition round_half_even (y : Q) : Z :=
  let f := Qfloor y in
  match Qcompare (y - inject_Z f) (1 # 2) with
  | Lt => f
  | Gt => (f + 1)%Z
  | Eq => if Z.even f then f else (f + 1)%Z
  end.

(** The exponent of the unit in the last place of the doubles around
    [a > 0]: 53 significant bits, and [-1074] for the subnormal ones. *)
Definition ulp_exponent (a : Q) : Z := Z.max (ilog2 a - 52) (-1074).

Definition round64_red (x : Q) : number :=
  if Qeq_bool x 0 then Fin 0
  else
    let a := Qabs x in
    let q := ulp_exponent a in
    let m := round_half_even (a / pow2 q) in
    if Qle_bool (pow2 1024) (inject_Z m * pow2 q) then Inf (q_neg x)
    else Fin (Qred (inject_Z (Z.sgn (Qnum x) * m) * pow2 q)).

(** The double nearest to [x]; an infinity from [2 ^ 1024 - 2 ^ 970] on. *)
Definition round64 (x : Q) : number := round64_red (Qred x).

Arguments round64 : simpl never.

(** [a - b] *)
Definition num_sub (a b : number) : number :=
  match a, b with
  | NaN, _ | _, NaN => NaN
  | Inf s, Inf t => if Bool.eqb s t then NaN else Inf s
  | Inf s, Fin _ => Inf s
  | Fin _, Inf t => Inf (negb t)
  | Fin p, Fin q => round64 (p - q)
  end.

(** [a * b] *)
Definition num_mul (a b : number) : number :=
  match a, b with
  | NaN, _ | _, NaN => NaN
  | Inf s, Inf t => Inf (xorb s t)
  | Inf s, Fin q | Fin q, Inf s => if q_zero q then NaN else Inf (xorb s (q_neg q))
  | Fin p, Fin q => round64 (p * q)
  end.

(** [a / b] (a zero divisor counts as +0) *)
Definition num_div (a b : number) : number :=
  match a, b with
  | NaN, _ | _, NaN => NaN
  | Inf _, Inf _ => NaN
  | Inf s, Fin q => Inf (xorb s (q_neg q))
  | Fin _, Inf _ => Fin 0
  | Fin p, Fin q =>
      if q_zero q then (if q_zero p then NaN else Inf (q_neg p))
      else round64 (p / q)
  end.

(** [Math.ceil(a)] *)
Definition Math_ceil (a : number) : number :=
  match a with
  | Fin q => num_of_Z (Qceiling q)
  | _ => a
  end.

(** [a === b] on numbers *)
Definition num_eq (a b : number) : bool :=
  match a, b with
  | Fin p, Fin q => Qeq_bool p q
  | Inf s, Inf t => Bool.eqb s t
  | _, _ => false
  end.

(** [a > b] on numbers *)
Definition num_gt (a b : number) : bool :=
  match a, b with
  | NaN, _ | _, NaN => false
  | Inf s, Inf t => negb s && t
  | Inf s, Fin _ => negb s
  | Fin _, Inf t => t
  | Fin p, Fin q => negb (Qle_bool p q)
  end.

(** ** Values *)

Inductive jsval : Type :=
| VUndefined
| VNull
| VBool (b : bool)
| VNum (n : number)
| VStr (s : string)
| VArr (xs : list jsval)
| VObj (fields : list (string * jsval)).

Definition truthy (v : jsval) : bool :=
  match v with
  | VUndefined | VNull => false
  | VBool b => b
  | VNum n => negb (num_falsy n)
  | VStr s => negb (s =? "")
  | VArr _ | VObj _ => true
  end.

(** [a || b] *)
Definition js_or (a b : jsval) : jsval := if truthy a then a else b.

Definition nullish (v : jsval) : bool :=
  match v with
  | VUndefined | VNull => true
  | _ => false
  end.

(** [a === b] against a primitive; two distinct objects or arrays are
    never strictly equal. *)
Definition strict_eq (a b : jsval) : bool :=
  match a, b with
  | VUndefined, VUndefined | VNull, VNull => true
  | VBool x, VBool y => Bool.eqb x y
  | VNum x, VNum y => num_eq x y
  | VStr x, VStr y => (x =? y)
  | _, _ => false
  end.

(** ** Errors *)

Record js_error : Type := mkError {
  err_message : string;
  err_status : option Z
}.

(** The TypeError of V8 for a property read on [undefined] or [null]. *)
Definition TypeError_read (of_null : bool) (prop : string) : js_error :=
  mkError ("Cannot read properties of "
             ++ (if of_null then "null" else "undefined")
             ++ " (reading '" ++ prop ++ "')") None.

(** The TypeError of V8 for a call of something that is not a function. *)
Definition TypeError_call (what : string) : js_error :=
  mkError (what ++ " is not a function") None.

Inductive result (A : Type) : Type :=
| Ok (a : A)
| Throw (e : js_error).
Arguments Ok {A} a.
Arguments Throw {A} e.

Fixpoint assoc (k : string) (fs : list (string * jsval)) : option jsval :=
  match fs with
  | [] => None
  | (k', v) :: fs' => if k =? k' then Some v else assoc k fs'
  end.

(** [v.prop] for a data property.  The length of a string is counted in
    the bytes of the model; the controllers only compare it with 0. *)
Definition get (v : jsval) (prop : string) : result jsval :=
  match v with
  | VUndefined => Throw (TypeError_read false prop)
  | VNull => Throw (TypeError_read true prop)
  | VObj fs => Ok (match assoc prop fs with Some x => x | None => VUndefined end)
  | VArr xs =>
      Ok (if prop =? "length" then VNum (num_of_nat (List.length xs)) else VUndefined)
  | VStr s =>
      Ok (if prop =? "length" then VNum (num_of_nat (String.length s)) else VUndefined)
  | VBool _ | VNum _ => Ok VUndefined
  end.

(** [v = dflt] in a destructuring pattern: the default stands for
    [undefined]. *)
Definition default_to (v dflt : jsval) : jsval :=
  match v with
  | VUndefined => dflt
  | _ => v
  end.

(** [v?.prop] *)
Definition get_opt (v : jsval) (prop : string) : jsval :=
  match get v prop with
  | Ok x => x
  | Throw _ => VUndefined
  end.

(** [v?.[0]] *)
Definition first_opt (v : jsval) : jsval :=
  match v with
  | VArr (x :: _) => x
  | VStr (String c _) => VStr (String c EmptyString)
  | VObj fs => match assoc "0" fs with Some x => x | None => VUndefined end
  | _ => VUndefined
  end.

(** ** The runtime

    Built-ins of the JavaScript runtime whose definition is outside the
    repository.  [Date_parse] gives the time value in milliseconds of a
    date string, [None] when the string is no date. *)

Record Runtime : Type := mkRuntime {
  Number_toString : Q -> string;
  StringToNumber : string -> number;
  Date_parse : string -> option Z;
  Date_toDateString : Z -> string;
  String_trim : string -> string;
  JSON_parse : string -> option jsval
}.

Section WithRuntime.
Variable R : Runtime.

Definition num_to_string (n : number) : string :=
  match n with
  | NaN => "NaN"
  | Inf false => "Infinity"
  | Inf true => "-Infinity"
  | Fin q => Number_toString R q
  end.

(** [String(v)], as in a template literal or a string concatenation. *)
Fixpoint to_string (v : jsval) : string :=
  match v with
  | VUndefined => "undefined"
  | VNull => "null"
  | VBool true => "true"
  | VBool false => "false"
  | VNum n => num_to_string n
  | VStr s => s
  | VArr xs =>
      String.concat ","
        (map (fun x => match x with
                       | VUndefined | VNull => ""
                       | _ => to_string x
                       end) xs)
  | VObj _ => "[object Object]"
  end.

(** [xs.join(sep)] *)
Definition array_join (sep : string) (xs : list jsval) : string :=
  String.concat sep
    (map (fun x => if nullish x then "" else to_string x) xs).

(** [+v] *)
Definition ToNumber (v : jsval) : number :=
  match v with
  | VUndefined => NaN
  | VNull => Fin 0
  | VBool b => Fin (if b then 1 else 0)
  | VNum n => n
  | VStr s => StringToNumber R s
  | VArr _ | VObj _ => StringToNumber R (to_string v)
  end.

(** [v > 0] *)
Definition gt0 (v : jsval) : bool := num_gt (ToNumber v) (Fin 0).

Definition Qtrunc (q : Q) : Z :=
  if q_neg q then Qceiling q else Qfloor q.

Definition TimeClip (n : number) : number :=
  match n with
  | Fin q =>
      if Qle_bool (Qabs q) (inject_Z 8640000000000000)
      then num_of_Z (Qtrunc q) else NaN
  | _ => NaN
  end.

(** The time value of [new Date(v)]; [NaN] is the invalid date. *)
Definition Date_new (v : jsval) : number :=
  match v with
  | VStr s =>
      match Date_parse R s with Some t => TimeClip (num_of_Z t) | None => NaN end
  | VArr _ | VObj _ =>
      match Date_parse R (to_string v) with
      | Some t => TimeClip (num_of_Z t)
      | None => NaN
      end
  | _ => TimeClip (ToNumber v)
  end.

(** [d.toDateString()] for the date of time value [t]. *)
Definition toDateString (t : number) : string :=
  match t with
  | Fin q => Date_toDateString R (Qfloor q)
  | _ => "Invalid Date"
  end.

(** The TypeError of V8 for [const { prop, ... } = v] on [undefined] or
    [null]. *)
Definition TypeError_destructure (prop what : string) (v : jsval) : js_error :=
  mkError ("Cannot destructure property '" ++ prop ++ "' of '" ++ what
           ++ "' as it is " ++ to_string v ++ ".") None.

End WithRuntime.

End JS.

Import JS.

(* ===================================================================== *)
(** * Documents, the database and the external services                   *)
(* ===================================================================== *)

Module Store.

(** ** Documents (the Mongoose models, as the controllers use them) *)

Record Hotel : Type := mkHotel {
  hotel__id : string;
  hotel_name : string;
  hotel_address : string;
  hotel_city : string
}.

(** A room with its [hotel] populated; [None] is the [null] that populate
    leaves when the hotel is gone. *)
Record Room : Type := mkRoom {
  room__id : string;
  room_hotel : option Hotel;
  room_roomType : string;
  room_pricePerNight : number;
  room_amenities : list string;
  room_images : list string
}.

Record User : Type := mkUser {
  user__id : jsval;
  user_email : jsval;
  user_username : jsval;
  user_image : jsval;
  user_role : string;
  user_recentSearchedCities : list string
}.

Record Booking : Type := mkBooking {
  booking__id : string;
  booking_user : jsval;
  booking_room : jsval;
  booking_hotel : string;
  booking_guests : number;
  booking_checkInDate : jsval;
  booking_checkOutDate : jsval;
  booking_totalPrice : number
}.

(** The filter that [searchHotels] hands to [Room.find]. *)
Record RoomQuery : Type := mkRoomQuery {
  q_isAvailable : bool;
  q_hotel_in : option (list string);
  q_roomType : option string;
  q_pricePerNight_gte : option jsval;
  q_pricePerNight_lte : option jsval;
  q_amenities_in : option jsval
}.

Record MailOptions : Type := mkMail {
  mail_from : option string;
  mail_to : jsval;
  mail_subject : string;
  mail_html : string
}.

(** ** The log of calls to the outside *)

Inductive Event : Type :=
| EvGetGenerativeModel (model : string)
| EvGenerateContent (model prompt : string) (outcome : result (result string))
| EvSleep (ms : Z)
| EvHotelFind (city : string)
| EvRoomFind (q : RoomQuery)
| EvRoomFindById (id : jsval)
| EvUserFindById (id : jsval)
| EvCheckAvailability (room : jsval) (checkIn checkOut : number)
                      (outcome : result bool)
| EvBookingCreate (doc : Booking)
| EvSendMail (m : MailOptions)
| EvVerify (payload : jsval)
| EvUserFindOneAndUpdate (id : jsval)
| EvUserFindByIdAndUpdate (id : jsval)
| EvUserFindByIdAndDelete (id : jsval).

Definition is_llm_call (e : Event) : bool :=
  match e with
  | EvGetGenerativeModel _ | EvGenerateContent _ _ _ => true
  | _ => false
  end.

Definition is_db_call (e : Event) : bool :=
  match e with
  | EvHotelFind _ | EvRoomFind _ | EvRoomFindById _ | EvUserFindById _
  | EvCheckAvailability _ _ _ _ | EvBookingCreate _
  | EvUserFindOneAndUpdate _ | EvUserFindByIdAndUpdate _
  | EvUserFindByIdAndDelete _ => true
  | _ => false
  end.

Definition is_generateContent (e : Event) : bool :=
  match e with EvGenerateContent _ _ _ => true | _ => false end.

Definition is_sleep (e : Event) : bool :=
  match e with EvSleep _ => true | _ => false end.

Definition is_getModel (e : Event) : bool :=
  match e with EvGetGenerativeModel _ => true | _ => false end.

Definition is_bookingCreate (e : Event) : bool :=
  match e with EvBookingCreate _ => true | _ => false end.

(** The calls that the chat endpoint makes: to the language model and
    reads of the database. *)
Definition chat_event (e : Event) : bool :=
  match e with
  | EvGetGenerativeModel _ | EvGenerateContent _ _ _ | EvSleep _
  | EvHotelFind _ | EvRoomFind _ | EvRoomFindById _
  | EvCheckAvailability _ _ _ _ => true
  | _ => false
  end.

Definition count (p : Event -> bool) (evs : list Event) : nat :=
  List.length (filter p evs).

(** ** The world: the two collections the controllers write, and the log
    (most recent call first). *)

Record World : Type := mkWorld {
  users : list User;
  bookings : list Booking;
  trace : list Event
}.

(** ** The services

    [process.env], the language model, the queries on the read-only
    collections, the mailer and the svix verifier.  [generateContent n
    model prompt] is the outcome of a call when [n] calls are in the log
    already: the call throws, or gives a result whose [response.text()]
    gives the text or throws.  [checkAvailability] is imported from
    [bookingController.js]; it reads the bookings.  The [_error] fields
    say when a call to the database, the mailer or svix throws. *)

Record Services : Type := mkServices {
  GEMINI_API_KEY : option string;
  GEMINI_MODEL_NAME : option string;
  SENDER_EMAIL : option string;
  CURRENCY : option string;
  generateContent : nat -> string -> string -> result (result string);
  RegExp_error : string -> option js_error;
  Hotel_find : string -> result (list Hotel);
  Room_find : RoomQuery -> result (list Room);
  Room_findById : jsval -> result (option Room);
  User_find_error : jsval -> option js_error;
  checkAvailability : list Booking -> jsval -> number -> number -> result bool;
  ObjectId : nat -> string;
  Booking_create_error : Booking -> option js_error;
  sendMail : MailOptions -> option js_error;
  Webhook_verify : jsval -> jsval -> jsval -> jsval -> option js_error;
  User_write_error : Event -> option js_error
}.

(** [process.env.X || dflt] *)
Definition env_or (x : option string) (dflt : string) : string :=
  match x with
  | Some s => if s =? "" then dflt else s
  | None => dflt
  end.

(** [!process.env.X] *)
Definition env_unset (x : option string) : bool :=
  match x with
  | Some s => s =? ""
  | None => true
  end.

(** ** Computations *)

Definition M (A : Type) : Type := World -> result A * World.

Definition ret {A} (a : A) : M A := fun w => (Ok a, w).

Definition throw {A} (e : js_error) : M A := fun w => (Throw e, w).

Definition bind {A B} (m : M A) (k : A -> M B) : M B :=
  fun w =>
    match m w with
    | (Ok a, w') => k a w'
    | (Throw e, w') => (Throw e, w')
    end.

(** [try { m } catch (e) { h e }] *)
Definition try_catch {A} (m : M A) (h : js_error -> M A) : M A :=
  fun w =>
    match m w with
    | (Ok a, w') => (Ok a, w')
    | (Throw e, w') => h e w'
    end.

Definition lift {A} (r : result A) : M A := fun w => (r, w).

Definition emit (e : Event) : M unit :=
  fun w => (Ok tt, mkWorld (users w) (bookings w) (e :: trace w)).

Definition get_world : M World := fun w => (Ok w, w).

Definition set_users (us : list User) : M unit :=
  fun w => (Ok tt, mkWorld us (bookings w) (trace w)).

Definition set_bookings (bs : list Booking) : M unit :=
  fun w => (Ok tt, mkWorld (users w) bs (trace w)).

Definition of_error (o : option js_error) : M unit :=
  match o with
  | Some e => throw e
  | None => ret tt
  end.

(** [const { prop, ... } = v] throws on [undefined] and [null]. *)
Definition destructure (R : Runtime) (prop what : string) (v : jsval) : M unit :=
  if nullish v then throw (TypeError_destructure R prop what v) else ret tt.

End Store.

Import Store.

Declare Scope js_scope.
Delimit Scope js_scope with js.
Notation "'let*' x ':=' m 'in' k" := (bind m (fun x => k))
  (at level 10, x name, m at level 100, k at level 200) : js_scope.
Notation "m ';;' k" := (bind m (fun _ => k))
  (at level 100, k at level 200, right associativity) : js_scope.
Local Open Scope js_scope.

(* ===================================================================== *)
(** * HTTP requests and responses                                         *)
(* ===================================================================== *)

Module Http.

(** [req.body], the [userId] of [req.auth] and the three svix headers. *)
Record Request : Type := mkRequest {
  req_body : jsval;
  req_userId : jsval;
  req_svix_id : jsval;
  req_svix_timestamp : jsval;
  req_svix_signature : jsval
}.

Record RoomSummary : Type := mkRoomSummary {
  rs_id : string;
  rs_hotelName : string;
  rs_address : string;
  rs_city : string;
  rs_roomType : string;
  rs_pricePerNight : number;
  rs_amenities : list string;
  rs_images : list string
}.

(** The [actionData] payloads of the chat endpoint, by their [type]. *)
Inductive ActionData : Type :=
| search_results (rooms : list RoomSummary)
| availability_check_available
    (roomId hotelName : string) (checkInDate checkOutDate : jsval)
    (totalPrice nights : number)
| availability_check_unavailable
| booking_confirmation
    (roomId hotelName : string) (checkInDate checkOutDate guests : jsval)
    (totalPrice : number).

(** The [booking] object of the reply of the booking endpoint. *)
Record BookingInfo : Type := mkBookingInfo {
  bi_id : string;
  bi_bookingId : string;
  bi_hotelName : string;
  bi_checkInDate : string;
  bi_checkOutDate : string;
  bi_totalPrice : number;
  bi_nights : number
}.

Inductive Body : Type :=
| JsonFail (message : string)
| JsonChat (message : jsval) (actionData : option ActionData) (intent : jsval)
| JsonBooked (message : string) (booking : BookingInfo)
| JsonOk (message : string).

Record Response : Type := mkResponse {
  res_status : Z;
  res_body : Body
}.

(** [res.json(b)] *)
Definition json (b : Body) : Response := mkResponse 200 b.

Definition success (r : Response) : bool :=
  match res_body r with
  | JsonFail _ => false
  | _ => true
  end.

Definition message (r : Response) : jsval :=
  match res_body r with
  | JsonFail m | JsonBooked m _ | JsonOk m => VStr m
  | JsonChat m _ _ => m
  end.

(** The [success] field of what a handler sent, [false] when it threw. *)
Definition success_of (r : result Response) : bool :=
  match r with
  | Ok resp => success resp
  | Throw _ => false
  end.

(** The [actionData] field of a reply. *)
Definition actionData (r : Response) : option ActionData :=
  match res_body r with
  | JsonChat _ ad _ => ad
  | _ => None
  end.

End Http.

Import Http.

(* ===================================================================== *)
(** * The AI agent controller                                             *)
(* ===================================================================== *)

Module AiAgent.

Definition SYSTEM_PROMPT : string :=
"You are a helpful AI assistant for a hotel booking application. Your role is to help users:
1. Search for hotels and rooms
2. Check room availability for specific dates
3. Book hotels/rooms
4. Answer questions about hotels, rooms, and bookings

When users ask about:
- Searching hotels: Extract location/city, room type, price range, amenities
- Checking availability: Extract room ID, check-in date, check-out date
- Booking: Extract room ID, check-in date, check-out date, number of guests
- General questions: Provide helpful information

Always respond in a friendly, conversational manner. When you need specific information (like dates, room IDs, etc.), ask the user clearly.".

(** The text below is written with [~] where the source has a double
    quote; [requote] puts the double quotes back. *)
Fixpoint requote (s : string) : string :=
  match s with
  | EmptyString => EmptyString
  | String c s' =>
      String (if Ascii.eqb c "~"%char then "034"%char else c) (requote s')
  end.

Definition PROMPT_INSTRUCTIONS : string := requote
"

You are an AI assistant that helps users with hotel bookings. Analyze the user's message and determine their intent. Respond with a JSON object containing:
{
  ~intent~: ~search~ | ~check_availability~ | ~book~ | ~question~ | ~greeting~,
  ~extractedData~: {
    ~city~: ~string or null~,
    ~roomType~: ~string or null~,
    ~checkInDate~: ~string or null (YYYY-MM-DD format)~,
    ~checkOutDate~: ~string or null (YYYY-MM-DD format)~,
    ~roomId~: ~string or null~,
    ~guests~: ~number or null~,
    ~priceRange~: {~min~: number or null, ~max~: number or null},
    ~amenities~: [~string~] or null
  },
  ~needsClarification~: [~list of missing information~],
  ~response~: ~A friendly natural language response to the user~
}

".

Definition GREETING : string :=
  "Hello! I'm your AI assistant for hotel bookings. I can help you:" ++ LF
  ++ "- Search for hotels and rooms" ++ LF
  ++ "- Check room availability" ++ LF
  ++ "- Make bookings" ++ LF ++ LF
  ++ "How can I assist you today?".

Definition fallbackModels : list string :=
  ["gemini-2.5-flash"; "gemini-1.5-flash"; "gemini-pro"].

(** [l.indexOf(name)], counting from [i]. *)
Fixpoint indexOf (name : string) (l : list string) (i : nat) : option nat :=
  match l with
  | [] => None
  | x :: l' => if x =? name then Some i else indexOf name l' (S i)
  end.

(** [1000 * 3600 * 24] *)
Definition MS_PER_DAY : number :=
  num_mul (num_mul (num_of_Z 1000) (num_of_Z 3600)) (num_of_Z 24).

(** [Math.ceil((checkOut - checkIn) / (1000 * 3600 * 24))] *)
Definition nights_between (checkIn checkOut : number) : number :=
  Math_ceil (num_div (num_sub checkOut checkIn) MS_PER_DAY).

(** [error.message && error.message.includes("404") &&
     error.message.includes("model")] *)
Definition is_model_not_found (error : js_error) : bool :=
  negb (err_message error =? "")
  && includes (err_message error) "404"
  && includes (err_message error) "model".

(** [error.message && (error.message.includes("fetch failed") ||
     error.message.includes("ECONNREFUSED") ||
     error.message.includes("ENOTFOUND"))] *)
Definition is_network_error (error : js_error) : bool :=
  negb (err_message error =? "")
  && (includes (err_message error) "fetch failed"
      || includes (err_message error) "ECONNREFUSED"
      || includes (err_message error) "ENOTFOUND").

(** The variables of the retry loop. *)
Record LoopState : Type := mkLoop {
  retries : nat;
  currentModelIndex : nat;
  currentModel : string;
  lastError : option js_error
}.

Definition loop_measure (st : LoopState) : nat :=
  retries st + (List.length fallbackModels - 1 - currentModelIndex st).

Definition should_fallback (st : LoopState) (error : js_error) : bool :=
  is_model_not_found error
  && (currentModelIndex st <? List.length fallbackModels - 1)%nat.

Definition should_retry (st : LoopState) (error : js_error) : bool :=
  is_network_error error && (1 <? retries st)%nat.

Definition fallback (st : LoopState) (error : js_error) : LoopState :=
  mkLoop (retries st) (S (currentModelIndex st))
         (nth (S (currentModelIndex st)) fallbackModels "undefined")
         (Some error).

Definition retry (st : LoopState) (error : js_error) : LoopState :=
  mkLoop (retries st - 1) (currentModelIndex st) (currentModel st) (Some error).

Definition inspect {A} (a : A) : {b : A | a = b} := exist _ a eq_refl.

Lemma fallback_decreases st error :
  should_fallback st error = true ->
  (loop_measure (fallback st error) < loop_measure st)%nat.
Proof.
  unfold should_fallback, loop_measure, fallback.
  change (List.length fallbackModels - 1)%nat with 2%nat.
  intros H. apply andb_prop in H as [_ H]. apply Nat.ltb_lt in H.
  cbn [retries currentModelIndex]. lia.
Qed.

Lemma retry_decreases st error :
  should_retry st error = true ->
  (loop_measure (retry st error) < loop_measure st)%nat.
Proof.
  unfold should_retry, loop_measure, retry.
  intros H. apply andb_prop in H as [_ H]. apply Nat.ltb_lt in H.
  cbn [retries currentModelIndex]. lia.
Qed.

Section Controller.

Variable R : Runtime.
Variable Sv : Services.

(** ** Calls to the outside, each logged *)

Definition call_generateContent (model prompt : string) : M (result string) :=
  fun w =>
    let r := generateContent Sv (count is_generateContent (trace w)) model prompt in
    (r, mkWorld (users w) (bookings w)
                (EvGenerateContent model prompt r :: trace w)).

Definition call_Hotel_find (city : string) : M (list Hotel) :=
  emit (EvHotelFind city) ;; lift (Hotel_find Sv city).

Definition call_Room_find (q : RoomQuery) : M (list Room) :=
  emit (EvRoomFind q) ;; lift (Room_find Sv q).

Definition call_Room_findById (id : jsval) : M (option Room) :=
  emit (EvRoomFindById id) ;; lift (Room_findById Sv id).

Definition call_checkAvailability (room : jsval) (checkInDate checkOutDate : number)
  : M bool :=
  fun w =>
    let r := checkAvailability Sv (bookings w) room checkInDate checkOutDate in
    (r, mkWorld (users w) (bookings w)
                (EvCheckAvailability room checkInDate checkOutDate r :: trace w)).

(** [User.findById(userId)] *)
Definition call_User_findById (userId : jsval) : M (option User) :=
  emit (EvUserFindById userId) ;;
  of_error (User_find_error Sv userId) ;;
  let* w := get_world in
  ret (find (fun u => strict_eq (user__id u) userId) (users w)).

(** [Booking.create(doc)]: the document gets its [_id] and joins the
    collection, unless validation or the database refuses it. *)
Definition call_Booking_create (doc : string -> Booking) : M Booking :=
  let* w := get_world in
  let booking := doc (ObjectId Sv (List.length (bookings w))) in
  emit (EvBookingCreate booking) ;;
  of_error (Booking_create_error Sv booking) ;;
  set_bookings (bookings w ++ [booking])%list ;;
  ret booking.

Definition call_sendMail (m : MailOptions) : M unit :=
  emit (EvSendMail m) ;; of_error (sendMail Sv m).

(** [new RegExp(v, "i")]: the source of the pattern, or a SyntaxError. *)
Definition new_RegExp (v : jsval) : M string :=
  of_error (RegExp_error Sv (to_string R v)) ;; ret (to_string R v).

(** ** [searchHotels] *)

Definition searchHotels (query : jsval) : M (list Room) :=
  try_catch
    (destructure R "city" "query" query ;;
     let city := get_opt query "city" in
     let roomType := get_opt query "roomType" in
     let priceRange := get_opt query "priceRange" in
     let amenities := get_opt query "amenities" in
     let* hotel :=
       (if truthy city then
          let* re := new_RegExp city in
          let* hotels := call_Hotel_find re in
          ret (Some (map hotel__id hotels))
        else ret None) in
     let* roomType_re :=
       (if truthy roomType then
          let* re := new_RegExp roomType in ret (Some re)
        else ret None) in
     let min := if truthy priceRange then get_opt priceRange "min" else VUndefined in
     let max := if truthy priceRange then get_opt priceRange "max" else VUndefined in
     let searchQuery :=
       mkRoomQuery true hotel roomType_re
         (if truthy min then Some min else None)
         (if truthy max then Some max else None)
         (if truthy amenities && gt0 R (get_opt amenities "length")
          then Some amenities else None) in
     let* rooms := call_Room_find searchQuery in
     ret (firstn 10 rooms))
    (fun error => ret []).

(** ** [formatRoomsForAI] *)

Definition format_room (response : string) (room : Room) (index : nat)
  : result string :=
  match room_hotel room with
  | None => Throw (TypeError_read true "name")
  | Some hotel =>
      Ok (response
          ++ num_to_string R (num_of_nat (index + 1)) ++ ". **"
          ++ hotel_name hotel ++ "**" ++ LF
          ++ "   - Location: " ++ hotel_address hotel ++ ", "
          ++ hotel_city hotel ++ LF
          ++ "   - Room Type: " ++ room_roomType room ++ LF
          ++ "   - Price: ₹" ++ num_to_string R (room_pricePerNight room)
          ++ "/night" ++ LF
          ++ "   - Amenities: " ++ String.concat ", " (room_amenities room) ++ LF
          ++ "   - Room ID: " ++ room__id room ++ LF ++ LF)
  end.

(** [rooms.forEach((room, index) => ...)] from [index] on. *)
Fixpoint format_rooms (response : string) (rooms : list Room) (index : nat)
  : result string :=
  match rooms with
  | [] => Ok response
  | room :: rest =>
      match format_room response room index with
      | Ok response' => format_rooms response' rest (S index)
      | Throw e => Throw e
      end
  end.

Definition formatRoomsForAI (rooms : list Room) : result string :=
  match rooms with
  | [] => Ok "No hotels or rooms found matching your criteria."
  | _ =>
      match format_rooms
              ("I found " ++ num_to_string R (num_of_nat (List.length rooms))
               ++ " room(s) for you:" ++ LF ++ LF) rooms 0 with
      | Ok response =>
          Ok (response
              ++ "Would you like to check availability or book any of these rooms?")
      | Throw e => Throw e
      end
  end.

(** ** The retry loop of [chatWithAI]

    [while (retries > 0) { try { result = ...; break } catch ... }]: the
    loop ends with the result, with an error thrown, or (when [retries]
    is 0) with no result.  Each turn that continues has a smaller
    [loop_measure]. *)

Equations? retry_loop (prompt : string) (st : LoopState) (w : World)
  : result (option (result string) * LoopState) * World
  by wf (loop_measure st) lt :=
retry_loop prompt st w with inspect (0 <? retries st)%nat := {
  | exist _ false _ := (Ok (None, st), w);
  | exist _ true _
      with inspect (call_generateContent (currentModel st) prompt w) := {
    | exist _ (Ok result, w1) _ := (Ok (Some result, st), w1);
    | exist _ (Throw error, w1) _ with inspect (should_fallback st error) := {
      | exist _ true Hf :=
          retry_loop prompt (fallback st error)
            (snd (emit (EvGetGenerativeModel (currentModel (fallback st error))) w1));
      | exist _ false _ with inspect (should_retry st error) := {
        | exist _ true Hr :=
            retry_loop prompt (retry st error) (snd (emit (EvSleep 1000) w1));
        | exist _ false _ := (Throw error, w1) } } } }.
Proof.
  - now apply fallback_decreases.
  - now apply retry_decreases.
Qed.

(** ** [chatWithAI] *)

Fixpoint map_result {A B} (f : A -> result B) (l : list A) : result (list B) :=
  match l with
  | [] => Ok []
  | x :: l' =>
      match f x with
      | Throw e => Throw e
      | Ok y =>
          match map_result f l' with
          | Throw e => Throw e
          | Ok ys => Ok (y :: ys)
          end
      end
  end.

Definition context_line (msg : jsval) : result string :=
  match get msg "role" with
  | Throw e => Throw e
  | Ok role =>
      Ok ((if strict_eq role (VStr "user") then "User: " else "Assistant: ")
          ++ to_string R (get_opt msg "content"))
  end.

(** [conversationHistory.slice(-10).map(msg => ...).join("\n")] *)
Definition conversationContext (conversationHistory : jsval) : result string :=
  match conversationHistory with
  | VArr msgs =>
      match map_result context_line (skipn (List.length msgs - 10) msgs) with
      | Ok lines => Ok (String.concat LF lines)
      | Throw e => Throw e
      end
  | VUndefined => Throw (TypeError_read false "slice")
  | VNull => Throw (TypeError_read true "slice")
  | VStr _ => Throw (TypeError_call "conversationHistory.slice(...).map")
  | _ => Throw (TypeError_call "conversationHistory.slice")
  end.

Definition build_prompt (context : string) (message : jsval) : string :=
  SYSTEM_PROMPT ++ PROMPT_INSTRUCTIONS
  ++ (if context =? "" then ""
      else "Previous conversation:" ++ LF ++ context ++ LF ++ LF)
  ++ "User message: " ++ to_string R message ++ LF ++ LF
  ++ "Respond only with valid JSON, no additional text.".

(** The text of the reply without its markdown code fence. *)
Definition strip_code_fences (text : string) : string :=
  let jsonText := String_trim R text in
  if startsWith jsonText "```json" then
    remove_all "```" (remove_all "```json" jsonText)
  else if startsWith jsonText "```" then remove_all "```" jsonText
  else jsonText.

(** [aiAnalysis.needsClarification.length] *)
Definition needsClarification_length (aiAnalysis : jsval) : result jsval :=
  match get aiAnalysis "needsClarification" with
  | Ok nc => get nc "length"
  | Throw e => Throw e
  end.

Definition room_summary (r : Room) : result RoomSummary :=
  match room_hotel r with
  | None => Throw (TypeError_read true "name")
  | Some hotel =>
      Ok (mkRoomSummary (room__id r) (hotel_name hotel) (hotel_address hotel)
            (hotel_city hotel) (room_roomType r) (room_pricePerNight r)
            (room_amenities r) (room_images r))
  end.

(** What a case of the switch leaves in [aiResponse] and [actionData]. *)
Definition Reply : Type := (jsval * option ActionData)%type.

Definition intent_search (aiAnalysis aiResponse : jsval) : M Reply :=
  let* len := lift (needsClarification_length aiAnalysis) in
  if strict_eq len (VNum (Fin 0)) then
    let* rooms := searchHotels (get_opt aiAnalysis "extractedData") in
    let* text := lift (formatRoomsForAI rooms) in
    let* summaries := lift (map_result room_summary rooms) in
    ret (VStr text, Some (search_results summaries))
  else ret (aiResponse, None).

Definition available_text (hotel : Hotel) (room : Room)
    (checkIn checkOut nights totalPrice : number) : string :=
  "Great news! The room is available for those dates." ++ LF ++ LF
  ++ "**" ++ hotel_name hotel ++ "** - " ++ room_roomType room ++ LF
  ++ "Check-in: " ++ toDateString R checkIn ++ LF
  ++ "Check-out: " ++ toDateString R checkOut ++ LF
  ++ "Nights: " ++ num_to_string R nights ++ LF
  ++ "Total Price: ₹" ++ num_to_string R totalPrice ++ LF ++ LF
  ++ "Would you like to proceed with the booking?".

Definition UNAVAILABLE_TEXT : string :=
  "I'm sorry, but this room is not available for the selected dates. Would you like me to search for alternative rooms?".

Definition intent_check_availability (aiAnalysis aiResponse : jsval) : M Reply :=
  let extractedData := get_opt aiAnalysis "extractedData" in
  let* roomId := lift (get extractedData "roomId") in
  let checkInDate := get_opt extractedData "checkInDate" in
  let checkOutDate := get_opt extractedData "checkOutDate" in
  if truthy roomId && truthy checkInDate && truthy checkOutDate then
    let* isAvailable :=
      call_checkAvailability roomId (Date_new R checkInDate)
                             (Date_new R checkOutDate) in
    if isAvailable then
      let* found := call_Room_findById roomId in
      let checkIn := Date_new R checkInDate in
      let checkOut := Date_new R checkOutDate in
      let nights := nights_between checkIn checkOut in
      match found with
      | None => throw (TypeError_read true "pricePerNight")
      | Some room =>
          let totalPrice := num_mul (room_pricePerNight room) nights in
          match room_hotel room with
          | None => throw (TypeError_read true "name")
          | Some hotel =>
              ret (VStr (available_text hotel room checkIn checkOut nights totalPrice),
                   Some (availability_check_available
                           (room__id room) (hotel_name hotel)
                           checkInDate checkOutDate totalPrice nights))
          end
      end
    else ret (VStr UNAVAILABLE_TEXT, Some availability_check_unavailable)
  else ret (aiResponse, None).

Definition LOGIN_TEXT : string :=
  "You need to be logged in to make a booking. Please log in first.".

Definition summary_text (hotel : Hotel) (room : Room)
    (checkIn checkOut : number) (guests : jsval) (totalPrice : number) : string :=
  "Perfect! I can help you book this room." ++ LF ++ LF
  ++ "**Booking Summary:**" ++ LF
  ++ "Hotel: " ++ hotel_name hotel ++ LF
  ++ "Room Type: " ++ room_roomType room ++ LF
  ++ "Check-in: " ++ toDateString R checkIn ++ LF
  ++ "Check-out: " ++ toDateString R checkOut ++ LF
  ++ "Guests: " ++ to_string R guests ++ LF
  ++ "Total Price: ₹" ++ num_to_string R totalPrice ++ LF ++ LF
  ++ "Should I proceed with the booking?".

Definition intent_book (userId aiAnalysis aiResponse : jsval) : M Reply :=
  if negb (truthy userId) then ret (VStr LOGIN_TEXT, None)
  else
    let* len := lift (needsClarification_length aiAnalysis) in
    if strict_eq len (VNum (Fin 0)) then
      let extractedData := get_opt aiAnalysis "extractedData" in
      let* roomId := lift (get extractedData "roomId") in
      let* found := call_Room_findById roomId in
      match found with
      | None => ret (aiResponse, None)
      | Some room =>
          let checkInDate := get_opt extractedData "checkInDate" in
          let checkOutDate := get_opt extractedData "checkOutDate" in
          let checkIn := Date_new R checkInDate in
          let checkOut := Date_new R checkOutDate in
          let nights := nights_between checkIn checkOut in
          let totalPrice := num_mul (room_pricePerNight room) nights in
          let guests := js_or (get_opt extractedData "guests") (VNum (Fin 1)) in
          match room_hotel room with
          | None => throw (TypeError_read true "name")
          | Some hotel =>
              ret (VStr (summary_text hotel room checkIn checkOut guests totalPrice),
                   Some (booking_confirmation
                           (room__id room) (hotel_name hotel)
                           checkInDate checkOutDate guests totalPrice))
          end
      end
    else ret (aiResponse, None).

(** [switch (aiAnalysis.intent)] *)
Definition handle_intent (userId aiAnalysis aiResponse : jsval) : M Reply :=
  let intent := get_opt aiAnalysis "intent" in
  if strict_eq intent (VStr "search") then intent_search aiAnalysis aiResponse
  else if strict_eq intent (VStr "check_availability") then
    intent_check_availability aiAnalysis aiResponse
  else if strict_eq intent (VStr "book") then
    intent_book userId aiAnalysis aiResponse
  else if strict_eq intent (VStr "greeting") then ret (VStr GREETING, None)
  else ret (aiResponse, None).

(** [if (aiAnalysis.needsClarification.length > 0) aiResponse += ...] *)
Definition add_clarification (aiAnalysis aiResponse : jsval) : result jsval :=
  match get aiAnalysis "needsClarification" with
  | Throw e => Throw e
  | Ok nc =>
      match get nc "length" with
      | Throw e => Throw e
      | Ok len =>
          if gt0 R len then
            match nc with
            | VArr xs =>
                Ok (VStr (to_string R aiResponse ++ LF ++ LF
                          ++ "I need a bit more information: "
                          ++ array_join R ", " xs))
            | _ => Throw (TypeError_call "aiAnalysis.needsClarification.join")
            end
          else Ok aiResponse
      end
  end.

Definition PARSE_ERROR : js_error :=
  mkError "Failed to parse AI response. The AI returned invalid JSON. Please try again." None.

Definition NO_RESULT_ERROR : js_error :=
  mkError "Failed to get response from AI" None.

(** The statements after the retry loop. *)
Definition answer (userId : jsval) (text : string) : M Response :=
  match JSON_parse R (strip_code_fences text) with
  | None => throw PARSE_ERROR
  | Some aiAnalysis =>
      let* aiResponse := lift (get aiAnalysis "response") in
      let* reply := handle_intent userId aiAnalysis aiResponse in
      let* aiResponse' := lift (add_clarification aiAnalysis (fst reply)) in
      ret (json (JsonChat aiResponse' (snd reply) (get_opt aiAnalysis "intent")))
  end.

Definition initial_loop_state (modelName : string) : LoopState :=
  mkLoop 3
    (match indexOf modelName fallbackModels 0 with Some i => i | None => 0%nat end)
    modelName None.

(** The body of the [try] block. *)
Definition chat (req : Request) : M Response :=
  destructure R "message" "req.body" (req_body req) ;;
  let message := get_opt (req_body req) "message" in
  let conversationHistory :=
    default_to (get_opt (req_body req) "conversationHistory") (VArr []) in
  let userId := req_userId req in
  if negb (truthy message) then ret (json (JsonFail "Message is required"))
  else
    let* context := lift (conversationContext conversationHistory) in
    let modelName := env_or (GEMINI_MODEL_NAME Sv) "gemini-2.5-flash" in
    emit (EvGetGenerativeModel modelName) ;;
    let prompt := build_prompt context message in
    let* out := retry_loop prompt (initial_loop_state modelName) in
    let* result :=
      match fst out with
      | Some result => ret result
      | None =>
          throw (match lastError (snd out) with
                 | Some e => e
                 | None => NO_RESULT_ERROR
                 end)
      end in
    let* text := lift result in
    answer userId text.

Definition is_auth_error (error : js_error) : bool :=
  match err_status error with
  | Some s => (s =? 401)%Z || (s =? 403)%Z
  | None => false
  end.

Definition NOT_CONFIGURED : string :=
  "AI service is not configured. Please set GEMINI_API_KEY in your environment variables.".
Definition CANNOT_CONNECT : string :=
  "Unable to connect to AI service. Please check your internet connection and API key.".
Definition MODEL_NOT_FOUND : string :=
  "AI model not found. Please check if " ++ DQ
  ++ env_or (GEMINI_MODEL_NAME Sv) "gemini-2.0-flash-exp" ++ DQ
  ++ " is a valid model name.".
Definition AUTH_FAILED : string :=
  "AI service authentication failed. Please check your GEMINI_API_KEY.".
Definition APOLOGY : string :=
  "I'm sorry, I encountered an error. Please try again or rephrase your question.".

(** The [catch] block. *)
Definition chat_error (error : js_error) : Response :=
  if env_unset (GEMINI_API_KEY Sv) then json (JsonFail NOT_CONFIGURED)
  else if is_network_error error then json (JsonFail CANNOT_CONNECT)
  else if is_model_not_found error then json (JsonFail MODEL_NOT_FOUND)
  else if is_auth_error error then json (JsonFail AUTH_FAILED)
  else json (JsonFail APOLOGY).

Definition chatWithAI (req : Request) : M Response :=
  try_catch (chat req) (fun error => ret (chat_error error)).

(** ** [createBookingViaAI] *)

(** [+guests || 1] *)
Definition guests_or_1 (guests : jsval) : number :=
  if num_falsy (ToNumber R guests) then Fin 1 else ToNumber R guests.

Definition confirmation_html (user : User) (booking : Booking) (hotel : Hotel)
    (checkIn checkOut totalPrice : number) : string :=
"
          <h2>Your Booking Details</h2>
          <p>Dear " ++ to_string R (js_or (user_username user) (user_email user)) ++ ",</p>
          <p>Thank you for your booking! Here are your details:</p>
          <ul>
            <li><strong>Booking ID:</strong> " ++ booking__id booking ++ "</li>
            <li><strong>Hotel Name:</strong> " ++ hotel_name hotel ++ "</li>
            <li><strong>Location:</strong> " ++ hotel_address hotel ++ "</li>
            <li><strong>Check-in:</strong> " ++ toDateString R checkIn ++ "</li>
            <li><strong>Check-out:</strong> " ++ toDateString R checkOut ++ "</li>
            <li><strong>Booking Amount:</strong> " ++ env_or (CURRENCY Sv) "₹" ++ " " ++ num_to_string R totalPrice ++ "</li>
          </ul>
          <p>We look forward to welcoming you!</p>
          <p>If you need to make any changes, feel free to contact us.</p>
        ".

Definition confirmation_mail (user : User) (booking : Booking) (hotel : Hotel)
    (checkIn checkOut totalPrice : number) : MailOptions :=
  mkMail (SENDER_EMAIL Sv) (user_email user) "Hotel Booking Details"
         (confirmation_html user booking hotel checkIn checkOut totalPrice).

(** The body of the [try] block. *)
Definition book (req : Request) : M Response :=
  destructure R "roomId" "req.body" (req_body req) ;;
  let roomId := get_opt (req_body req) "roomId" in
  let checkInDate := get_opt (req_body req) "checkInDate" in
  let checkOutDate := get_opt (req_body req) "checkOutDate" in
  let guests := get_opt (req_body req) "guests" in
  let userId := req_userId req in
  if negb (truthy userId) then
    ret (json (JsonFail "You need to be logged in to make a booking"))
  else
    let* found_user := call_User_findById userId in
    match found_user with
    | None => ret (json (JsonFail "User not found"))
    | Some user =>
        let* isAvailable :=
          call_checkAvailability roomId (Date_new R checkInDate)
                                 (Date_new R checkOutDate) in
        if negb isAvailable then
          ret (json (JsonFail "Room is not available for the selected dates"))
        else
          let* found_room := call_Room_findById roomId in
          match found_room with
          | None => ret (json (JsonFail "Room not found"))
          | Some roomData =>
              let checkIn := Date_new R checkInDate in
              let checkOut := Date_new R checkOutDate in
              let timeDiff := num_sub checkOut checkIn in
              let nights := Math_ceil (num_div timeDiff MS_PER_DAY) in
              let totalPrice := num_mul (room_pricePerNight roomData) nights in
              match room_hotel roomData with
              | None => throw (TypeError_read true "_id")
              | Some hotel =>
                  let* booking :=
                    call_Booking_create
                      (fun _id =>
                         mkBooking _id userId roomId (hotel__id hotel)
                                   (guests_or_1 guests) checkInDate checkOutDate
                                   totalPrice) in
                  try_catch
                    (call_sendMail
                       (confirmation_mail user booking hotel checkIn checkOut
                                          totalPrice))
                    (fun emailError => ret tt) ;;
                  ret (json (JsonBooked "Booking created successfully!"
                               (mkBookingInfo
                                  (booking__id booking) (booking__id booking)
                                  (hotel_name hotel)
                                  (toDateString R checkIn)
                                  (toDateString R checkOut)
                                  totalPrice nights)))
              end
          end
    end.

Definition createBookingViaAI (req : Request) : M Response :=
  try_catch (book req)
    (fun error => ret (json (JsonFail "Failed to create booking. Please try again."))).

End Controller.

End AiAgent.

(* ===================================================================== *)
(** * The Clerk webhook controller                                        *)
(* ===================================================================== *)

Module Clerk.

(** The users are matched by strict equality of their [_id]; the casts
    that Mongoose applies to a filter are not modelled. *)

Section Controller.

Variable R : Runtime.
Variable Sv : Services.

(** [`${data.first_name || ""} ${data.last_name || ""}`.trim() ||
     "Unknown User"] *)
Definition username_of (data : jsval) : jsval :=
  js_or
    (VStr (String_trim R
             (to_string R (js_or (get_opt data "first_name") (VStr ""))
              ++ " "
              ++ to_string R (js_or (get_opt data "last_name") (VStr "")))))
    (VStr "Unknown User").

Definition userData_of (data : jsval) : User :=
  mkUser
    (get_opt data "id")
    (js_or (get_opt (first_opt (get_opt data "email_addresses")) "email_address")
           (VStr "unknown@example.com"))
    (username_of data)
    (js_or (get_opt data "image_url")
           (VStr "https://example.com/default-avatar.png"))
    "user"
    [].

Definition has_id (id : jsval) (u : User) : bool := strict_eq (user__id u) id.

(** The first document with this [_id] is replaced. *)
Fixpoint update_first (id : jsval) (userData : User) (us : list User)
  : option (list User) :=
  match us with
  | [] => None
  | u :: us' =>
      if has_id id u then Some (userData :: us')
      else match update_first id userData us' with
           | Some us'' => Some (u :: us'')
           | None => None
           end
  end.

(** The first document with this [_id] is removed. *)
Fixpoint delete_first (id : jsval) (us : list User) : list User :=
  match us with
  | [] => []
  | u :: us' => if has_id id u then us' else u :: delete_first id us'
  end.

(** [User.findOneAndUpdate({ _id: id }, userData, { upsert: true, ... })] *)
Definition User_findOneAndUpdate_upsert (id : jsval) (userData : User) : M unit :=
  emit (EvUserFindOneAndUpdate id) ;;
  of_error (User_write_error Sv (EvUserFindOneAndUpdate id)) ;;
  let* w := get_world in
  set_users (match update_first id userData (users w) with
             | Some us => us
             | None => (users w ++ [userData])%list
             end).

(** [User.findByIdAndUpdate(id, userData, { new: true })] *)
Definition User_findByIdAndUpdate (id : jsval) (userData : User) : M unit :=
  emit (EvUserFindByIdAndUpdate id) ;;
  of_error (User_write_error Sv (EvUserFindByIdAndUpdate id)) ;;
  let* w := get_world in
  set_users (match update_first id userData (users w) with
             | Some us => us
             | None => users w
             end).

(** [User.findByIdAndDelete(id)] *)
Definition User_findByIdAndDelete (id : jsval) : M unit :=
  emit (EvUserFindByIdAndDelete id) ;;
  of_error (User_write_error Sv (EvUserFindByIdAndDelete id)) ;;
  let* w := get_world in
  set_users (delete_first id (users w)).

(** [new Webhook(process.env.CLERK_WEBHOOK_SECRET)] and
    [whook.verify(JSON.stringify(req.body), headers)] *)
Definition verify (req : Request) : M unit :=
  emit (EvVerify (req_body req)) ;;
  of_error (Webhook_verify Sv (req_body req) (req_svix_id req)
              (req_svix_timestamp req) (req_svix_signature req)).

(** The body of the [try] block. *)
Definition webhook (req : Request) : M Response :=
  verify req ;;
  destructure R "data" "req.body" (req_body req) ;;
  let data := get_opt (req_body req) "data" in
  let type := get_opt (req_body req) "type" in
  let* id := lift (get data "id") in
  let userData := userData_of data in
  (if strict_eq type (VStr "user.created") then
     User_findOneAndUpdate_upsert id userData
   else if strict_eq type (VStr "user.updated") then
     User_findByIdAndUpdate id userData
   else if strict_eq type (VStr "user.deleted") then
     User_findByIdAndDelete id
   else ret tt) ;;
  ret (json (JsonOk "Webhook received")).

Definition clerkWebhooks (req : Request) : M Response :=
  try_catch (webhook req)
    (fun error => ret (mkResponse 500 (JsonFail (err_message error)))).

End Controller.

End Clerk.

(* ===================================================================== *)
(** * The availability check of the booking controller                    *)
(* ===================================================================== *)

Module BookingController.

Section Availability.

Variable R : Runtime.

(** [a <= b] on time values (false when one of them is no date). *)
Definition time_le (a b : number) : bool :=
  match a, b with
  | Fin p, Fin q => Qle_bool p q
  | _, _ => false
  end.

(** Modelled from the spec: [checkAvailability] of [bookingController.js],
    which the AI agent controller imports, is not among the sources.  The
    spec has one invariant, that the dates must not overlap for a given
    room, a single range-overlap predicate: a booking overlaps a request
    when it is for the same room and the two date ranges meet (end
    points included). *)
Definition overlaps (room : jsval) (checkInDate checkOutDate : number)
    (b : Booking) : bool :=
  strict_eq (booking_room b) room
  && time_le (Date_new R (booking_checkInDate b)) checkOutDate
  && time_le checkInDate (Date_new R (booking_checkOutDate b)).

(** Modelled from the spec: the room is available when no booking of the
    room overlaps the requested range. *)
Definition checkAvailability_spec (bookings : list Booking) (room : jsval)
    (checkInDate checkOutDate : number) : result bool :=
  Ok (negb (existsb (overlaps room checkInDate checkOutDate) bookings)).

End Availability.

End BookingController.

(* ===================================================================== *)
(** * Specifications: canned replies and runs of the retry loop           *)
(* ===================================================================== *)

Import AiAgent.

Module Canned.

Section Canned.

Variable R : Runtime.
Variable Sv : Services.

Definition modelName : string := env_or (GEMINI_MODEL_NAME Sv) "gemini-2.5-flash".

(** The prompt of a request whose history gives [context]. *)
Definition prompt_of (req : Request) (context : string) : string :=
  build_prompt R context (get_opt (req_body req) "message").

(** The request has a message, its history gives [context], and the
    language model answers the first call of the request with [text],
    which parses to [aiAnalysis]. *)
Definition replies (req : Request) (w : World) (context text : string)
    (aiAnalysis : jsval) : Prop :=
  nullish (req_body req) = false /\
  truthy (get_opt (req_body req) "message") = true /\
  conversationContext R
    (default_to (get_opt (req_body req) "conversationHistory") (VArr []))
  = Ok context /\
  generateContent Sv (count is_generateContent (trace w)) modelName
    (prompt_of req context)
  = Ok (Ok text) /\
  JSON_parse R (strip_code_fences R text) = Some aiAnalysis.

(** The world after the two calls that get the reply: for the model and
    for its answer. *)
Definition after_reply (req : Request) (w : World) (context text : string)
  : World :=
  mkWorld (users w) (bookings w)
    (EvGenerateContent modelName (prompt_of req context) (Ok (Ok text))
     :: EvGetGenerativeModel modelName :: trace w).

(** The reply [v], with the sentence about the missing information
    [nc] when there is some. *)
Definition clarified (nc : list jsval) (v : jsval) : jsval :=
  match nc with
  | [] => v
  | _ => VStr (to_string R v ++ LF ++ LF ++ "I need a bit more information: "
               ++ array_join R ", " nc)
  end.

(** What the search case does: the room search, then the reply with the
    rooms. *)
Definition search_reply (aiAnalysis : jsval) : M Response :=
  let* rooms := searchHotels R Sv (get_opt aiAnalysis "extractedData") in
  let* text := lift (formatRoomsForAI R rooms) in
  let* summaries := lift (map_result room_summary rooms) in
  ret (json (JsonChat (VStr text) (Some (search_results summaries))
               (get_opt aiAnalysis "intent"))).

(** The summary that the book case builds for a room and its hotel. *)
Definition booking_summary (extractedData : jsval) (room : Room) (hotel : Hotel)
  : jsval * ActionData :=
  let checkInDate := get_opt extractedData "checkInDate" in
  let checkOutDate := get_opt extractedData "checkOutDate" in
  let guests := js_or (get_opt extractedData "guests") (VNum (Fin 1)) in
  let totalPrice :=
    num_mul (room_pricePerNight room)
      (nights_between (Date_new R checkInDate) (Date_new R checkOutDate)) in
  (VStr (summary_text R hotel room (Date_new R checkInDate)
           (Date_new R checkOutDate) guests totalPrice),
   booking_confirmation (room__id room) (hotel_name hotel)
     checkInDate checkOutDate guests totalPrice).

End Canned.

End Canned.

Import Canned.

Module RetryLoop.

(** The runs of the loop, turn by turn: from the loop variables [st],
    when [n] calls of [generateContent] were made before, the loop logs
    the events [evs] (most recent first) and ends with [out]. *)
Inductive loop_run (Sv : Services) (prompt : string)
  : LoopState -> nat -> list Event
    -> result (option (result string) * LoopState) -> Prop :=
| run_exhausted st n :
    (0 <? retries st)%nat = false ->
    loop_run Sv prompt st n [] (Ok (None, st))
| run_answer st n res :
    (0 <? retries st)%nat = true ->
    generateContent Sv n (currentModel st) prompt = Ok res ->
    loop_run Sv prompt st n
      [EvGenerateContent (currentModel st) prompt (Ok res)]
      (Ok (Some res, st))
| run_fallback st n error evs out :
    (0 <? retries st)%nat = true ->
    generateContent Sv n (currentModel st) prompt = Throw error ->
    should_fallback st error = true ->
    loop_run Sv prompt (fallback st error) (S n) evs out ->
    loop_run Sv prompt st n
      (evs ++ [EvGetGenerativeModel (currentModel (fallback st error));
               EvGenerateContent (currentModel st) prompt (Throw error)])%list
      out
| run_retry st n error evs out :
    (0 <? retries st)%nat = true ->
    generateContent Sv n (currentModel st) prompt = Throw error ->
    should_fallback st error = false ->
    should_retry st error = true ->
    loop_run Sv prompt (retry st error) (S n) evs out ->
    loop_run Sv prompt st n
      (evs ++ [EvSleep 1000;
               EvGenerateContent (currentModel st) prompt (Throw error)])%list
      out
| run_rethrow st n error :
    (0 <? retries st)%nat = true ->
    generateContent Sv n (currentModel st) prompt = Throw error ->
    should_fallback st error = false ->
    should_retry st error = false ->
    loop_run Sv prompt st n
      [EvGenerateContent (currentModel st) prompt (Throw error)]
      (Throw error).

(** The events that the loop logs. *)
Definition loop_event (e : Event) : bool :=
  match e with
  | EvGenerateContent _ _ _ | EvSleep 1000 => true
  | EvGetGenerativeModel m => existsb (String.eqb m) (tl fallbackModels)
  | _ => false
  end.

(** Events that are no call of the language model and no wait. *)
Definition quiet (e : Event) : bool :=
  match e with
  | EvGenerateContent _ _ _ | EvSleep _ | EvGetGenerativeModel _ => false
  | _ => true
  end.

End RetryLoop.

Import RetryLoop.

(* ===================================================================== *)
(** * A runtime, services and data for the test cases                     *)
(* ===================================================================== *)

Module Fixture.

Definition digits (z : Z) : string := NilZero.string_of_int (Z.to_int z).

(** Integers below [10 ^ 21] print as in JavaScript; the test cases
    print no other number, and this runtime prints them as a fraction. *)
Definition Number_toString (q : Q) : string :=
  let r := Qred q in
  if (Z.pos (Qden r) =? 1)%Z then digits (Qnum r)
  else digits (Qnum r) ++ "/" ++ digits (Z.pos (Qden r)).

Definition nat_of_digits (s : string) : option Z :=
  if s =? "" then None
  else option_map Z.of_uint (NilEmpty.uint_of_string s).

(** Decimal numerals without sign, and the empty string, which is 0. *)
Definition StringToNumber (s : string) : number :=
  if s =? "" then Fin 0
  else match nat_of_digits s with
       | Some z => round64 (inject_Z z)
       | None => NaN
       end.

(** Days from 1970-01-01 to the day [d] of month [m] of year [y]
    (proleptic Gregorian calendar). *)
Definition days_from_civil (y m d : Z) : Z :=
  let y' := if (m <=? 2)%Z then (y - 1)%Z else y in
  let era := (y' / 400)%Z in
  let yoe := (y' - era * 400)%Z in
  let mp := if (m >? 2)%Z then (m - 3)%Z else (m + 9)%Z in
  let doy := ((153 * mp + 2) / 5 + d - 1)%Z in
  let doe := (yoe * 365 + yoe / 4 - yoe / 100 + doy)%Z in
  (era * 146097 + doe - 719468)%Z.

(** Year, month and day of the day number [z]. *)
Definition civil_from_days (z : Z) : Z * Z * Z :=
  let z := (z + 719468)%Z in
  let era := (z / 146097)%Z in
  let doe := (z - era * 146097)%Z in
  let yoe := ((doe - doe / 1460 + doe / 36524 - doe / 146096) / 365)%Z in
  let doy := (doe - (365 * yoe + yoe / 4 - yoe / 100))%Z in
  let mp := ((5 * doy + 2) / 153)%Z in
  let d := (doy - (153 * mp + 2) / 5 + 1)%Z in
  let m := if (mp <? 10)%Z then (mp + 3)%Z else (mp - 9)%Z in
  let y := (yoe + era * 400)%Z in
  ((if (m <=? 2)%Z then y + 1 else y)%Z, m, d).

(** Dates written YYYY-MM-DD, at midnight UTC. *)
Definition Date_parse (s : string) : option Z :=
  if negb (String.length s =? 10)%nat then None
  else if negb ((substring 4 1 s =? "-") && (substring 7 1 s =? "-")) then None
  else
    match nat_of_digits (substring 0 4 s), nat_of_digits (substring 5 2 s),
          nat_of_digits (substring 8 2 s) with
    | Some y, Some m, Some d =>
        let days := days_from_civil y m d in
        if ((1 <=? m) && (m <=? 12) && (1 <=? d))%Z
           && (let '(y', m', d') := civil_from_days days in
               (y' =? y) && (m' =? m) && (d' =? d))%Z
        then Some (days * 86400000)%Z
        else None
    | _, _, _ => None
    end.

Definition pad (width : nat) (s : string) : string :=
  String.concat "" (repeat "0" (width - String.length s)) ++ s.

Definition Date_toDateString (t : Z) : string :=
  let days := (t / 86400000)%Z in
  let '(y, m, d) := civil_from_days days in
  nth (Z.to_nat ((days + 4) mod 7))
      ["Sun"; "Mon"; "Tue"; "Wed"; "Thu"; "Fri"; "Sat"] "" ++ " "
  ++ nth (Z.to_nat (m - 1))
       ["Jan"; "Feb"; "Mar"; "Apr"; "May"; "Jun";
        "Jul"; "Aug"; "Sep"; "Oct"; "Nov"; "Dec"] "" ++ " "
  ++ pad 2 (digits d) ++ " " ++ pad 4 (digits y).

Definition is_space (c : ascii) : bool :=
  let n := nat_of_ascii c in
  ((9 <=? n) && (n <=? 13) || (n =? 32))%nat.

Fixpoint trim_left (s : string) : string :=
  match s with
  | String c s' => if is_space c then trim_left s' else s
  | EmptyString => EmptyString
  end.

Fixpoint rev_string (acc s : string) : string :=
  match s with
  | EmptyString => acc
  | String c s' => rev_string (String c acc) s'
  end.

(** ASCII white space is trimmed. *)
Definition String_trim (s : string) : string :=
  rev_string "" (trim_left (rev_string "" (trim_left s))).

(** The replies of the language model used in the test cases, written
    with [~] for the double quote, and the values that they denote. *)
Definition question_text : string := AiAgent.requote
  "{~intent~: ~question~, ~needsClarification~: [~dates~], ~response~: ~Sure~}".
Definition question_json : jsval :=
  VObj [("intent", VStr "question");
        ("needsClarification", VArr [VStr "dates"]);
        ("response", VStr "Sure")].

Definition book_extracted : jsval :=
  VObj [("roomId", VStr "room1");
        ("checkInDate", VStr "2025-01-01");
        ("checkOutDate", VStr "2025-01-04");
        ("guests", VNum (Fin 2))].

Definition book_text : string := AiAgent.requote
  "```json
{~intent~: ~book~, ~extractedData~: {~roomId~: ~room1~, ~checkInDate~: ~2025-01-01~, ~checkOutDate~: ~2025-01-04~, ~guests~: 2}, ~needsClarification~: [], ~response~: ~Booking...~}
```".
Definition book_json : jsval :=
  VObj [("intent", VStr "book");
        ("extractedData", book_extracted);
        ("needsClarification", VArr []);
        ("response", VStr "Booking...")].

Definition check_text : string := AiAgent.requote
  "{~intent~: ~check_availability~, ~extractedData~: {~roomId~: ~room1~, ~checkInDate~: ~2025-01-01~, ~checkOutDate~: ~2025-01-04~, ~guests~: 2}, ~needsClarification~: [], ~response~: ~Checking...~}".
Definition check_json : jsval :=
  VObj [("intent", VStr "check_availability");
        ("extractedData", book_extracted);
        ("needsClarification", VArr []);
        ("response", VStr "Checking...")].

Definition greeting_text : string := AiAgent.requote
  "{~intent~: ~greeting~, ~needsClarification~: [], ~response~: ~Hi!~}".
Definition greeting_json : jsval :=
  VObj [("intent", VStr "greeting");
        ("needsClarification", VArr []);
        ("response", VStr "Hi!")].

Definition search_text : string := AiAgent.requote
  "{~intent~: ~search~, ~extractedData~: {~city~: ~Goa~}, ~needsClarification~: [], ~response~: ~Searching...~}".
Definition search_json : jsval :=
  VObj [("intent", VStr "search");
        ("extractedData", VObj [("city", VStr "Goa")]);
        ("needsClarification", VArr []);
        ("response", VStr "Searching...")].

(** A parser for the JSON of the test cases: objects, arrays, strings
    without escapes, integers, [true], [false] and [null]. *)
Inductive token : Type :=
| TLBrace | TRBrace | TLBracket | TRBracket | TColon | TComma
| TString (s : string)
| TNumber (z : Z)
| TWord (s : string).

Inductive lexer_state : Type :=
| Idle
| InString (acc : string)
| InNumber (acc : string)
| InWord (acc : string).

Definition punctuation (c : ascii) : option token :=
  if Ascii.eqb c "{" then Some TLBrace
  else if Ascii.eqb c "}" then Some TRBrace
  else if Ascii.eqb c "[" then Some TLBracket
  else if Ascii.eqb c "]" then Some TRBracket
  else if Ascii.eqb c ":" then Some TColon
  else if Ascii.eqb c "," then Some TComma
  else None.

Definition is_digit (c : ascii) : bool :=
  let n := nat_of_ascii c in ((48 <=? n) && (n <=? 57))%nat.

Definition is_letter (c : ascii) : bool :=
  let n := nat_of_ascii c in ((97 <=? n) && (n <=? 122))%nat.

Definition number_token (acc : string) : option token :=
  match rev_string "" acc with
  | String "-" ds => option_map (fun z => TNumber (- z)) (nat_of_digits ds)
  | ds => option_map TNumber (nat_of_digits ds)
  end.

(** What has been read so far, as a token. *)
Definition flush (st : lexer_state) : option (list token) :=
  match st with
  | Idle => Some []
  | InString _ => None
  | InNumber acc => option_map (fun t => [t]) (number_token acc)
  | InWord acc => Some [TWord (rev_string "" acc)]
  end.

Definition cons_tokens (ts : option (list token)) (rest : option (list token))
  : option (list token) :=
  match ts, rest with
  | Some a, Some b => Some (a ++ b)%list
  | _, _ => None
  end.

Fixpoint tokenize (st : lexer_state) (s : string) : option (list token) :=
  match s with
  | EmptyString => flush st
  | String c s' =>
      match st with
      | InString acc =>
          if Ascii.eqb c "034" then
            cons_tokens (Some [TString (rev_string "" acc)]) (tokenize Idle s')
          else if Ascii.eqb c "\" then None
          else tokenize (InString (String c acc)) s'
      | _ =>
          if Ascii.eqb c "034" then cons_tokens (flush st) (tokenize (InString "") s')
          else if is_space c then cons_tokens (flush st) (tokenize Idle s')
          else
            match punctuation c with
            | Some t => cons_tokens (flush st) (cons_tokens (Some [t]) (tokenize Idle s'))
            | None =>
                match st with
                | Idle =>
                    if is_digit c || Ascii.eqb c "-"
                    then tokenize (InNumber (String c "")) s'
                    else if is_letter c then tokenize (InWord (String c "")) s'
                    else None
                | InNumber acc =>
                    if is_digit c then tokenize (InNumber (String c acc)) s' else None
                | InWord acc =>
                    if is_letter c then tokenize (InWord (String c acc)) s' else None
                | InString _ => None
                end
            end
      end
  end.

Fixpoint parse_value (fuel : nat) (ts : list token) : option (jsval * list token) :=
  match fuel with
  | O => None
  | S fuel' =>
      match ts with
      | TString s :: r => Some (VStr s, r)
      | TNumber z :: r => Some (VNum (round64 (inject_Z z)), r)
      | TWord w :: r =>
          if w =? "null" then Some (VNull, r)
          else if w =? "true" then Some (VBool true, r)
          else if w =? "false" then Some (VBool false, r)
          else None
      | TLBracket :: TRBracket :: r => Some (VArr [], r)
      | TLBracket :: r =>
          match parse_elements fuel' r with
          | Some (xs, r') => Some (VArr xs, r')
          | None => None
          end
      | TLBrace :: TRBrace :: r => Some (VObj [], r)
      | TLBrace :: r =>
          match parse_members fuel' r with
          | Some (fs, r') => Some (VObj fs, r')
          | None => None
          end
      | _ => None
      end
  end
with parse_elements (fuel : nat) (ts : list token)
  : option (list jsval * list token) :=
  match fuel with
  | O => None
  | S fuel' =>
      match parse_value fuel' ts with
      | Some (x, TComma :: r) =>
          match parse_elements fuel' r with
          | Some (xs, r') => Some (x :: xs, r')
          | None => None
          end
      | Some (x, TRBracket :: r) => Some ([x], r)
      | _ => None
      end
  end
with parse_members (fuel : nat) (ts : list token)
  : option (list (string * jsval) * list token) :=
  match fuel with
  | O => None
  | S fuel' =>
      match ts with
      | TString k :: TColon :: r =>
          match parse_value fuel' r with
          | Some (x, TComma :: r') =>
              match parse_members fuel' r' with
              | Some (fs, r'') => Some ((k, x) :: fs, r'')
              | None => None
              end
          | Some (x, TRBrace :: r') => Some ([(k, x)], r')
          | _ => None
          end
      | _ => None
      end
  end.

Definition JSON_parse (s : string) : option jsval :=
  match tokenize Idle s with
  | Some ts =>
      match parse_value (2 * List.length ts + 1) ts with
      | Some (v, []) => Some v
      | _ => None
      end
  | None => None
  end.

Definition runtime : Runtime :=
  mkRuntime Number_toString StringToNumber Date_parse Date_toDateString
            String_trim JSON_parse.

Definition hotel1 : Hotel := mkHotel "hotel1" "Sea View" "1 Beach Road" "Goa".

Definition room1 : Room :=
  mkRoom "room1" (Some hotel1) "Double Bed" (Fin 2000) ["Free WiFi"; "Pool Access"] [].

Definition alice : User :=
  mkUser (VStr "user_1") (VStr "alice@example.com") (VStr "Alice")
         (VStr "https://example.com/a.png") "user" [].

(** A booking of room1 from 2025-01-03 to 2025-01-05. *)
Definition booking0 : Booking :=
  mkBooking "b0" (VStr "user_1") (VStr "room1") "hotel1" (Fin 2)
            (VStr "2025-01-03") (VStr "2025-01-05") (Fin 4000).

(** The services of the test cases: the language model answers call
    number [n] with the [n]-th entry of [script], the mailer fails with
    [mail_error] if there is one, room1 of hotel1 is the only room. *)
Definition services (script : list (result (result string)))
    (mail_error : option js_error) : Services :=
  mkServices
    (Some "key") None (Some "noreply@example.com") None
    (fun n _ _ => nth n script (Throw (mkError "no more replies" None)))
    (fun _ => None)
    (fun city => Ok (if includes "Goa" city then [hotel1] else []))
    (fun q => Ok (match q_hotel_in q with
                  | Some ids => if existsb (String.eqb "hotel1") ids then [room1] else []
                  | None => [room1]
                  end))
    (fun id => Ok (if strict_eq id (VStr "room1") then Some room1 else None))
    (fun _ => None)
    (BookingController.checkAvailability_spec runtime)
    (fun n => "b" ++ digits (Z.of_nat n))
    (fun _ => None)
    (fun _ => mail_error)
    (fun _ _ _ _ => None)
    (fun _ => None).

Definition world0 : World := mkWorld [alice] [] [].
Definition world1 : World := mkWorld [alice] [booking0] [].

Definition request (body userId : jsval) : Request :=
  mkRequest body userId VUndefined VUndefined VUndefined.

Definition book_request (checkIn checkOut : string) (guests : jsval) : Request :=
  request (VObj [("roomId", VStr "room1");
                 ("checkInDate", VStr checkIn);
                 ("checkOutDate", VStr checkOut);
                 ("guests", guests)])
          (VStr "user_1").

Definition chat_request (userId : jsval) : Request :=
  request (VObj [("message", VStr "hello")]) userId.

(** A Clerk event of the given type about the user [user_1]. *)
Definition clerk_request (type : string) : Request :=
  mkRequest
    (VObj [("type", VStr type);
           ("data", VObj [("id", VStr "user_1");
                          ("first_name", VStr "Alice");
                          ("last_name", VStr "Liddell")])])
    VUndefined (VStr "msg_1") (VStr "1735689600") (VStr "v1,c2lnbmF0dXJl").

End Fixture.

(* ===================================================================== *)
(** * The doubles of the Standard Library                                 *)
(* ===================================================================== *)

(** [SpecFloat] implements the operations of IEEE 754 on binary
    floating-point numbers; with 53 bits of precision and exponents
    below 1024 they are those of binary64.  They are the reference that
    [num_sub], [num_mul] and [num_div] are tested against. *)
Module Binary64.

Definition prec : Z := 53.
Definition emax : Z := 1024.

(** The double [m * 2 ^ e], for [m] of 53 bits at most. *)
Definition double (m e : Z) : spec_float := binary_normalize prec emax m e false.

Definition value (f : spec_float) : number :=
  match f with
  | S754_zero _ => Fin 0
  | S754_infinity s => Inf s
  | S754_nan => NaN
  | S754_finite s m e =>
      Fin (Qred (inject_Z (if s then Z.neg m else Z.pos m) * pow2 e))
  end.

Definition same (a b : number) : bool :=
  match a, b with
  | NaN, NaN => true
  | Inf s, Inf t => Bool.eqb s t
  | Fin p, Fin q => Qeq_bool p q
  | _, _ => false
  end.

(** 0, 1, 2, 3, 10, 24, 1000, 3600, 86400000, 0.1, 0.3, 99.99, 2000, -7,
    the last time value and the first, three more time values, the
    least and the greatest positive double, and [2 ^ 53 - 1] and
    [2 ^ 53 + 2] with their negatives. *)
Definition samples : list spec_float :=
  [double 0 0; double 1 0; double 2 0; double 3 0; double 10 0; double 24 0;
   double 1000 0; double 3600 0; double 86400000 0;
   double 3602879701896397 (-55); double 5404319552844595 (-54);
   double 7036170730324623 (-46); double 2000 0; double (-7) 0;
   double 8640000000000000 0; double (-8640000000000000) 0;
   double 367199308800001 0; double 1735689600000 0; double 1735948800000 0;
   double 1 (-1074); double 9007199254740991 971;
   double 9007199254740991 0; double (-9007199254740991) 0;
   double 4503599627370497 1; double (-4503599627370497) 1].

Definition agree (f : spec_float -> spec_float -> spec_float)
    (g : number -> number -> number) : bool :=
  forallb (fun x =>
             forallb (fun y => same (value (f x y)) (g (value x) (value y)))
               samples)
    samples.

End Binary64.


(* ===================================================================== *)
(** * Reasoning about computations                                        *)
(* ===================================================================== *)

Module Frames.

(** A relation between the world before and the world after that every
    step keeps: reflexive and transitive. *)
Class Frame (P : World -> World -> Prop) : Prop := {
  frame_refl : forall w, P w w;
  frame_trans : forall a b c, P a b -> P b c -> P a c
}.

Definition preserves (P : World -> World -> Prop) {A} (m : M A) : Prop :=
  forall w r w', m w = (r, w') -> P w w'.

(** The collections are what they were. *)
Definition same_data (w w' : World) : Prop :=
  users w' = users w /\ bookings w' = bookings w.

(** The log has grown by events that all satisfy [ok]. *)
Definition logs (ok : Event -> bool) (w w' : World) : Prop :=
  exists evs, trace w' = (evs ++ trace w)%list /\ forallb ok evs = true.

(** The events logged between [w] and a later world [w']. *)
Definition new_events (w w' : World) : list Event :=
  firstn (List.length (trace w') - List.length (trace w)) (trace w').

End Frames.

Import Frames.

Section Preserves.

Context (P : World -> World -> Prop) `{Frame P}.

Lemma preserves_ret {A} (a : A) : preserves P (ret a).
Proof. intros w r w' E. inversion E; subst. apply frame_refl. Qed.

Lemma preserves_throw {A} e : preserves P (@throw A e).
Proof. intros w r w' E. inversion E; subst. apply frame_refl. Qed.

Lemma preserves_lift {A} (x : result A) : preserves P (lift x).
Proof. intros w r w' E. inversion E; subst. apply frame_refl. Qed.

Lemma preserves_get_world : preserves P get_world.
Proof. intros w r w' E. inversion E; subst. apply frame_refl. Qed.

Lemma preserves_of_error o : preserves P (of_error o).
Proof. destruct o; [apply preserves_throw | apply preserves_ret]. Qed.

Lemma preserves_destructure R prop what v : preserves P (destructure R prop what v).
Proof.
  unfold destructure. destruct (nullish v);
    [apply preserves_throw | apply preserves_ret].
Qed.

Lemma preserves_bind {A B} (m : M A) (k : A -> M B) :
  preserves P m -> (forall a, preserves P (k a)) -> preserves P (bind m k).
Proof.
  intros Hm Hk w r w' E. unfold bind in E.
  destruct (m w) as [[a | e] w1] eqn:Em.
  - eapply frame_trans; [eapply Hm; eassumption | eapply Hk; eassumption].
  - inversion E; subst. eapply Hm; eassumption.
Qed.

Lemma preserves_try_catch {A} (m : M A) (h : js_error -> M A) :
  preserves P m -> (forall e, preserves P (h e)) -> preserves P (try_catch m h).
Proof.
  intros Hm Hh w r w' E. unfold try_catch in E.
  destruct (m w) as [[a | e] w1] eqn:Em.
  - inversion E; subst. eapply Hm; eassumption.
  - eapply frame_trans; [eapply Hm; eassumption | eapply Hh; eassumption].
Qed.

End Preserves.

#[export] Instance same_data_Frame : Frame same_data.
Proof.
  split; unfold same_data.
  - intros w; split; reflexivity.
  - intros a b c [H1 H2] [H3 H4]. split; congruence.
Qed.

#[export] Instance logs_Frame ok : Frame (logs ok).
Proof.
  split; unfold logs.
  - intros w. exists []. split; reflexivity.
  - intros a b c [e1 [H1 H2]] [e2 [H3 H4]].
    exists (e2 ++ e1)%list. split.
    + rewrite H3, H1. apply app_assoc.
    + rewrite forallb_app, H2, H4. reflexivity.
Qed.

Lemma same_data_emit e : preserves same_data (emit e).
Proof. intros w r w' E. inversion E; subst. split; reflexivity. Qed.

Lemma logs_emit (ok : Event -> bool) e : ok e = true -> preserves (logs ok) (emit e).
Proof.
  intros Hok w r w' E. inversion E; subst. exists [e]. split; [reflexivity|].
  simpl. rewrite Hok. reflexivity.
Qed.

Lemma new_events_app w w' evs :
  trace w' = (evs ++ trace w)%list -> new_events w w' = evs.
Proof.
  intros E. unfold new_events. rewrite E, length_app.
  replace (List.length evs + List.length (trace w) - List.length (trace w))%nat
    with (List.length evs + 0)%nat by lia.
  rewrite firstn_app_2. simpl. apply app_nil_r.
Qed.

(** One step of a proof that a computation keeps a frame. *)
Ltac preserves_step :=
  lazymatch goal with
  | |- Frame _ => exact _
  | |- preserves _ (ret _) => apply preserves_ret
  | |- preserves _ (throw _) => apply preserves_throw
  | |- preserves _ (lift _) => apply preserves_lift
  | |- preserves _ get_world => apply preserves_get_world
  | |- preserves _ (of_error _) => apply preserves_of_error
  | |- preserves _ (destructure _ _ _ _) => apply preserves_destructure
  | |- preserves _ (bind _ _) => apply preserves_bind; [ | | intros ? ]
  | |- preserves _ (try_catch _ _) => apply preserves_try_catch; [ | | intros ? ]
  | |- preserves _ (if ?c then _ else _) => destruct c
  | |- preserves _ (match ?x with _ => _ end) => destruct x
  | |- preserves _ (let _ := _ in _) => cbv zeta
  end.

(* ===================================================================== *)
(** * What the chat endpoint leaves untouched                             *)
(* ===================================================================== *)

Section LoopPreserves.

Context (P : World -> World -> Prop) `{Frame P}.
Variable Sv : Services.
Hypothesis P_generateContent :
  forall model prompt, preserves P (call_generateContent Sv model prompt).
Hypothesis P_getModel : forall model, preserves P (emit (EvGetGenerativeModel model)).
Hypothesis P_sleep : forall ms, preserves P (emit (EvSleep ms)).

Lemma retry_loop_keeps prompt st w :
  P w (snd (retry_loop Sv prompt st w)).
Proof.
  funelim (retry_loop Sv prompt st w); cbn [snd].
  - apply frame_refl.
  - eapply P_generateContent. reflexivity.
  - eapply frame_trans; [ | eassumption ].
    eapply frame_trans; [ eapply P_generateContent; reflexivity | ].
    eapply P_getModel. reflexivity.
  - eapply frame_trans; [ | eassumption ].
    eapply frame_trans; [ eapply P_generateContent; reflexivity | ].
    eapply P_sleep. reflexivity.
  - eapply P_generateContent. reflexivity.
Qed.

Lemma preserves_retry_loop prompt st : preserves P (retry_loop Sv prompt st).
Proof.
  intros w r w' E. pose proof (retry_loop_keeps prompt st w) as K.
  rewrite E in K. exact K.
Qed.

End LoopPreserves.

Lemma same_data_generateContent Sv model prompt :
  preserves same_data (call_generateContent Sv model prompt).
Proof. intros w r w' E. inversion E; subst. split; reflexivity. Qed.

Lemma same_data_checkAvailability Sv room ci co :
  preserves same_data (call_checkAvailability Sv room ci co).
Proof. intros w r w' E. inversion E; subst. split; reflexivity. Qed.

(** One step of a proof that a computation of the chat endpoint leaves
    the collections as they are. *)
Ltac same_data_step :=
  first
    [ apply same_data_emit
    | apply same_data_generateContent
    | apply same_data_checkAvailability
    | apply preserves_retry_loop;
        [ | intros; apply same_data_generateContent
        | intros; apply same_data_emit | intros; apply same_data_emit ]
    | preserves_step ].

Lemma same_data_searchHotels R Sv query : preserves same_data (searchHotels R Sv query).
Proof.
  unfold searchHotels, new_RegExp, call_Hotel_find, call_Room_find.
  repeat same_data_step.
Qed.

Lemma same_data_handle_intent R Sv userId aiAnalysis aiResponse :
  preserves same_data (handle_intent R Sv userId aiAnalysis aiResponse).
Proof.
  unfold handle_intent, intent_search, intent_check_availability, intent_book,
    call_Room_findById.
  repeat first [ apply same_data_searchHotels | same_data_step ].
Qed.

Lemma same_data_chat R Sv req : preserves same_data (chat R Sv req).
Proof.
  unfold chat, answer.
  repeat first [ apply same_data_handle_intent | same_data_step ].
Qed.

Lemma same_data_chatWithAI R Sv req : preserves same_data (chatWithAI R Sv req).
Proof.
  unfold chatWithAI.
  repeat first [ apply same_data_chat | same_data_step ].
Qed.


Lemma logs_generateContent ok Sv model prompt :
  (forall r, ok (EvGenerateContent model prompt r) = true) ->
  preserves (logs ok) (call_generateContent Sv model prompt).
Proof.
  intros Hok w r w' E. inversion E; subst. eexists [_]. split; [reflexivity|].
  simpl. rewrite Hok. reflexivity.
Qed.

Lemma logs_checkAvailability ok Sv room ci co :
  (forall r, ok (EvCheckAvailability room ci co r) = true) ->
  preserves (logs ok) (call_checkAvailability Sv room ci co).
Proof.
  intros Hok w r w' E. inversion E; subst. eexists [_]. split; [reflexivity|].
  simpl. rewrite Hok. reflexivity.
Qed.

Ltac chat_event_step :=
  first
    [ apply logs_emit; reflexivity
    | apply logs_generateContent; reflexivity
    | apply logs_checkAvailability; reflexivity
    | apply preserves_retry_loop;
        [ | intros; apply logs_generateContent; reflexivity
        | intros; apply logs_emit; reflexivity
        | intros; apply logs_emit; reflexivity ]
    | preserves_step ].

Lemma chat_event_searchHotels R Sv query :
  preserves (logs chat_event) (searchHotels R Sv query).
Proof.
  unfold searchHotels, new_RegExp, call_Hotel_find, call_Room_find.
  repeat chat_event_step.
Qed.

Lemma chat_event_chatWithAI R Sv req :
  preserves (logs chat_event) (chatWithAI R Sv req).
Proof.
  unfold chatWithAI, chat, answer, handle_intent, intent_search,
    intent_check_availability, intent_book, call_Room_findById.
  repeat first [ apply chat_event_searchHotels | chat_event_step ].
Qed.

Lemma count_forallb_false (p ok : Event -> bool) evs :
  (forall e, ok e = true -> p e = false) ->
  forallb ok evs = true -> count p evs = 0%nat.
Proof.
  intros Hp. unfold count. induction evs as [|e evs IH]; simpl; [reflexivity|].
  intros Hall. apply andb_prop in Hall as [He Hall].
  rewrite (Hp e He). auto.
Qed.

(** The chat endpoint never writes: whatever the message and whatever
    the language model answers, the collections are what they were and
    no [Booking.create] is among the calls made. *)
Lemma chatWithAI_read_only R Sv req w :
  bookings (snd (chatWithAI R Sv req w)) = bookings w /\
  users (snd (chatWithAI R Sv req w)) = users w /\
  count is_bookingCreate (new_events w (snd (chatWithAI R Sv req w))) = 0%nat.
Proof.
  destruct (chatWithAI R Sv req w) as [r w'] eqn:E. cbn [snd].
  destruct (same_data_chatWithAI R Sv req w r w' E) as [Hu Hb].
  destruct (chat_event_chatWithAI R Sv req w r w' E) as [evs [Ht Hall]].
  repeat split; try assumption.
  rewrite (new_events_app _ _ _ Ht).
  eapply count_forallb_false; [ | exact Hall ].
  intros [] He; try discriminate He; reflexivity.
Qed.

(* ===================================================================== *)
(** * Running a handler by cases                                          *)
(* ===================================================================== *)

(** The events in front of [tl] in the list [l]. *)
Ltac prefix_of l tl :=
  lazymatch l with
  | tl => constr:(@nil Event)
  | ?e :: ?l' => let p := prefix_of l' tl in constr:(e :: p)
  end.

(** Rewrites [new_events w w'] to the events that [w'] has in front of
    the log of [w]. *)
Ltac new_events_norm :=
  repeat match goal with
  | |- context [new_events ?w ?w'] =>
      let t := eval cbn in (trace w') in
      let t0 := eval cbn in (trace w) in
      let p := prefix_of t t0 in
      rewrite (new_events_app w w' p) by reflexivity
  | H : context [new_events ?w ?w'] |- _ =>
      let t := eval cbn in (trace w') in
      let t0 := eval cbn in (trace w) in
      let p := prefix_of t t0 in
      rewrite (new_events_app w w' p) in H by reflexivity
  end.

(** Case analysis on the innermost scrutinee the goal is stuck on. *)
Ltac case_step :=
  match goal with
  | |- context [match ?x with _ => _ end] =>
      lazymatch x with
      | context [match _ with _ => _ end] => fail
      | _ => destruct x eqn:?
      end
  | H : context [match ?x with _ => _ end] |- _ =>
      lazymatch x with
      | context [match _ with _ => _ end] => fail
      | _ => destruct x eqn:?
      end
  end.

Ltac unfold_monad :=
  cbv beta iota zeta delta
    [bind try_catch ret throw lift emit get_world set_users set_bookings
     of_error destructure] in *.

Ltac unfold_book :=
  cbv beta zeta delta
    [createBookingViaAI book call_User_findById call_checkAvailability
     call_Room_findById call_Booking_create call_sendMail] in *.

Lemma app_one_neq {A} (l : list A) (x : A) : l <> (l ++ [x])%list.
Proof.
  intros E. apply (f_equal (@List.length A)) in E.
  rewrite length_app in E. simpl in E. lia.
Qed.

(** ** The booking endpoint: what a created booking is

    When [createBookingViaAI] adds a document to the bookings, the room
    was found with its hotel, the document is the one built from the
    request and the room, and the reply is the success reply with the
    same price. *)
Lemma createBookingViaAI_created R Sv req w doc :
  let run := createBookingViaAI R Sv req w in
  let body := req_body req in
  let checkIn := Date_new R (get_opt body "checkInDate") in
  let checkOut := Date_new R (get_opt body "checkOutDate") in
  bookings (snd run) = (bookings w ++ [doc])%list ->
  exists room hotel,
    Room_findById Sv (get_opt body "roomId") = Ok (Some room) /\
    room_hotel room = Some hotel /\
    doc = mkBooking (ObjectId Sv (List.length (bookings w))) (req_userId req)
            (get_opt body "roomId") (hotel__id hotel)
            (guests_or_1 R (get_opt body "guests"))
            (get_opt body "checkInDate") (get_opt body "checkOutDate")
            (num_mul (room_pricePerNight room) (nights_between checkIn checkOut)) /\
    fst run =
      Ok (json (JsonBooked "Booking created successfully!"
                  (mkBookingInfo (booking__id doc) (booking__id doc)
                     (hotel_name hotel) (toDateString R checkIn)
                     (toDateString R checkOut)
                     (num_mul (room_pricePerNight room)
                              (nights_between checkIn checkOut))
                     (nights_between checkIn checkOut)))).
Proof.
  cbv zeta. unfold nights_between. unfold_book. unfold_monad.
  repeat (case_step; cbn [fst snd users bookings trace] in * ).
  all: intros Hb; try (exfalso; exact (app_one_neq _ _ Hb)).
  all: apply app_inv_head in Hb; inversion Hb; subst doc.
  all: eexists; eexists; repeat split; try eassumption; reflexivity.
Qed.

(* ===================================================================== *)
(** * Doubles                                                             *)
(* ===================================================================== *)

Section Doubles.

Local Open Scope Q_scope.

Lemma pow2_pos e : 0 < pow2 e.
Proof. apply Qpower_0_lt. reflexivity. Qed.

Lemma pow2_plus a b : pow2 (a + b) == pow2 a * pow2 b.
Proof. apply Qpower_plus. discriminate. Qed.

Lemma pow2_opp a : pow2 (- a) == / pow2 a.
Proof. apply Qpower_opp. Qed.

Lemma pow2_le a b : (a <= b)%Z -> pow2 a <= pow2 b.
Proof. intros H. apply Qpower_le_compat_l; [ exact H | discriminate ]. Qed.

Lemma pow2_lt_inv a b : pow2 a < pow2 b -> (a < b)%Z.
Proof. intros H. apply (Qpower_lt_compat_l_inv 2); [ exact H | reflexivity ]. Qed.

Lemma pow2_Z e : (0 <= e)%Z -> pow2 e == inject_Z (2 ^ e).
Proof. intros H. unfold pow2. rewrite (Zpower_Qpower 2 e H). reflexivity. Qed.

Lemma pow2_succ a : pow2 (a + 1) == 2 * pow2 a.
Proof. rewrite pow2_plus. change (pow2 1) with 2. ring. Qed.

(** [ilog2 q] is not above the binary logarithm of [q]. *)
Lemma ilog2_le q : 0 < q -> pow2 (ilog2 q) <= q.
Proof.
  intros Hq. unfold ilog2.
  destruct (Qle_bool _ q) eqn:E; [ now apply Qle_bool_iff | ].
  destruct q as [n d]. cbn [Qnum Qden] in *.
  assert (Hn : (0 < n)%Z).
  { unfold Qlt in Hq. cbn in Hq. lia. }
  set (a := Z.log2 n). set (b := Z.log2 (Z.pos d)).
  assert (Ha : (2 ^ a <= n)%Z) by (apply Z.log2_spec; exact Hn).
  assert (Hb : (Z.pos d < 2 ^ (b + 1))%Z).
  { replace (b + 1)%Z with (Z.succ b) by lia. apply Z.log2_spec. lia. }
  assert (Ha0 : (0 <= a)%Z) by apply Z.log2_nonneg.
  assert (Hb0 : (0 <= b)%Z) by apply Z.log2_nonneg.
  replace (a - b - 1)%Z with (a - (b + 1))%Z by lia.
  unfold pow2 at 1. rewrite Qpower_minus by discriminate.
  fold (pow2 a). fold (pow2 (b + 1)).
  rewrite (pow2_Z a Ha0), (pow2_Z (b + 1)) by lia.
  rewrite (Qmake_Qdiv n d).
  assert (Hd : 0 < inject_Z (Z.pos d)) by reflexivity.
  assert (Hp : 0 < inject_Z (2 ^ (b + 1))).
  { rewrite <- pow2_Z by lia. apply pow2_pos. }
  apply Qle_shift_div_l; [ exact Hd | ].
  unfold Qdiv. rewrite <- Qmult_assoc, (Qmult_comm (/ _)), Qmult_assoc.
  apply Qle_shift_div_r; [ exact Hp | ].
  rewrite <- !inject_Z_mult. rewrite <- Zle_Qle. nia.
Qed.

(** [ilog2 q] is the binary logarithm of [q], rounded down. *)
Lemma ilog2_lt q : 0 < q -> q < pow2 (ilog2 q + 1).
Proof.
  intros Hq. unfold ilog2.
  destruct (Qle_bool _ q) eqn:E.
  2:{ replace (_ - 1 + 1)%Z with (Z.log2 (Qnum q) - Z.log2 (Z.pos (Qden q)))%Z by lia.
      apply Qnot_le_lt. intros H. apply Qle_bool_iff in H. congruence. }
  clear E. destruct q as [n d]. cbn [Qnum Qden] in *.
  assert (Hn : (0 < n)%Z).
  { unfold Qlt in Hq. cbn in Hq. lia. }
  set (a := Z.log2 n). set (b := Z.log2 (Z.pos d)).
  assert (Ha : (n < 2 ^ (a + 1))%Z).
  { replace (a + 1)%Z with (Z.succ a) by lia. apply Z.log2_spec. exact Hn. }
  assert (Hb : (2 ^ b <= Z.pos d)%Z) by (apply Z.log2_spec; lia).
  assert (Ha0 : (0 <= a)%Z) by apply Z.log2_nonneg.
  assert (Hb0 : (0 <= b)%Z) by apply Z.log2_nonneg.
  replace (a - b + 1)%Z with (a + 1 - b)%Z by lia.
  unfold pow2. rewrite Qpower_minus by discriminate.
  fold (pow2 (a + 1)). fold (pow2 b).
  rewrite (pow2_Z (a + 1)), (pow2_Z b Hb0) by lia.
  rewrite (Qmake_Qdiv n d).
  assert (Hd : 0 < inject_Z (Z.pos d)) by reflexivity.
  assert (Hp : 0 < inject_Z (2 ^ b)).
  { rewrite <- pow2_Z by lia. apply pow2_pos. }
  apply Qlt_shift_div_r; [ exact Hd | ].
  unfold Qdiv. rewrite <- Qmult_assoc, (Qmult_comm (/ _)), Qmult_assoc.
  apply Qlt_shift_div_l; [ exact Hp | ].
  rewrite <- !inject_Z_mult. rewrite <- Zlt_Qlt. nia.
Qed.

(** Rounding to an integer moves a number by a half at most. *)
Lemma round_half_even_close y :
  Qabs (inject_Z (round_half_even y) - y) <= 1 # 2.
Proof.
  unfold round_half_even.
  pose proof (Qfloor_le y) as Hlo. pose proof (Qlt_floor y) as Hhi.
  rewrite inject_Z_plus in Hhi. change (inject_Z 1) with 1 in Hhi.
  apply Qabs_Qle_condition.
  destruct (Qcompare_spec (y - inject_Z (Qfloor y)) (1 # 2)) as [H | H | H].
  - destruct (Z.even _); [ | rewrite inject_Z_plus; change (inject_Z 1) with 1 ];
      split; lra.
  - split; lra.
  - rewrite inject_Z_plus. change (inject_Z 1) with 1. split; lra.
Qed.

(** An integer rounds to itself. *)
Lemma round_half_even_Z y z : y == inject_Z z -> round_half_even y = z.
Proof.
  intros H. unfold round_half_even.
  rewrite (Qfloor_comp _ _ H), Qfloor_Z.
  destruct (Qcompare_spec (y - inject_Z z) (1 # 2)) as [E | E | E];
    [ exfalso | reflexivity | exfalso ]; lra.
Qed.

Lemma Qred_inject_Z z : Qred (inject_Z z) = inject_Z z.
Proof.
  unfold Qred, inject_Z.
  pose proof (Z.ggcd_gcd z 1) as Hg.
  pose proof (Z.ggcd_correct_divisors z 1) as Hd.
  destruct (Z.ggcd z 1) as [g [aa bb]]. cbn [fst snd] in *.
  rewrite Z.gcd_1_r in Hg. subst g. destruct Hd as [Ha Hb].
  replace aa with z by lia. replace bb with 1%Z by lia. reflexivity.
Qed.

Lemma ulp_exponent_le a k :
  0 < a -> a < pow2 (k + 1) ->
  (ulp_exponent a <= Z.max (k - 52) (-1074))%Z.
Proof.
  intros Ha Hk. unfold ulp_exponent.
  assert (ilog2 a < k + 1)%Z; [ | lia ].
  apply pow2_lt_inv. eapply Qle_lt_trans; [ apply ilog2_le; exact Ha | exact Hk ].
Qed.

(** Below the overflow threshold [round64_red] gives a finite number, a
    multiple of the unit in the last place that is within half of that
    unit of the exact value. *)
Lemma round64_red_close x :
  ~ x == 0 -> Qabs x <= pow2 1023 ->
  exists m : Z,
    round64_red x
    = Fin (Qred (inject_Z m * pow2 (ulp_exponent (Qabs x)))) /\
    Qabs (inject_Z m * pow2 (ulp_exponent (Qabs x)) - x)
    <= pow2 (ulp_exponent (Qabs x)) * (1 # 2).
Proof.
  intros Hx Hb. unfold round64_red.
  destruct (Qeq_bool x 0) eqn:E; [ apply Qeq_bool_iff in E; contradiction | clear E ].
  assert (Ha : 0 < Qabs x).
  { destruct (Qlt_le_dec 0 (Qabs x)) as [ | H ]; [ assumption | exfalso ].
    apply Hx. pose proof (Qabs_nonneg x).
    assert (E : Qabs x == 0) by lra.
    revert E. apply Qabs_case; intros; lra. }
  set (a := Qabs x) in *. set (q := ulp_exponent a).
  set (p := pow2 q). assert (Hp : 0 < p) by apply pow2_pos.
  set (m := round_half_even (a / p)).
  pose proof (round_half_even_close (a / p)) as Hm. fold m in Hm.
  assert (Hq : (q <= 1023)%Z).
  { assert (H : (q <= Z.max (1023 - 52) (-1074))%Z); [ | lia ].
    apply ulp_exponent_le; [ exact Ha | ].
    eapply Qle_lt_trans; [ exact Hb | ].
    rewrite pow2_succ. pose proof (pow2_pos 1023). lra. }
  assert (Hp' : p <= pow2 1023) by (apply pow2_le; exact Hq).
  assert (Hmp : Qabs (inject_Z m * p - a) <= p * (1 # 2)).
  { setoid_replace (inject_Z m * p - a) with ((inject_Z m - a / p) * p)
      by (field; lra).
    rewrite Qabs_Qmult, (Qabs_pos p) by lra.
    rewrite (Qmult_comm p). apply Qmult_le_compat_r; lra. }
  apply Qabs_Qle_condition in Hmp.
  destruct (Qle_bool (pow2 1024) (inject_Z m * p)) eqn:E.
  { exfalso. apply Qle_bool_iff in E. change 1024%Z with (1023 + 1)%Z in E.
    rewrite pow2_succ in E. lra. }
  clear E. exists (Z.sgn (Qnum x) * m)%Z. split; [ reflexivity | ].
  apply Qabs_Qle_condition. rewrite inject_Z_mult.
  destruct x as [[ | n | n] d].
  - exfalso. apply Hx. reflexivity.
  - change (Z.sgn (Qnum (Z.pos n # d))) with 1%Z.
    change (Qabs (Z.pos n # d)) with (Z.pos n # d) in a.
    change (inject_Z 1) with 1. fold a. lra.
  - change (Z.sgn (Qnum (Z.neg n # d))) with (-1)%Z.
    change (Qabs (Z.neg n # d)) with (Z.pos n # d) in a.
    change (inject_Z (-1)) with (- (1)).
    setoid_replace (Z.neg n # d) with (- a) by reflexivity. lra.
Qed.

(** An integer below [2 ^ 53] is a double. *)
Lemma round64_Z x z :
  x == inject_Z z -> (Z.abs z < 2 ^ 53)%Z -> round64 x = num_of_Z z.
Proof.
  intros Hx Hz. unfold round64.
  rewrite (Qred_complete _ _ Hx), Qred_inject_Z. clear x Hx.
  unfold round64_red, num_of_Z.
  destruct (Qeq_bool (inject_Z z) 0) eqn:E.
  { apply Qeq_bool_iff in E. f_equal.
    unfold Qeq in E. cbn in E. replace z with 0%Z by lia. reflexivity. }
  assert (Hz0 : z <> 0%Z).
  { intros ->. discriminate E. }
  clear E.
  assert (Ea : Qabs (inject_Z z) = inject_Z (Z.abs z)) by reflexivity.
  rewrite Ea. set (a := inject_Z (Z.abs z)).
  assert (Ha : 0 < a).
  { unfold a. change 0 with (inject_Z 0). rewrite <- Zlt_Qlt. lia. }
  set (q := ulp_exponent a).
  assert (Hq : (q <= 0)%Z).
  { assert (H : (q <= Z.max (52 - 52) (-1074))%Z); [ | lia ].
    apply ulp_exponent_le; [ exact Ha | ].
    rewrite pow2_Z by lia. unfold a. rewrite <- Zlt_Qlt. exact Hz. }
  assert (Ey : a / pow2 q == inject_Z (Z.abs z * 2 ^ (- q))).
  { rewrite inject_Z_mult, <- pow2_Z by lia. rewrite pow2_opp.
    unfold a. field. pose proof (pow2_pos q). lra. }
  rewrite (round_half_even_Z _ _ Ey).
  assert (Ev : inject_Z (Z.sgn (Qnum (inject_Z z)) * (Z.abs z * 2 ^ (- q)))
               * pow2 q == inject_Z z).
  { cbn [Qnum inject_Z].
    replace (Z.sgn z * (Z.abs z * 2 ^ (- q)))%Z with (z * 2 ^ (- q))%Z
      by (generalize (2 ^ (- q))%Z; intros t; destruct z; cbn [Z.sgn Z.abs]; lia).
    rewrite inject_Z_mult, <- pow2_Z by lia. rewrite pow2_opp.
    field. pose proof (pow2_pos q). lra. }
  destruct (Qle_bool _ _) eqn:E.
  { exfalso. apply Qle_bool_iff in E.
    assert (Ev' : inject_Z (Z.abs z * 2 ^ (- q)) * pow2 q == a).
    { rewrite <- Ey. field. pose proof (pow2_pos q). lra. }
    rewrite Ev' in E.
    assert (a < pow2 53).
    { rewrite pow2_Z by lia. unfold a. rewrite <- Zlt_Qlt. exact Hz. }
    assert (pow2 53 <= pow2 1024) by (apply pow2_le; lia). lra. }
  f_equal. rewrite (Qred_complete _ _ Ev). apply Qred_inject_Z.
Qed.

Lemma Qceiling_between r k :
  inject_Z k - 1 < r -> r <= inject_Z k -> Qceiling r = k.
Proof.
  intros Hlo Hhi.
  pose proof (Qle_ceiling r) as Hle. pose proof (Qceiling_lt r) as Hlt.
  unfold Z.sub in Hlt. rewrite inject_Z_plus, inject_Z_opp in Hlt.
  change (inject_Z 1) with 1 in Hlt.
  assert (H1 : inject_Z (Qceiling r) < inject_Z (k + 1)).
  { rewrite inject_Z_plus. change (inject_Z 1) with 1. lra. }
  assert (H2 : inject_Z (k - 1) < inject_Z (Qceiling r)).
  { unfold Z.sub. rewrite inject_Z_plus, inject_Z_opp. change (inject_Z 1) with 1. lra. }
  rewrite <- Zlt_Qlt in H1, H2. lia.
Qed.

End Doubles.

Section Nearest.

Local Open Scope Q_scope.

(** No integer is nearer than the one [round_half_even] gives. *)
Lemma round_half_even_nearest y (F : Z) :
  Qabs (inject_Z (round_half_even y) - y) <= Qabs (inject_Z F - y).
Proof.
  destruct (Z.eq_dec F (round_half_even y)) as [-> | Hne]; [ apply Qle_refl | ].
  pose proof (round_half_even_close y) as Hm.
  eapply Qle_trans; [ exact Hm | ].
  apply Qabs_Qle_condition in Hm. set (m := round_half_even y) in *.
  assert (H : inject_Z F <= inject_Z m - 1 \/ inject_Z m + 1 <= inject_Z F).
  { destruct (Z_lt_le_dec F m) as [Hlt | Hge].
    - left. assert (H : inject_Z (F + 1) <= inject_Z m) by (rewrite <- Zle_Qle; lia).
      rewrite inject_Z_plus in H. change (inject_Z 1) with 1 in H. lra.
    - right. assert (H : inject_Z (m + 1) <= inject_Z F) by (rewrite <- Zle_Qle; lia).
      rewrite inject_Z_plus in H. change (inject_Z 1) with 1 in H. exact H. }
  apply Qabs_case; intros; destruct H; lra.
Qed.

Lemma Qabs_scaled u a p :
  0 < p -> Qabs (u * p - a) == Qabs (u - a / p) * p.
Proof.
  intros Hp. setoid_replace (u * p - a) with ((u - a / p) * p) by (field; lra).
  rewrite Qabs_Qmult, (Qabs_pos p) by lra. reflexivity.
Qed.

(** Of the multiples of the unit in the last place, [round_half_even]
    picks the nearest; a number with 53 bits and a smaller unit is below
    the binade, and further away. *)
Lemma nearest_multiple a (M E : Z) :
  0 < a -> (Z.abs M <= 2 ^ 53)%Z -> (-1074 <= E)%Z ->
  Qabs (inject_Z (round_half_even (a / pow2 (ulp_exponent a)))
        * pow2 (ulp_exponent a) - a)
  <= Qabs (inject_Z M * pow2 E - a).
Proof.
  intros Ha HM HE. set (q := ulp_exponent a). set (p := pow2 q).
  assert (Hp : 0 < p) by apply pow2_pos.
  assert (K : forall F : Z,
             Qabs (inject_Z (round_half_even (a / p)) * p - a)
             <= Qabs (inject_Z F * p - a)).
  { intros F. rewrite !Qabs_scaled by exact Hp.
    apply Qmult_le_compat_r; [ apply round_half_even_nearest | lra ]. }
  destruct (Z_le_gt_dec q E) as [Hq | Hq].
  - assert (Ef : inject_Z M * pow2 E == inject_Z (M * 2 ^ (E - q)) * p).
    { rewrite inject_Z_mult, <- pow2_Z by lia. unfold p.
      rewrite <- Qmult_assoc, <- pow2_plus.
      replace (E - q + q)%Z with E by lia. reflexivity. }
    rewrite Ef. apply K.
  - assert (Eq : q = (ilog2 a - 52)%Z) by (unfold q, ulp_exponent in *; lia).
    assert (Eg : inject_Z (2 ^ 52) * p == pow2 (ilog2 a)).
    { rewrite <- pow2_Z by lia. unfold p. rewrite <- pow2_plus.
      replace (52 + q)%Z with (ilog2 a) by lia. reflexivity. }
    pose proof (ilog2_le a Ha) as Hg.
    eapply Qle_trans; [ apply (K (2 ^ 52)%Z) | ].
    rewrite Eg.
    assert (Hf : Qabs (inject_Z M * pow2 E) <= pow2 (ilog2 a)).
    { rewrite Qabs_Qmult, (Qabs_pos (pow2 E)) by (apply Qlt_le_weak, pow2_pos).
      assert (H1 : Qabs (inject_Z M) <= pow2 53).
      { rewrite pow2_Z by lia. change (Qabs (inject_Z M)) with (inject_Z (Z.abs M)).
        rewrite <- Zle_Qle. exact HM. }
      assert (H2 : pow2 E <= pow2 (q - 1)) by (apply pow2_le; lia).
      assert (H3 : pow2 53 * pow2 (q - 1) == pow2 (ilog2 a)).
      { rewrite <- pow2_plus. replace (53 + (q - 1))%Z with (ilog2 a) by lia.
        reflexivity. }
      rewrite <- H3.
      eapply Qle_trans;
        [ apply Qmult_le_compat_r;
          [ exact H1 | apply Qlt_le_weak, pow2_pos ] | ].
      rewrite !(Qmult_comm (pow2 53)). apply Qmult_le_compat_r; [ exact H2 | ].
      apply Qlt_le_weak, pow2_pos. }
    apply Qabs_Qle_condition in Hf.
    rewrite (Qabs_neg (pow2 (ilog2 a) - a)) by lra.
    apply Qabs_case; intros; lra.
Qed.

Lemma round64_red_nearest x r :
  round64_red x = Fin r ->
  (exists m e : Z,
     (Z.abs m <= 2 ^ 53)%Z /\ (-1074 <= e)%Z /\ r == inject_Z m * pow2 e) /\
  Qabs r < pow2 1024 /\
  forall M E : Z,
    (Z.abs M <= 2 ^ 53)%Z -> (-1074 <= E)%Z ->
    Qabs (r - x) <= Qabs (inject_Z M * pow2 E - x).
Proof.
  unfold round64_red.
  destruct (Qeq_bool x 0) eqn:E0.
  { apply Qeq_bool_iff in E0. intros H. inversion H; subst r. clear H.
    split; [ exists 0%Z, 0%Z; repeat split; try lia; reflexivity | ].
    split; [ apply pow2_pos | ].
    intros M E _ _. rewrite E0. setoid_replace (0 - 0) with 0 by ring.
    apply Qabs_nonneg. }
  assert (Hx : ~ x == 0).
  { intros H. apply Qeq_bool_iff in H. congruence. }
  clear E0.
  assert (Ha : 0 < Qabs x).
  { destruct (Qlt_le_dec 0 (Qabs x)) as [ | H ]; [ assumption | exfalso ].
    apply Hx. pose proof (Qabs_nonneg x).
    assert (E : Qabs x == 0) by lra.
    revert E. apply Qabs_case; intros; lra. }
  set (a := Qabs x) in *. set (q := ulp_exponent a). set (p := pow2 q).
  assert (Hp : 0 < p) by apply pow2_pos.
  set (m := round_half_even (a / p)).
  destruct (Qle_bool (pow2 1024) (inject_Z m * p)) eqn:Eo; [ discriminate | ].
  intros H.
  apply (f_equal (fun n => match n with Fin u => u | _ => 0 end)) in H.
  cbv beta iota in H. subst r.
  assert (Ho : inject_Z m * p < pow2 1024).
  { apply Qnot_le_lt. intros H. apply Qle_bool_iff in H. congruence. }
  pose proof (round_half_even_close (a / p)) as Hm. fold m in Hm.
  apply Qabs_Qle_condition in Hm.
  assert (Hy0 : 0 < a / p) by (apply Qlt_shift_div_l; lra).
  assert (Hy : a / p < pow2 53).
  { apply Qlt_shift_div_r; [ exact Hp | ].
    eapply Qlt_le_trans; [ apply (ilog2_lt a Ha) | ].
    unfold p. rewrite <- pow2_plus. apply pow2_le.
    unfold q, ulp_exponent. lia. }
  assert (Hm0 : (0 <= m)%Z).
  { assert (H : inject_Z (-1) < inject_Z m)
      by (change (inject_Z (-1)) with (- (1)); lra).
    rewrite <- Zlt_Qlt in H. lia. }
  assert (Hm53 : (m <= 2 ^ 53)%Z).
  { rewrite pow2_Z in Hy by lia.
    assert (H : inject_Z m < inject_Z (2 ^ 53 + 1))
      by (rewrite inject_Z_plus; change (inject_Z 1) with 1; lra).
    rewrite <- Zlt_Qlt in H. lia. }
  set (s := Z.sgn (Qnum x)).
  assert (Hs : (s = 1 \/ s = -1)%Z /\ x == inject_Z s * a).
  { unfold s, a. destruct x as [[ | n | n] d].
    - exfalso. apply Hx. reflexivity.
    - split; [ left; reflexivity | ].
      change (Qabs (Z.pos n # d)) with (Z.pos n # d).
      change (inject_Z (Z.sgn (Qnum (Z.pos n # d)))) with 1. ring.
    - split; [ right; reflexivity | ].
      change (Qabs (Z.neg n # d)) with (Z.pos n # d).
      change (inject_Z (Z.sgn (Qnum (Z.neg n # d)))) with (- (1)).
      setoid_replace (Z.neg n # d) with (- (Z.pos n # d)) by reflexivity. ring. }
  destruct Hs as [Hs Ex].
  assert (Es : forall u, Qabs (u - x) == Qabs (inject_Z s * u - a)).
  { intros u. rewrite Ex at 1.
    destruct Hs as [-> | ->].
    - change (inject_Z 1) with 1.
      setoid_replace (u - 1 * a) with (1 * u - a) by ring. reflexivity.
    - change (inject_Z (-1)) with (- (1)).
      setoid_replace (u - - (1) * a) with (- (- (1) * u - a)) by ring.
      apply Qabs_opp. }
  split; [ | split ].
  - exists (s * m)%Z, q. split; [ | split ].
    + destruct Hs as [-> | ->]; lia.
    + unfold q, ulp_exponent. lia.
    + exact (Qred_correct _).
  - rewrite Qred_correct, inject_Z_mult, <- Qmult_assoc, Qabs_Qmult.
    rewrite (Qabs_pos (inject_Z m * p)).
    2:{ apply Qmult_le_0_compat; [ | lra ].
        change 0 with (inject_Z 0). rewrite <- Zle_Qle. exact Hm0. }
    destruct Hs as [-> | ->].
    + change (Qabs (inject_Z 1)) with 1. lra.
    + change (Qabs (inject_Z (-1))) with 1. lra.
  - intros M E HM HE. rewrite Qred_correct. rewrite !Es.
    setoid_replace (inject_Z s * (inject_Z (s * m) * p) - a)
      with (inject_Z m * p - a).
    2:{ rewrite inject_Z_mult. destruct Hs as [-> | ->].
        - change (inject_Z 1) with 1. ring.
        - change (inject_Z (-1)) with (- (1)). ring. }
    setoid_replace (inject_Z s * (inject_Z M * pow2 E) - a)
      with (inject_Z (s * M) * pow2 E - a)
      by (rewrite inject_Z_mult; ring).
    apply nearest_multiple; [ exact Ha | | exact HE ].
    destruct Hs as [-> | ->]; lia.
Qed.

(** [round64] rounds to the nearest double: a finite result is a double
    (53 bits, the exponent of the last place from -1074 on, below
    [2 ^ 1024]) and no such number is nearer to the exact value. *)
Theorem round64_nearest x r :
  round64 x = Fin r ->
  (exists m e : Z,
     (Z.abs m <= 2 ^ 53)%Z /\ (-1074 <= e)%Z /\ r == inject_Z m * pow2 e) /\
  Qabs r < pow2 1024 /\
  forall M E : Z,
    (Z.abs M <= 2 ^ 53)%Z -> (-1074 <= E)%Z ->
    Qabs (r - x) <= Qabs (inject_Z M * pow2 E - x).
Proof.
  unfold round64. intros H.
  destruct (round64_red_nearest _ _ H) as (Hd & Hb & Hn).
  split; [ exact Hd | ]. split; [ exact Hb | ].
  intros M E HM HE. specialize (Hn M E HM HE).
  rewrite Qred_correct in Hn. exact Hn.
Qed.

End Nearest.

(** On the samples, the three operations give what the operations of
    the Standard Library give. *)
Example num_sub_is_binary64 :
  Binary64.agree (SFsub Binary64.prec Binary64.emax) num_sub = true.
Proof. vm_compute. reflexivity. Qed.

Example num_mul_is_binary64 :
  Binary64.agree (SFmul Binary64.prec Binary64.emax) num_mul = true.
Proof. vm_compute. reflexivity. Qed.

Example num_div_is_binary64 :
  Binary64.agree (SFdiv Binary64.prec Binary64.emax) num_div = true.
Proof. vm_compute. reflexivity. Qed.

(* ===================================================================== *)
(** * Nights and prices                                                   *)
(* ===================================================================== *)

(** The ceiling of [d / 86400000] is the least integer [k] with
    [d <= k * 86400000]. *)
Lemma ceiling_bounds (d : Z) :
  let k := Qceiling (inject_Z d / inject_Z 86400000) in
  ((k - 1) * 86400000 < d <= k * 86400000)%Z.
Proof.
  cbv zeta. set (x := (inject_Z d / inject_Z 86400000)%Q).
  assert (E : (inject_Z 86400000 * x == inject_Z d)%Q)
    by (apply Qmult_div_r; discriminate).
  assert (Hpos : (0 < inject_Z 86400000)%Q) by reflexivity.
  pose proof (Qle_ceiling x) as Hle. pose proof (Qceiling_lt x) as Hlt.
  apply (Qmult_le_l _ _ _ Hpos) in Hle. apply (Qmult_lt_l _ _ _ Hpos) in Hlt.
  rewrite E in Hle, Hlt. rewrite <- inject_Z_mult in Hle, Hlt.
  rewrite <- Zle_Qle in Hle. rewrite <- Zlt_Qlt in Hlt. lia.
Qed.

Section DoubleNights.

Local Open Scope Q_scope.

Lemma MS_PER_DAY_value : MS_PER_DAY = num_of_Z 86400000.
Proof. vm_compute. reflexivity. Qed.

(** In doubles, the quotient of a number of milliseconds below [2 ^ 53]
    by the milliseconds of a day has the ceiling of the exact quotient. *)
Lemma ceil_days_exact (d : Z) :
  (Z.abs d < 2 ^ 53)%Z ->
  Math_ceil (round64 (inject_Z d / inject_Z 86400000))
  = num_of_Z (Qceiling (inject_Z d / inject_Z 86400000)).
Proof.
  intros Hd. pose proof (ceiling_bounds d) as Hk. cbv zeta in Hk.
  set (x := inject_Z d / inject_Z 86400000) in *. set (k := Qceiling x) in *.
  assert (Ex : x * 86400000 == inject_Z d).
  { unfold x. change (inject_Z 86400000) with 86400000. field. }
  assert (Hd' : - 9007199254740992 < inject_Z d < 9007199254740992).
  { assert (H : inject_Z (- 2 ^ 53) < inject_Z d < inject_Z (2 ^ 53))
      by (split; rewrite <- Zlt_Qlt; lia).
    exact H. }
  destruct (Z.eq_dec d (k * 86400000)) as [E | E].
  - assert (Exk : x == inject_Z k).
    { rewrite E, inject_Z_mult in Ex. change (inject_Z 86400000) with 86400000 in Ex.
      lra. }
    rewrite (round64_Z x k Exk) by lia.
    unfold Math_ceil, num_of_Z. now rewrite Qceiling_Z.
  - assert (Hlo : inject_Z k - 1 + (1 # 86400000) <= x).
    { assert (H : inject_Z (k * 86400000) <= inject_Z (d + 86400000 + -1))
        by (rewrite <- Zle_Qle; lia).
      rewrite !inject_Z_plus, inject_Z_mult in H.
      change (inject_Z 86400000) with 86400000 in H.
      change (inject_Z (-1)) with (- (1)) in H. lra. }
    assert (Hhi : x <= inject_Z k - (1 # 86400000)).
    { assert (H : inject_Z (d + 1) <= inject_Z (k * 86400000))
        by (rewrite <- Zle_Qle; lia).
      rewrite inject_Z_plus, inject_Z_mult in H.
      change (inject_Z 86400000) with 86400000 in H.
      change (inject_Z 1) with 1 in H. lra. }
    assert (Hx0 : ~ x == 0).
    { intros H0. apply E.
      assert (Hd0 : inject_Z d == inject_Z 0)
        by (change (inject_Z 0) with 0; lra).
      unfold Qeq in Hd0. cbn in Hd0. lia. }
    assert (Hx27 : Qabs x < pow2 27).
    { change (pow2 27) with 134217728. apply Qabs_Qlt_condition. split; lra. }
    unfold round64.
    assert (Hr0 : ~ Qred x == 0) by (rewrite Qred_correct; exact Hx0).
    assert (Hr27 : Qabs (Qred x) < pow2 27) by (rewrite Qred_correct; exact Hx27).
    assert (Hr1023 : Qabs (Qred x) <= pow2 1023).
    { apply Qlt_le_weak. eapply Qlt_le_trans; [ exact Hr27 | ].
      apply pow2_le. lia. }
    destruct (round64_red_close (Qred x) Hr0 Hr1023) as (m & -> & Hm).
    assert (Ha : 0 < Qabs (Qred x)).
    { destruct (Qlt_le_dec 0 (Qabs (Qred x))) as [ | H ]; [ assumption | exfalso ].
      apply Hr0. pose proof (Qabs_nonneg (Qred x)).
      assert (E0 : Qabs (Qred x) == 0) by lra.
      revert E0. apply Qabs_case; intros; lra. }
    pose proof (ulp_exponent_le _ 26 Ha Hr27) as Hq.
    assert (Hp : pow2 (ulp_exponent (Qabs (Qred x))) <= pow2 (-26))
      by (apply pow2_le; lia).
    change (pow2 (-26)) with (1 # 67108864) in Hp.
    pose proof (pow2_pos (ulp_exponent (Qabs (Qred x)))) as Hp0.
    set (p := pow2 (ulp_exponent (Qabs (Qred x)))) in *.
    apply Qabs_Qle_condition in Hm. rewrite Qred_correct in Hm.
    unfold Math_ceil, num_of_Z. f_equal. f_equal.
    apply Qceiling_between; rewrite Qred_correct; lra.
Qed.

(** Between two dates, [a] and [b] milliseconds after the epoch and less
    than [2 ^ 53] milliseconds apart, the number of nights is the ceiling
    of [(b - a) / 86400000]. *)
Lemma nights_between_ceiling (a b : Z) :
  (Z.abs (b - a) < 2 ^ 53)%Z ->
  exists k : Z,
    nights_between (num_of_Z a) (num_of_Z b) = num_of_Z k /\
    ((k - 1) * 86400000 < b - a <= k * 86400000)%Z.
Proof.
  intros Hd. exists (Qceiling (inject_Z (b - a) / inject_Z 86400000)). split.
  - unfold nights_between. rewrite MS_PER_DAY_value.
    unfold num_of_Z at 1 2. cbn [num_sub].
    rewrite (round64_Z _ (b - a)); [ | | exact Hd ].
    2:{ unfold Z.sub. rewrite inject_Z_plus, inject_Z_opp. reflexivity. }
    unfold num_of_Z at 1 2. cbn [num_div].
    change (q_zero (inject_Z 86400000)) with false. cbv iota.
    apply ceil_days_exact. exact Hd.
  - apply ceiling_bounds.
Qed.

End DoubleNights.

(** A valid date has an integer time value. *)
Lemma Date_new_valid R v :
  Date_new R v <> NaN -> exists t : Z, Date_new R v = num_of_Z t.
Proof.
  assert (K : forall n, TimeClip n <> NaN -> exists t, TimeClip n = num_of_Z t).
  { intros [ | s | q]; simpl; try congruence.
    destruct (Qle_bool _ _); [ eauto | congruence ]. }
  unfold Date_new. destruct v; try apply K.
  all: destruct (Date_parse R _); [ apply K | congruence ].
Qed.

(* ===================================================================== *)
(** * The chat endpoint by cases                                          *)
(* ===================================================================== *)

Lemma bind_ok_inv {A B} (m : M A) (k : A -> M B) w b w' :
  bind m k w = (Ok b, w') ->
  exists a w1, m w = (Ok a, w1) /\ k a w1 = (Ok b, w').
Proof.
  unfold bind. destruct (m w) as [[a | e] w1]; [ eauto | discriminate ].
Qed.

Lemma chat_error_fails Sv error : exists msg, chat_error Sv error = json (JsonFail msg).
Proof.
  unfold chat_error.
  repeat match goal with |- context [if ?c then _ else _] => destruct c end;
    eauto.
Qed.

Ltac unfold_intents :=
  cbv beta zeta delta
    [handle_intent intent_search intent_check_availability intent_book
     call_Room_findById call_checkAvailability] in *.

(** Splits a hypothesis [bind m k w = (Ok b, w')]. *)
Ltac inv_bind H :=
  let a := fresh "a" in
  let w1 := fresh "w" in
  let Hm := fresh "Hm" in
  apply bind_ok_inv in H; destruct H as (a & w1 & Hm & H).

(** A chat reply that is no failure comes from the statements after the
    retry loop, run on a text of the language model that parses. *)
Lemma chatWithAI_chat_inv R Sv req w resp w' m ad i :
  chatWithAI R Sv req w = (Ok resp, w') ->
  res_body resp = JsonChat m ad i ->
  exists text aiAnalysis aiResponse w2 w3 m0,
    JSON_parse R (strip_code_fences R text) = Some aiAnalysis /\
    handle_intent R Sv (req_userId req) aiAnalysis aiResponse w2
    = (Ok (m0, ad), w3) /\
    add_clarification R aiAnalysis m0 = Ok m /\
    i = get_opt aiAnalysis "intent".
Proof.
  intros E Hb. unfold chatWithAI, try_catch in E.
  destruct (chat R Sv req w) as [[resp0 | e] w0] eqn:Ec.
  2:{ inversion E; subst. destruct (chat_error_fails Sv e) as [msg Hm].
      rewrite Hm in Hb. discriminate Hb. }
  inversion E; subst; clear E. unfold chat in Ec.
  inv_bind Ec.
  destruct (negb (truthy _)).
  { inversion Ec; subst. discriminate Hb. }
  do 5 inv_bind Ec. unfold answer in Ec.
  match type of Ec with
  | context [JSON_parse R ?t] =>
      destruct (JSON_parse R t) as [aiAnalysis | ] eqn:Ep; [ | discriminate Ec ]
  end.
  do 3 inv_bind Ec. inversion Ec; subst; clear Ec. cbn in Hb.
  inversion Hb; subst; clear Hb.
  match goal with
  | H : handle_intent _ _ _ _ _ _ = (Ok ?p, _) |- _ =>
      destruct p as [m0 ad0]; cbn [fst snd] in *
  end.
  match goal with
  | H : lift (add_clarification _ _ _) _ = _ |- _ =>
      unfold lift in H; inversion H; subst
  end.
  do 6 eexists. repeat split; eassumption.
Qed.

(** The availability payload of a chat reply: the room was found, and
    the price is the nightly rate times the nights between the dates
    that the payload repeats. *)
Lemma handle_intent_available_inv R Sv userId aiAnalysis aiResponse w w' m
    roomId hotelName checkInDate checkOutDate totalPrice nights :
  handle_intent R Sv userId aiAnalysis aiResponse w
  = (Ok (m, Some (availability_check_available roomId hotelName
                    checkInDate checkOutDate totalPrice nights)), w') ->
  exists id room,
    Room_findById Sv id = Ok (Some room) /\
    roomId = room__id room /\
    nights = nights_between (Date_new R checkInDate) (Date_new R checkOutDate) /\
    totalPrice = num_mul (room_pricePerNight room) nights.
Proof.
  unfold_intents. unfold_monad. intros E.
  repeat (case_step; cbn [fst snd] in * ).
  all: inversion E; subst; clear E.
  all: do 2 eexists; repeat split; eassumption.
Qed.

(* ===================================================================== *)
(** * The booking endpoint                                                *)
(* ===================================================================== *)

(** C2. When the availability check that [createBookingViaAI] makes
    returns false, the reply is [success: false] with the message "Room
    is not available for the selected dates", no [Booking.create] is
    called and the bookings (and the users) are what they were. *)
Theorem createBookingViaAI_rejects_unavailable R Sv req w room checkIn checkOut :
  let run := createBookingViaAI R Sv req w in
  In (EvCheckAvailability room checkIn checkOut (Ok false))
     (new_events w (snd run)) ->
  fst run = Ok (json (JsonFail "Room is not available for the selected dates")) /\
  success (json (JsonFail "Room is not available for the selected dates")) = false /\
  bookings (snd run) = bookings w /\
  users (snd run) = users w /\
  count is_bookingCreate (new_events w (snd run)) = 0%nat.
Proof.
  cbv zeta. unfold_book. unfold_monad.
  repeat (case_step; cbn [fst snd users bookings trace] in * ).
  all: new_events_norm.
  all: cbn [In]; intros Hin.
  all: repeat (destruct Hin as [Hin | Hin]); try contradiction; try discriminate Hin.
  all: inversion Hin; subst; try discriminate.
  all: repeat split; reflexivity.
Qed.

(** Room1 is booked from 2025-01-03 to 2025-01-05: a request for
    2025-01-01 to 2025-01-04 is rejected. *)
Lemma createBookingViaAI_rejects_unavailable_witness :
  let run := createBookingViaAI Fixture.runtime (Fixture.services [] None)
               (Fixture.book_request "2025-01-01" "2025-01-04" (VNum (Fin 2)))
               Fixture.world1 in
  fst run = Ok (json (JsonFail "Room is not available for the selected dates")) /\
  success (json (JsonFail "Room is not available for the selected dates")) = false /\
  bookings (snd run) = [Fixture.booking0] /\
  users (snd run) = [Fixture.alice] /\
  count is_bookingCreate (new_events Fixture.world1 (snd run)) = 0%nat.
Proof.
  apply (createBookingViaAI_rejects_unavailable
           Fixture.runtime (Fixture.services [] None)
           (Fixture.book_request "2025-01-01" "2025-01-04" (VNum (Fin 2)))
           Fixture.world1 (VStr "room1")
           (num_of_Z 1735689600000) (num_of_Z 1735948800000)).
  vm_compute. left. reflexivity.
Defined.

(** With the overlap predicate of the spec for [checkAvailability]: a
    request of a known, logged-in user for a room and dates that overlap
    one of the bookings is rejected and nothing is stored. *)
Lemma createBookingViaAI_rejects_overlap R Sv req w user b :
  let body := req_body req in
  let run := createBookingViaAI R Sv req w in
  checkAvailability Sv = BookingController.checkAvailability_spec R ->
  nullish body = false ->
  truthy (req_userId req) = true ->
  User_find_error Sv (req_userId req) = None ->
  find (fun u => strict_eq (user__id u) (req_userId req)) (users w) = Some user ->
  In b (bookings w) ->
  BookingController.overlaps R (get_opt body "roomId")
    (Date_new R (get_opt body "checkInDate"))
    (Date_new R (get_opt body "checkOutDate")) b = true ->
  fst run = Ok (json (JsonFail "Room is not available for the selected dates")) /\
  bookings (snd run) = bookings w.
Proof.
  cbv zeta. intros Hca Hbody Huid Herr Hfind Hin Hov.
  assert (Hex : checkAvailability Sv (bookings w) (get_opt (req_body req) "roomId")
                  (Date_new R (get_opt (req_body req) "checkInDate"))
                  (Date_new R (get_opt (req_body req) "checkOutDate")) = Ok false).
  { rewrite Hca. unfold BookingController.checkAvailability_spec.
    replace (existsb _ (bookings w)) with true; [ reflexivity | ].
    symmetry. apply existsb_exists. eauto. }
  unfold_book. unfold_monad.
  rewrite Hbody, Huid, Herr. cbn [negb users bookings trace].
  rewrite Hfind. cbn [users bookings trace]. rewrite Hex. cbn. split; reflexivity.
Qed.

(** C9. The guests of a booking that [createBookingViaAI] creates:
    1 when the [guests] field of the request is absent, and more generally
    when [+guests] is [NaN] or zero; the number [+guests] otherwise. *)
Theorem createBookingViaAI_guests R Sv req w doc :
  let run := createBookingViaAI R Sv req w in
  let guests := get_opt (req_body req) "guests" in
  bookings (snd run) = (bookings w ++ [doc])%list ->
  (guests = VUndefined -> booking_guests doc = Fin 1) /\
  (ToNumber R guests = NaN -> booking_guests doc = Fin 1) /\
  (forall q, ToNumber R guests = Fin q -> (q == 0)%Q -> booking_guests doc = Fin 1) /\
  (forall s, ToNumber R guests = Inf s -> booking_guests doc = Inf s) /\
  (forall q, ToNumber R guests = Fin q -> ~ (q == 0)%Q -> booking_guests doc = Fin q).
Proof.
  cbv zeta. intros Hb.
  destruct (createBookingViaAI_created R Sv req w doc Hb)
    as (room & hotel & _ & _ & Hdoc & _).
  subst doc. cbn [booking_guests]. unfold guests_or_1.
  repeat split.
  - intros ->. reflexivity.
  - intros ->. reflexivity.
  - intros q -> Hq. cbn. unfold q_zero.
    apply Qeq_bool_iff in Hq. rewrite Hq. reflexivity.
  - intros s ->. reflexivity.
  - intros q -> Hq. cbn. unfold q_zero.
    destruct (Qeq_bool q 0) eqn:E; [ | reflexivity ].
    apply Qeq_bool_iff in E. contradiction.
Qed.

(** The guests given as the string 3 are stored as the number 3. *)
Lemma createBookingViaAI_guests_witness :
  let req := Fixture.book_request "2025-01-01" "2025-01-04" (VStr "3") in
  let doc := mkBooking "b0" (VStr "user_1") (VStr "room1") "hotel1"
               (num_of_Z 3) (VStr "2025-01-01") (VStr "2025-01-04")
               (Fin (2000 * inject_Z 3)) in
  let guests := get_opt (req_body req) "guests" in
  (guests = VUndefined -> booking_guests doc = Fin 1) /\
  (ToNumber Fixture.runtime guests = NaN -> booking_guests doc = Fin 1) /\
  (forall q, ToNumber Fixture.runtime guests = Fin q -> (q == 0)%Q ->
             booking_guests doc = Fin 1) /\
  (forall s, ToNumber Fixture.runtime guests = Inf s -> booking_guests doc = Inf s) /\
  (forall q, ToNumber Fixture.runtime guests = Fin q -> ~ (q == 0)%Q ->
             booking_guests doc = Fin q).
Proof.
  apply (createBookingViaAI_guests Fixture.runtime (Fixture.services [] None)
           (Fixture.book_request "2025-01-01" "2025-01-04" (VStr "3"))
           Fixture.world0).
  vm_compute. reflexivity.
Defined.

(** C5. When [createBookingViaAI] has created the Booking document and
    sending the confirmation mail throws, the reply is still the success
    reply with the details of that booking, which stays stored. *)
Theorem createBookingViaAI_survives_email_failure R Sv req w doc mail error :
  let run := createBookingViaAI R Sv req w in
  bookings (snd run) = (bookings w ++ [doc])%list ->
  In (EvSendMail mail) (new_events w (snd run)) ->
  sendMail Sv mail = Some error ->
  exists info,
    fst run = Ok (json (JsonBooked "Booking created successfully!" info)) /\
    success (json (JsonBooked "Booking created successfully!" info)) = true /\
    bi_id info = booking__id doc /\
    bi_bookingId info = booking__id doc /\
    bi_totalPrice info = booking_totalPrice doc /\
    In doc (bookings (snd run)).
Proof.
  cbv zeta. intros Hb _ _.
  destruct (createBookingViaAI_created R Sv req w doc Hb)
    as (room & hotel & _ & _ & Hdoc & Hres).
  eexists. split; [ exact Hres | ]. rewrite Hb, Hdoc. cbn.
  repeat split. apply in_or_app. right. left. reflexivity.
Qed.

(** The mailer refuses the connection: the booking is stored and the
    reply is the success reply. *)
Lemma createBookingViaAI_survives_email_failure_witness :
  let Sv := Fixture.services [] (Some (mkError "SMTP connection refused" None)) in
  let req := Fixture.book_request "2025-01-01" "2025-01-04" (VNum (Fin 2)) in
  let doc := mkBooking "b0" (VStr "user_1") (VStr "room1") "hotel1"
               (Fin 2) (VStr "2025-01-01") (VStr "2025-01-04")
               (Fin (2000 * inject_Z 3)) in
  let run := createBookingViaAI Fixture.runtime Sv req Fixture.world0 in
  exists info,
    fst run = Ok (json (JsonBooked "Booking created successfully!" info)) /\
    success (json (JsonBooked "Booking created successfully!" info)) = true /\
    bi_id info = booking__id doc /\
    bi_bookingId info = booking__id doc /\
    bi_totalPrice info = booking_totalPrice doc /\
    In doc (bookings (snd run)).
Proof.
  cbv zeta.
  apply (createBookingViaAI_survives_email_failure Fixture.runtime
           (Fixture.services [] (Some (mkError "SMTP connection refused" None)))
           (Fixture.book_request "2025-01-01" "2025-01-04" (VNum (Fin 2)))
           Fixture.world0
           (mkBooking "b0" (VStr "user_1") (VStr "room1") "hotel1"
              (Fin 2) (VStr "2025-01-01") (VStr "2025-01-04")
              (Fin (2000 * inject_Z 3)))
           (confirmation_mail Fixture.runtime
              (Fixture.services [] (Some (mkError "SMTP connection refused" None)))
              Fixture.alice
              (mkBooking "b0" (VStr "user_1") (VStr "room1") "hotel1"
                 (Fin 2) (VStr "2025-01-01") (VStr "2025-01-04")
                 (Fin (2000 * inject_Z 3)))
              Fixture.hotel1 (num_of_Z 1735689600000) (num_of_Z 1735948800000)
              (Fin (2000 * inject_Z 3)))
           (mkError "SMTP connection refused" None)).
  - vm_compute. reflexivity.
  - vm_compute. left. reflexivity.
  - reflexivity.
Defined.

(** The price of a stay between two dates less than [2 ^ 53] ms apart:
    the nights are the ceiling of the days, the price is the product of
    the rate and the nights rounded to a double, and the product itself
    when that is an integer below [2 ^ 53]. *)
Lemma price_of_nights (rate : number) (a b : Z) :
  (Z.abs (b - a) < 2 ^ 53)%Z ->
  exists k : Z,
    ((k - 1) * 86400000 < b - a <= k * 86400000)%Z /\
    nights_between (num_of_Z a) (num_of_Z b) = num_of_Z k /\
    forall p, rate = Fin p ->
      num_mul rate (nights_between (num_of_Z a) (num_of_Z b))
      = round64 (p * inject_Z k) /\
      forall z, (p * inject_Z k == inject_Z z)%Q -> (Z.abs z < 2 ^ 53)%Z ->
        num_mul rate (nights_between (num_of_Z a) (num_of_Z b)) = num_of_Z z.
Proof.
  intros Hd. destruct (nights_between_ceiling a b Hd) as (k & Hk & Hbounds).
  exists k. split; [ exact Hbounds | ]. split; [ exact Hk | ].
  intros p ->. rewrite Hk. split; [ reflexivity | ].
  intros z Hz Habs. unfold num_of_Z at 1. cbn [num_mul].
  now apply round64_Z.
Qed.

(** C1. The total price is the product of the nightly rate of the room
    and the nights, computed in doubles as JavaScript computes them: the
    nights are [Math.ceil] of the quotient of the difference of the two
    time values by the milliseconds of a day, and every operation rounds
    to the nearest double.  For a booking that [createBookingViaAI]
    creates from valid dates this is the price in the stored document and
    in the reply.  When the dates are less than [2 ^ 53] ms apart (some
    285,000 years) the nights are exactly the ceiling of the days from
    check-in to check-out, the price is the product of the rate and that
    ceiling rounded to a double, and it is the product itself when that
    is an integer below [2 ^ 53].  The same holds of the availability
    payload of [chatWithAI], for the dates and the nights that the
    payload gives. *)
Theorem total_price_is_nights_times_rate R Sv req w :
  (forall doc,
     let run := createBookingViaAI R Sv req w in
     let checkIn := Date_new R (get_opt (req_body req) "checkInDate") in
     let checkOut := Date_new R (get_opt (req_body req) "checkOutDate") in
     bookings (snd run) = (bookings w ++ [doc])%list ->
     checkIn <> NaN -> checkOut <> NaN ->
     exists room a b info,
       Room_findById Sv (get_opt (req_body req) "roomId") = Ok (Some room) /\
       checkIn = num_of_Z a /\ checkOut = num_of_Z b /\
       fst run = Ok (json (JsonBooked "Booking created successfully!" info)) /\
       bi_nights info
       = Math_ceil (num_div (num_sub (num_of_Z b) (num_of_Z a)) MS_PER_DAY) /\
       booking_totalPrice doc = num_mul (room_pricePerNight room) (bi_nights info) /\
       bi_totalPrice info = booking_totalPrice doc /\
       ((Z.abs (b - a) < 2 ^ 53)%Z ->
        exists k : Z,
          ((k - 1) * 86400000 < b - a <= k * 86400000)%Z /\
          bi_nights info = num_of_Z k /\
          forall p, room_pricePerNight room = Fin p ->
            booking_totalPrice doc = round64 (p * inject_Z k) /\
            forall z, (p * inject_Z k == inject_Z z)%Q ->
                      (Z.abs z < 2 ^ 53)%Z ->
                      booking_totalPrice doc = num_of_Z z))
  /\
  (forall m roomId hotelName checkInDate checkOutDate totalPrice nights i,
     fst (chatWithAI R Sv req w)
     = Ok (json (JsonChat m
                   (Some (availability_check_available roomId hotelName
                            checkInDate checkOutDate totalPrice nights)) i)) ->
     Date_new R checkInDate <> NaN -> Date_new R checkOutDate <> NaN ->
     exists id room a b,
       Room_findById Sv id = Ok (Some room) /\ roomId = room__id room /\
       Date_new R checkInDate = num_of_Z a /\
       Date_new R checkOutDate = num_of_Z b /\
       nights
       = Math_ceil (num_div (num_sub (num_of_Z b) (num_of_Z a)) MS_PER_DAY) /\
       totalPrice = num_mul (room_pricePerNight room) nights /\
       ((Z.abs (b - a) < 2 ^ 53)%Z ->
        exists k : Z,
          ((k - 1) * 86400000 < b - a <= k * 86400000)%Z /\
          nights = num_of_Z k /\
          forall p, room_pricePerNight room = Fin p ->
            totalPrice = round64 (p * inject_Z k) /\
            forall z, (p * inject_Z k == inject_Z z)%Q ->
                      (Z.abs z < 2 ^ 53)%Z ->
                      totalPrice = num_of_Z z)).
Proof.
  split.
  - cbv zeta. intros doc Hb Hin Hout.
    destruct (createBookingViaAI_created R Sv req w doc Hb)
      as (room & hotel & Hroom & _ & Hdoc & Hres).
    destruct (Date_new_valid R _ Hin) as [a Ha].
    destruct (Date_new_valid R _ Hout) as [b Hb'].
    rewrite Ha, Hb' in Hdoc, Hres.
    exists room, a, b. eexists.
    split; [ exact Hroom | ]. split; [ exact Ha | ]. split; [ exact Hb' | ].
    split; [ exact Hres | ]. cbn [bi_nights bi_totalPrice].
    split; [ reflexivity | ]. split; [ rewrite Hdoc; reflexivity | ].
    split; [ rewrite Hdoc; reflexivity | ].
    intros Hd. rewrite Hdoc. cbn [booking_totalPrice].
    apply price_of_nights. exact Hd.
  - intros m roomId hotelName checkInDate checkOutDate totalPrice nights i E Hin Hout.
    destruct (chatWithAI R Sv req w) as [r w'] eqn:Erun. cbn [fst] in E. subst r.
    destruct (chatWithAI_chat_inv R Sv req w _ w' _ _ _ Erun eq_refl)
      as (text & aiAnalysis & aiResponse & w2 & w3 & m0 & _ & Hh & _ & _).
    destruct (handle_intent_available_inv _ _ _ _ _ _ _ _ _ _ _ _ _ _ Hh)
      as (id & room & Hroom & Hid & Hn & Hp).
    destruct (Date_new_valid R _ Hin) as [a Ha].
    destruct (Date_new_valid R _ Hout) as [b Hb'].
    rewrite Ha, Hb' in Hn. subst nights totalPrice.
    exists id, room, a, b.
    split; [ exact Hroom | ]. split; [ exact Hid | ].
    split; [ exact Ha | ]. split; [ exact Hb' | ].
    split; [ reflexivity | ]. split; [ reflexivity | ].
    intros Hd. apply price_of_nights. exact Hd.
Qed.

(** Three nights at 2000 a night, from 2025-01-01 to 2025-01-04: 6000,
    in the booking and in the availability payload. *)
Lemma total_price_is_nights_times_rate_witness :
  (exists room a b info,
     Room_findById (Fixture.services [] None) (VStr "room1") = Ok (Some room) /\
     Date_new Fixture.runtime (VStr "2025-01-01") = num_of_Z a /\
     Date_new Fixture.runtime (VStr "2025-01-04") = num_of_Z b /\
     fst (createBookingViaAI Fixture.runtime (Fixture.services [] None)
            (Fixture.book_request "2025-01-01" "2025-01-04" (VNum (Fin 2)))
            Fixture.world0)
     = Ok (json (JsonBooked "Booking created successfully!" info)) /\
     bi_nights info
     = Math_ceil (num_div (num_sub (num_of_Z b) (num_of_Z a)) MS_PER_DAY) /\
     Fin 6000 = num_mul (room_pricePerNight room) (bi_nights info) /\
     bi_totalPrice info = Fin 6000 /\
     ((Z.abs (b - a) < 2 ^ 53)%Z ->
      exists k : Z,
        ((k - 1) * 86400000 < b - a <= k * 86400000)%Z /\
        bi_nights info = num_of_Z k /\
        forall p, room_pricePerNight room = Fin p ->
          Fin 6000 = round64 (p * inject_Z k) /\
          forall z, (p * inject_Z k == inject_Z z)%Q ->
                    (Z.abs z < 2 ^ 53)%Z ->
                    Fin 6000 = num_of_Z z))
  /\
  (exists id room a b,
     Room_findById (Fixture.services [Ok (Ok Fixture.check_text)] None) id
     = Ok (Some room) /\
     "room1" = room__id room /\
     Date_new Fixture.runtime (VStr "2025-01-01") = num_of_Z a /\
     Date_new Fixture.runtime (VStr "2025-01-04") = num_of_Z b /\
     num_of_Z 3
     = Math_ceil (num_div (num_sub (num_of_Z b) (num_of_Z a)) MS_PER_DAY) /\
     Fin 6000 = num_mul (room_pricePerNight room) (num_of_Z 3) /\
     ((Z.abs (b - a) < 2 ^ 53)%Z ->
      exists k : Z,
        ((k - 1) * 86400000 < b - a <= k * 86400000)%Z /\
        num_of_Z 3 = num_of_Z k /\
        forall p, room_pricePerNight room = Fin p ->
          Fin 6000 = round64 (p * inject_Z k) /\
          forall z, (p * inject_Z k == inject_Z z)%Q ->
                    (Z.abs z < 2 ^ 53)%Z ->
                    Fin 6000 = num_of_Z z)).
Proof.
  split.
  - apply (proj1 (total_price_is_nights_times_rate Fixture.runtime
                    (Fixture.services [] None)
                    (Fixture.book_request "2025-01-01" "2025-01-04" (VNum (Fin 2)))
                    Fixture.world0)
             (mkBooking "b0" (VStr "user_1") (VStr "room1") "hotel1"
                (Fin 2) (VStr "2025-01-01") (VStr "2025-01-04")
                (Fin 6000))).
    + vm_compute. reflexivity.
    + vm_compute. discriminate.
    + vm_compute. discriminate.
  - apply (proj2 (total_price_is_nights_times_rate Fixture.runtime
                    (Fixture.services [Ok (Ok Fixture.check_text)] None)
                    (Fixture.chat_request (VStr "user_1")) Fixture.world0)
             (VStr (available_text Fixture.runtime Fixture.hotel1 Fixture.room1
                      (num_of_Z 1735689600000) (num_of_Z 1735948800000)
                      (num_of_Z 3) (Fin 6000)))
             "room1" "Sea View" (VStr "2025-01-01") (VStr "2025-01-04")
             (Fin 6000) (num_of_Z 3) (VStr "check_availability")).
    + vm_compute. reflexivity.
    + vm_compute. discriminate.
    + vm_compute. discriminate.
Defined.

(** From the first day that a JavaScript date can hold, with the time
    value -8640000000000000, to the time value 367199308800001 there
    are 9007199308800001 ms, more than [2 ^ 53]: the difference of the
    doubles is 9007199308800000, exactly 104249992 days.  The booking
    is made for 104249992 nights and priced 2000 a night for them, where
    the ceiling of the days is 104249993. *)
Lemma total_price_is_not_the_exact_ceiling :
  let checkIn := VNum (num_of_Z (-8640000000000000)) in
  let checkOut := VNum (num_of_Z 367199308800001) in
  let req := Fixture.request
               (VObj [("roomId", VStr "room1");
                      ("checkInDate", checkIn);
                      ("checkOutDate", checkOut)])
               (VStr "user_1") in
  let run := createBookingViaAI Fixture.runtime (Fixture.services [] None) req
               Fixture.world0 in
  exists doc info,
    bookings (snd run) = (bookings Fixture.world0 ++ [doc])%list /\
    fst run = Ok (json (JsonBooked "Booking created successfully!" info)) /\
    Date_new Fixture.runtime checkIn = num_of_Z (-8640000000000000) /\
    Date_new Fixture.runtime checkOut = num_of_Z 367199308800001 /\
    ((104249993 - 1) * 86400000
     < 367199308800001 - (-8640000000000000) <= 104249993 * 86400000)%Z /\
    Room_findById (Fixture.services [] None) (VStr "room1")
    = Ok (Some Fixture.room1) /\
    room_pricePerNight Fixture.room1 = num_of_Z 2000 /\
    bi_nights info = num_of_Z 104249992 /\
    booking_totalPrice doc = num_of_Z (2000 * 104249992) /\
    bi_totalPrice info = num_of_Z (2000 * 104249992) /\
    booking_totalPrice doc
    <> num_mul (room_pricePerNight Fixture.room1) (num_of_Z 104249993).
Proof.
  cbv zeta. eexists. eexists.
  split; [ vm_compute; reflexivity | ].
  split; [ vm_compute; reflexivity | ].
  split; [ vm_compute; reflexivity | ].
  split; [ vm_compute; reflexivity | ].
  split; [ lia | ].
  split; [ reflexivity | ].
  split; [ reflexivity | ].
  split; [ vm_compute; reflexivity | ].
  split; [ vm_compute; reflexivity | ].
  split; [ vm_compute; reflexivity | ].
  vm_compute. discriminate.
Qed.

(** One millisecond more than a day is two nights. *)
Example createBookingViaAI_partial_day :
  let req := Fixture.request
               (VObj [("roomId", VStr "room1");
                      ("checkInDate", VNum (Fin 0));
                      ("checkOutDate", VNum (num_of_Z 86400001))])
               (VStr "user_1") in
  let run := createBookingViaAI Fixture.runtime (Fixture.services [] None) req
               Fixture.world0 in
  map booking_totalPrice (bookings (snd run)) = [Fin (2000 * inject_Z 2)] /\
  map booking_guests (bookings (snd run)) = [Fin 1].
Proof. vm_compute. repeat split. Qed.

(** The booking endpoint creates the booking: for a known, logged-in
    user, an available room that is found with its hotel, and a document
    that the database accepts, the document is added to the bookings,
    whether or not the mail can be sent. *)
Lemma createBookingViaAI_creates R Sv req w user room hotel :
  let body := req_body req in
  let checkIn := Date_new R (get_opt body "checkInDate") in
  let checkOut := Date_new R (get_opt body "checkOutDate") in
  let doc := mkBooking (ObjectId Sv (List.length (bookings w))) (req_userId req)
               (get_opt body "roomId") (hotel__id hotel)
               (guests_or_1 R (get_opt body "guests"))
               (get_opt body "checkInDate") (get_opt body "checkOutDate")
               (num_mul (room_pricePerNight room)
                        (nights_between checkIn checkOut)) in
  let run := createBookingViaAI R Sv req w in
  nullish body = false ->
  truthy (req_userId req) = true ->
  User_find_error Sv (req_userId req) = None ->
  find (fun u => strict_eq (user__id u) (req_userId req)) (users w) = Some user ->
  checkAvailability Sv (bookings w) (get_opt body "roomId") checkIn checkOut
  = Ok true ->
  Room_findById Sv (get_opt body "roomId") = Ok (Some room) ->
  room_hotel room = Some hotel ->
  Booking_create_error Sv doc = None ->
  bookings (snd run) = (bookings w ++ [doc])%list /\
  success_of (fst run) = true.
Proof.
  cbv zeta. intros Hbody Huid Herr Hfind Hav Hroom Hhotel Hcreate.
  unfold nights_between in *. unfold_book. unfold_monad.
  rewrite Hbody, Huid, Herr. cbn [negb users bookings trace].
  rewrite Hfind. cbn [users bookings trace]. rewrite Hav. cbn [negb].
  rewrite Hroom, Hhotel. cbn [users bookings trace]. rewrite Hcreate.
  cbn [users bookings trace]. destruct (sendMail Sv _); split; reflexivity.
Qed.

(* ===================================================================== *)
(** * The chat endpoint on a canned reply                                 *)
(* ===================================================================== *)

Lemma retry_loop_first_ok Sv prompt st w res :
  (0 <? retries st)%nat = true ->
  generateContent Sv (count is_generateContent (trace w)) (currentModel st) prompt
  = Ok res ->
  retry_loop Sv prompt st w
  = (Ok (Some res, st),
     mkWorld (users w) (bookings w)
       (EvGenerateContent (currentModel st) prompt (Ok res) :: trace w)).
Proof.
  intros Hr Hg. funelim (retry_loop Sv prompt st w); try congruence.
  all: match goal with
       | H : call_generateContent _ _ _ _ = _ |- _ =>
           unfold call_generateContent in H; rewrite Hg in H; inversion H; subst
       | H : generateContent _ _ _ _ = _ |- _ => rewrite Hg in H; inversion H; subst
       end.
  all: reflexivity.
Qed.

(** On a canned reply the handler runs the statements after the retry
    loop, after the two calls that get the reply. *)
Lemma chatWithAI_canned R Sv req w context text aiAnalysis :
  replies R Sv req w context text aiAnalysis ->
  chatWithAI R Sv req w
  = try_catch (answer R Sv (req_userId req) text)
      (fun error => ret (chat_error Sv error))
      (after_reply R Sv req w context text).
Proof.
  intros (Hbody & Hmsg & Hctx & Hgen & _).
  unfold chatWithAI, chat, after_reply. unfold_monad. rewrite Hbody, Hmsg, Hctx.
  cbn [negb fst snd users bookings trace].
  erewrite retry_loop_first_ok; [ | reflexivity | exact Hgen ].
  reflexivity.
Qed.

Lemma get_ok_get_opt v p x :
  get v p = Ok x -> forall q, get v q = Ok (get_opt v q).
Proof. destruct v; simpl; intros E q; try discriminate E; reflexivity. Qed.

Lemma get_ok_not_nullish v p : nullish v = false -> get v p = Ok (get_opt v p).
Proof. destruct v; simpl; intros E; try discriminate E; reflexivity. Qed.

Lemma truthy_not_nullish v : truthy v = true -> nullish v = false.
Proof. destruct v; simpl; intros E; try discriminate E; reflexivity. Qed.

Lemma get_opt_truthy_not_nullish v p : truthy (get_opt v p) = true -> nullish v = false.
Proof. destruct v; simpl; intros E; try discriminate E; reflexivity. Qed.

Lemma needsClarification_length_array aiAnalysis aiResponse nc :
  get aiAnalysis "response" = Ok aiResponse ->
  get_opt aiAnalysis "needsClarification" = VArr nc ->
  needsClarification_length aiAnalysis = Ok (VNum (num_of_nat (List.length nc))).
Proof.
  intros Hr Hnc. unfold needsClarification_length.
  rewrite (get_ok_get_opt _ _ _ Hr), Hnc. reflexivity.
Qed.

Lemma add_clarification_array R aiAnalysis aiResponse nc v :
  get aiAnalysis "response" = Ok aiResponse ->
  get_opt aiAnalysis "needsClarification" = VArr nc ->
  add_clarification R aiAnalysis v = Ok (clarified R nc v).
Proof.
  intros Hr Hnc. unfold add_clarification.
  rewrite (get_ok_get_opt _ _ _ Hr), Hnc. destruct nc; reflexivity.
Qed.

(** The statements after the retry loop, for a reply that parses to an
    analysis with a [response] and an array [needsClarification]. *)
Lemma answer_parsed R Sv userId text aiAnalysis aiResponse nc w :
  JSON_parse R (strip_code_fences R text) = Some aiAnalysis ->
  get aiAnalysis "response" = Ok aiResponse ->
  get_opt aiAnalysis "needsClarification" = VArr nc ->
  answer R Sv userId text w
  = match handle_intent R Sv userId aiAnalysis aiResponse w with
    | (Ok reply, w') =>
        (Ok (json (JsonChat (clarified R nc (fst reply)) (snd reply)
                     (get_opt aiAnalysis "intent"))), w')
    | (Throw e, w') => (Throw e, w')
    end.
Proof.
  intros Hp Hr Hnc. unfold answer. rewrite Hp. unfold_monad. rewrite Hr.
  destruct (handle_intent R Sv userId aiAnalysis aiResponse w) as [[reply | e] w'];
    [ | reflexivity ].
  rewrite (add_clarification_array R _ _ _ _ Hr Hnc). reflexivity.
Qed.

(** C3 (as amended). For a canned reply of the language model that
    parses to an analysis with a [response] and an array
    [needsClarification], the intent label decides what [chatWithAI] does:
    [search] with nothing to clarify runs the room search and replies with
    the rooms; [check_availability] with a room and both dates runs the
    availability check on that room and those dates; [book] replies with
    the log-in text to a user who is not logged in, and with the booking
    summary and its [booking_confirmation] payload to a logged-in user
    when there is nothing to clarify and the room is found with its
    hotel; [greeting] replies with the fixed greeting; every other label
    replies with the [response] of the language model.  The log-in text,
    the greeting and the [response] are followed by the sentence about
    the missing information when [needsClarification] is not empty. *)
Theorem chatWithAI_branch_by_intent R Sv req w context text aiAnalysis aiResponse nc :
  let intent := get_opt aiAnalysis "intent" in
  let extractedData := get_opt aiAnalysis "extractedData" in
  let userId := req_userId req in
  let w1 := after_reply R Sv req w context text in
  let run := chatWithAI R Sv req w in
  let on_error := fun error => ret (chat_error Sv error) in
  replies R Sv req w context text aiAnalysis ->
  get aiAnalysis "response" = Ok aiResponse ->
  get_opt aiAnalysis "needsClarification" = VArr nc ->
  (intent = VStr "search" -> nc = [] ->
   run = try_catch (search_reply R Sv aiAnalysis) on_error w1)
  /\
  (intent = VStr "check_availability" ->
   truthy (get_opt extractedData "roomId") = true ->
   truthy (get_opt extractedData "checkInDate") = true ->
   truthy (get_opt extractedData "checkOutDate") = true ->
   In (EvCheckAvailability (get_opt extractedData "roomId")
         (Date_new R (get_opt extractedData "checkInDate"))
         (Date_new R (get_opt extractedData "checkOutDate"))
         (checkAvailability Sv (bookings w) (get_opt extractedData "roomId")
            (Date_new R (get_opt extractedData "checkInDate"))
            (Date_new R (get_opt extractedData "checkOutDate"))))
      (new_events w1 (snd run)))
  /\
  (intent = VStr "book" -> truthy userId = false ->
   run = (Ok (json (JsonChat (clarified R nc (VStr LOGIN_TEXT)) None intent)), w1))
  /\
  (intent = VStr "book" -> truthy userId = true -> nc = [] ->
   forall room hotel,
     nullish extractedData = false ->
     Room_findById Sv (get_opt extractedData "roomId") = Ok (Some room) ->
     room_hotel room = Some hotel ->
     fst run
     = Ok (json (JsonChat (fst (booking_summary R extractedData room hotel))
                   (Some (snd (booking_summary R extractedData room hotel)))
                   intent)))
  /\
  (intent = VStr "greeting" ->
   run = (Ok (json (JsonChat (clarified R nc (VStr GREETING)) None intent)), w1))
  /\
  (strict_eq intent (VStr "search") = false ->
   strict_eq intent (VStr "check_availability") = false ->
   strict_eq intent (VStr "book") = false ->
   strict_eq intent (VStr "greeting") = false ->
   run = (Ok (json (JsonChat (clarified R nc aiResponse) None intent)), w1)).
Proof.
  cbv zeta. intros Hrep Hr Hnc.
  rewrite (chatWithAI_canned _ _ _ _ _ _ _ Hrep).
  destruct Hrep as (_ & _ & _ & _ & Hp).
  unfold try_catch at 1 3 4 5 6 7.
  rewrite (answer_parsed R Sv _ _ _ _ _ _ Hp Hr Hnc).
  pose proof (needsClarification_length_array _ _ _ Hr Hnc) as Hlen.
  unfold handle_intent.
  repeat split.
  - intros Hi ->. rewrite Hi.
    change (strict_eq (VStr "search") (VStr "search")) with true. cbv iota.
    unfold intent_search, search_reply, try_catch. unfold_monad.
    rewrite Hlen, Hi.
    change (strict_eq (VNum (num_of_nat (List.length (@nil jsval)))) (VNum (Fin 0)))
      with true.
    cbv beta iota.
    destruct (searchHotels R Sv _ _) as [[rooms | e] w2]; [ | reflexivity ].
    destruct (formatRoomsForAI R rooms); [ | reflexivity ].
    destruct (map_result room_summary rooms); reflexivity.
  - intros Hi Hroom Hin Hout. rewrite Hi.
    change (strict_eq (VStr "check_availability") (VStr "search")) with false.
    change (strict_eq (VStr "check_availability") (VStr "check_availability"))
      with true.
    cbv iota.
    unfold intent_check_availability, call_checkAvailability, call_Room_findById.
    unfold_monad.
    rewrite (get_ok_not_nullish _ _ (get_opt_truthy_not_nullish _ _ Hroom)).
    rewrite Hroom, Hin, Hout. cbn [andb]. unfold after_reply.
    cbn [fst snd users bookings trace].
    repeat (case_step; cbn [fst snd users bookings trace] in * ).
    all: new_events_norm.
    all: cbn [In]; auto.
  - intros Hi Hu. rewrite Hi.
    change (strict_eq (VStr "book") (VStr "search")) with false.
    change (strict_eq (VStr "book") (VStr "check_availability")) with false.
    change (strict_eq (VStr "book") (VStr "book")) with true.
    cbv iota. unfold intent_book. rewrite Hu. reflexivity.
  - intros Hi Hu -> room hotel Hed Hroom Hhotel. rewrite Hi.
    change (strict_eq (VStr "book") (VStr "search")) with false.
    change (strict_eq (VStr "book") (VStr "check_availability")) with false.
    change (strict_eq (VStr "book") (VStr "book")) with true.
    cbv iota. unfold intent_book, call_Room_findById. rewrite Hu.
    unfold_monad. rewrite Hlen.
    change (strict_eq (VNum (num_of_nat (List.length (@nil jsval)))) (VNum (Fin 0)))
      with true.
    cbv beta iota. rewrite (get_ok_not_nullish _ _ Hed).
    rewrite Hroom, Hhotel. reflexivity.
  - intros Hi. rewrite Hi. reflexivity.
  - intros H1 H2 H3 H4. rewrite H1, H2, H3, H4. reflexivity.
Qed.

(** A canned reply with the intent [book], in a code fence, for a
    logged-in user: the reply is the booking summary. *)
Lemma chatWithAI_branch_by_intent_witness :
  fst (chatWithAI Fixture.runtime (Fixture.services [Ok (Ok Fixture.book_text)] None)
         (Fixture.chat_request (VStr "user_1")) Fixture.world0)
  = Ok (json (JsonChat
                (fst (booking_summary Fixture.runtime Fixture.book_extracted
                        Fixture.room1 Fixture.hotel1))
                (Some (snd (booking_summary Fixture.runtime Fixture.book_extracted
                              Fixture.room1 Fixture.hotel1)))
                (VStr "book"))).
Proof.
  refine (proj1 (proj2 (proj2 (proj2
            (chatWithAI_branch_by_intent Fixture.runtime
               (Fixture.services [Ok (Ok Fixture.book_text)] None)
               (Fixture.chat_request (VStr "user_1")) Fixture.world0
               "" Fixture.book_text Fixture.book_json (VStr "Booking...") []
               _ _ _))))
            _ _ _ Fixture.room1 Fixture.hotel1 _ _ _).
  all: try (vm_compute; reflexivity).
  repeat split; vm_compute; reflexivity.
Defined.

(** C3, as it is stated, fails on two replies.  A reply with the intent
    [question], the response "Sure" and one missing piece of information:
    the message sent is not the response of the language model, the
    sentence about the missing information follows it.  A reply with the
    intent [book] for a user who is not logged in: the message is the
    log-in text and there is no booking summary. *)
Lemma chatWithAI_reply_is_not_the_response :
  let run1 := chatWithAI Fixture.runtime
                (Fixture.services [Ok (Ok Fixture.question_text)] None)
                (Fixture.chat_request (VStr "user_1")) Fixture.world0 in
  let run2 := chatWithAI Fixture.runtime
                (Fixture.services [Ok (Ok Fixture.book_text)] None)
                (Fixture.chat_request VNull) Fixture.world0 in
  (JSON_parse Fixture.runtime (strip_code_fences Fixture.runtime Fixture.question_text)
   = Some Fixture.question_json /\
   get Fixture.question_json "intent" = Ok (VStr "question") /\
   get Fixture.question_json "response" = Ok (VStr "Sure") /\
   fst run1
   = Ok (json (JsonChat
                 (VStr ("Sure" ++ LF ++ LF ++ "I need a bit more information: dates"))
                 None (VStr "question"))) /\
   VStr ("Sure" ++ LF ++ LF ++ "I need a bit more information: dates")
   <> VStr "Sure")
  /\
  (JSON_parse Fixture.runtime (strip_code_fences Fixture.runtime Fixture.book_text)
   = Some Fixture.book_json /\
   get Fixture.book_json "intent" = Ok (VStr "book") /\
   fst run2 = Ok (json (JsonChat (VStr LOGIN_TEXT) None (VStr "book")))).
Proof.
  cbv zeta. repeat split; try (vm_compute; reflexivity).
  vm_compute. discriminate.
Qed.

(* ===================================================================== *)
(** * The retry loop                                                      *)
(* ===================================================================== *)


Lemma count_app p l1 l2 : count p (l1 ++ l2)%list = (count p l1 + count p l2)%nat.
Proof. unfold count. rewrite filter_app, length_app. reflexivity. Qed.

(** The loop runs as [loop_run] says. *)
Lemma retry_loop_run Sv prompt st w :
  exists evs,
    trace (snd (retry_loop Sv prompt st w)) = (evs ++ trace w)%list /\
    users (snd (retry_loop Sv prompt st w)) = users w /\
    bookings (snd (retry_loop Sv prompt st w)) = bookings w /\
    loop_run Sv prompt st (count is_generateContent (trace w)) evs
      (fst (retry_loop Sv prompt st w)).
Proof.
  funelim (retry_loop Sv prompt st w); cbn [fst snd emit trace users bookings] in *.
  all: try match goal with
           | H : generateContent _ _ _ _ = _ |- _ => rewrite H in *
           end.
  - exists []. repeat split. now apply run_exhausted.
  - eexists [_]. repeat split. apply run_answer; assumption.
  - match goal with
    | IH : exists evs, _ |- _ => destruct IH as (evs & Ht & Hu & Hb & Hrun)
    end.
    cbn [filter count is_generateContent List.length] in Hrun.
    eexists (evs ++ [_; _])%list.
    split; [ rewrite Ht, <- app_assoc; reflexivity | ].
    split; [ exact Hu | ]. split; [ exact Hb | ].
    eapply run_fallback; try eassumption.
  - match goal with
    | IH : exists evs, _ |- _ => destruct IH as (evs & Ht & Hu & Hb & Hrun)
    end.
    cbn [filter count is_generateContent List.length] in Hrun.
    eexists (evs ++ [_; _])%list.
    split; [ rewrite Ht, <- app_assoc; reflexivity | ].
    split; [ exact Hu | ]. split; [ exact Hb | ].
    eapply run_retry; try eassumption.
  - eexists [_]. repeat split. apply run_rethrow; assumption.
Qed.

(** What a run logs: at most [retries - 1] waits, each of one second, at
    most one change of model for each entry left in the fallback list,
    each to an entry of that list, and one call of the language model,
    plus one for each wait and each change of model. *)
Lemma loop_run_counts Sv prompt st n evs out :
  loop_run Sv prompt st n evs out ->
  (count is_sleep evs <= retries st - 1)%nat /\
  (count is_getModel evs
   <= List.length fallbackModels - 1 - currentModelIndex st)%nat /\
  count is_generateContent evs
  = ((if (0 <? retries st)%nat then 1 else 0)
     + count is_sleep evs + count is_getModel evs)%nat /\
  forallb loop_event evs = true.
Proof.
  induction 1 as [st n Hr | st n res Hr Hg
                 | st n error evs out Hr Hg Hf Hrun IH
                 | st n error evs out Hr Hg Hf Hn Hrun IH
                 | st n error Hr Hg Hf Hn].
  - rewrite Hr. cbn. repeat split; lia.
  - rewrite Hr. cbn. repeat split; lia.
  - destruct IH as (Hs & Hm & Hc & Hall).
    unfold should_fallback in Hf. apply andb_prop in Hf as [_ Hidx].
    apply Nat.ltb_lt in Hidx.
    cbn [fallback retries currentModelIndex currentModel] in *.
    rewrite Hr in Hc. rewrite !count_app, forallb_app, Hall, Hr.
    change (List.length fallbackModels - 1)%nat with 2%nat in *.
    cbn [count filter is_sleep is_getModel is_generateContent List.length].
    split; [ lia | ]. split; [ lia | ]. split; [ unfold count in *; lia | ].
    cbn [forallb loop_event andb].
    destruct (currentModelIndex st) as [ | [ | k ] ]; [ reflexivity | reflexivity | lia ].
  - destruct IH as (Hs & Hm & Hc & Hall).
    unfold should_retry in Hn. apply andb_prop in Hn as [_ Hret].
    apply Nat.ltb_lt in Hret.
    cbn [retry retries currentModelIndex currentModel] in *.
    replace (0 <? retries st - 1)%nat with true in Hc
      by (symmetry; apply Nat.ltb_lt; lia).
    rewrite !count_app, forallb_app, Hall, Hr.
    cbn [count filter is_sleep is_getModel is_generateContent List.length].
    split; [ unfold count in *; lia | ]. split; [ unfold count in *; lia | ].
    split; [ unfold count in *; lia | reflexivity ].
  - rewrite Hr. cbn. repeat split; lia.
Qed.

Lemma quiet_not_counted p evs :
  (forall e, quiet e = true -> p e = false) ->
  forallb quiet evs = true -> count p evs = 0%nat.
Proof. intros Hp. apply count_forallb_false. exact Hp. Qed.

Ltac quiet_step :=
  first
    [ apply logs_emit; reflexivity
    | apply logs_checkAvailability; reflexivity
    | preserves_step ].

Lemma quiet_searchHotels R Sv query : preserves (logs quiet) (searchHotels R Sv query).
Proof.
  unfold searchHotels, new_RegExp, call_Hotel_find, call_Room_find.
  repeat quiet_step.
Qed.

(** After the retry loop the handler makes no call of the language
    model. *)
Lemma quiet_answer R Sv userId text : preserves (logs quiet) (answer R Sv userId text).
Proof.
  unfold answer, handle_intent, intent_search, intent_check_availability,
    intent_book, call_Room_findById.
  repeat first [ apply quiet_searchHotels | quiet_step ].
Qed.

(** The log of a chat request: the call for the model, the events of
    the retry loop, and then events that are no call of the language
    model. *)
Lemma chat_trace R Sv req w :
  exists evs_a evs_l pre,
    trace (snd (chat R Sv req w)) = (evs_a ++ evs_l ++ pre ++ trace w)%list /\
    forallb quiet evs_a = true /\
    (pre = [] \/ pre = [EvGetGenerativeModel (modelName Sv)]) /\
    (evs_l = [] \/
     exists prompt n out,
       loop_run Sv prompt (initial_loop_state (modelName Sv)) n evs_l out).
Proof.
  unfold chat. unfold_monad.
  destruct (nullish (req_body req)).
  { exists [], [], []. cbn. auto. }
  destruct (negb (truthy _)).
  { exists [], [], []. cbn. auto. }
  destruct (conversationContext R _) as [context | e].
  2:{ exists [], [], []. cbn. auto. }
  cbn [users bookings trace].
  match goal with
  | |- context [retry_loop Sv ?p ?st ?w1] =>
      destruct (retry_loop_run Sv p st w1) as (evs_l & Ht & _ & _ & Hrun);
      destruct (retry_loop Sv p st w1) as [[out | e] w2]
  end; cbn [fst snd trace] in *.
  2:{ exists [], evs_l, [EvGetGenerativeModel (modelName Sv)].
      rewrite Ht. cbn. eauto 10. }
  destruct (fst out) as [[text | e] | ].
  - destruct (answer R Sv (req_userId req) text w2) as [r w3] eqn:Ea.
    destruct (quiet_answer R Sv _ _ _ _ _ Ea) as (evs_a & Ha & Hq).
    exists evs_a, evs_l, [EvGetGenerativeModel (modelName Sv)].
    cbn [snd]. rewrite Ha, Ht. cbn. eauto 10.
  - exists [], evs_l, [EvGetGenerativeModel (modelName Sv)].
    cbn [fst snd]. rewrite Ht. cbn. eauto 10.
  - exists [], evs_l, [EvGetGenerativeModel (modelName Sv)].
    cbn [fst snd]. rewrite Ht. cbn. eauto 10.
Qed.

Lemma chatWithAI_same_world R Sv req w :
  snd (chatWithAI R Sv req w) = snd (chat R Sv req w).
Proof.
  unfold chatWithAI, try_catch. destruct (chat R Sv req w) as [[r | e] w']; reflexivity.
Qed.

(** The calls of a chat request: at most 5 calls of [generateContent],
    at most 2 waits, at most 3 calls for a model (the first one and two
    fallbacks). *)
Lemma chatWithAI_llm_calls R Sv req w :
  let evs := new_events w (snd (chatWithAI R Sv req w)) in
  (count is_generateContent evs <= 5)%nat /\
  (count is_sleep evs <= 2)%nat /\
  (count is_getModel evs <= 3)%nat.
Proof.
  cbv zeta. rewrite chatWithAI_same_world.
  destruct (chat_trace R Sv req w) as (evs_a & evs_l & pre & Ht & Hq & Hpre & Hl).
  rewrite (new_events_app w _ (evs_a ++ evs_l ++ pre))
    by (rewrite Ht, <- !app_assoc; reflexivity).
  rewrite !count_app.
  rewrite (quiet_not_counted is_generateContent evs_a), (quiet_not_counted is_sleep evs_a),
    (quiet_not_counted is_getModel evs_a); try assumption;
    try (intros [] He; try discriminate He; reflexivity).
  assert (Hp : count is_generateContent pre = 0%nat /\ count is_sleep pre = 0%nat
               /\ (count is_getModel pre <= 1)%nat)
    by (destruct Hpre as [-> | ->]; cbn; auto).
  destruct Hp as (Hp1 & Hp2 & Hp3).
  destruct Hl as [-> | (prompt & n & out & Hrun)].
  - cbn. lia.
  - destruct (loop_run_counts _ _ _ _ _ _ Hrun) as (Hs & Hm & Hc & _).
    cbn [initial_loop_state retries currentModelIndex] in *.
    change (List.length fallbackModels - 1)%nat with 2%nat in *.
    cbn [Nat.ltb Nat.leb] in Hc. lia.
Qed.

(** Waits come from transport errors only, changes of model from
    model-not-found errors only. *)
Lemma loop_run_causes Sv prompt st n evs out :
  loop_run Sv prompt st n evs out ->
  ((forall k m e, generateContent Sv k m prompt = Throw e ->
                  is_network_error e = false) ->
   count is_sleep evs = 0%nat) /\
  ((forall k m e, generateContent Sv k m prompt = Throw e ->
                  is_model_not_found e = false) ->
   count is_getModel evs = 0%nat).
Proof.
  induction 1 as [st n Hr | st n res Hr Hg
                 | st n error evs out Hr Hg Hf Hrun IH
                 | st n error evs out Hr Hg Hf Hn Hrun IH
                 | st n error Hr Hg Hf Hn]; try (split; reflexivity).
  - destruct IH as [IHs IHm]. split; intros Hno; rewrite count_app.
    + rewrite (IHs Hno). reflexivity.
    + unfold should_fallback in Hf. apply andb_prop in Hf as [Hf _].
      rewrite (Hno _ _ _ Hg) in Hf. discriminate Hf.
  - destruct IH as [IHs IHm]. split; intros Hno; rewrite count_app.
    + unfold should_retry in Hn. apply andb_prop in Hn as [Hn _].
      rewrite (Hno _ _ _ Hg) in Hn. discriminate Hn.
    + rewrite (IHm Hno). reflexivity.
Qed.

(** An error that asks for no fallback and no retry is thrown again. *)
Lemma retry_loop_rethrow Sv prompt st w error :
  (0 <? retries st)%nat = true ->
  generateContent Sv (count is_generateContent (trace w)) (currentModel st) prompt
  = Throw error ->
  is_model_not_found error = false ->
  is_network_error error = false ->
  retry_loop Sv prompt st w
  = (Throw error,
     mkWorld (users w) (bookings w)
       (EvGenerateContent (currentModel st) prompt (Throw error) :: trace w)).
Proof.
  intros Hr Hg Hm Hn.
  destruct (retry_loop_run Sv prompt st w) as (evs & Ht & Hu & Hb & Hrun).
  destruct (retry_loop Sv prompt st w) as [out [u b t]].
  cbn [fst snd users bookings trace] in *. subst u b t.
  assert (Hf : should_fallback st error = false)
    by (unfold should_fallback; rewrite Hm; reflexivity).
  assert (Hs : should_retry st error = false)
    by (unfold should_retry; rewrite Hn; reflexivity).
  inversion Hrun; subst; try congruence.
  replace error0 with error by congruence. reflexivity.
Qed.

Lemma forallb_In {A} (f : A -> bool) l x : forallb f l = true -> In x l -> f x = true.
Proof. intros H Hin. rewrite forallb_forall in H. auto. Qed.

(** C4. The retry loop of [chatWithAI] always ends, with the result of
    the language model or with an error thrown.  It waits, one second
    each time, at most twice, and only after transport errors; it changes
    model at most twice, to [gemini-1.5-flash] and [gemini-pro], and only
    after model-not-found errors; it calls [generateContent] once, and
    once more after each wait and each change of model: at most 5 times.
    An error that is neither a model-not-found error nor a transport
    error is thrown again at once.  So a chat request makes at most 5
    calls of [generateContent]. *)
Theorem retry_loop_bounded R Sv prompt name req w :
  (exists evs out,
     retry_loop Sv prompt (initial_loop_state name) w
     = (out, mkWorld (users w) (bookings w) (evs ++ trace w)%list) /\
     loop_run Sv prompt (initial_loop_state name)
       (count is_generateContent (trace w)) evs out /\
     (count is_sleep evs <= 2)%nat /\
     (forall ms, In (EvSleep ms) evs -> ms = 1000%Z) /\
     ((forall k m e, generateContent Sv k m prompt = Throw e ->
                     is_network_error e = false) ->
      count is_sleep evs = 0%nat) /\
     (count is_getModel evs <= 2)%nat /\
     (forall m, In (EvGetGenerativeModel m) evs ->
                In m ["gemini-1.5-flash"; "gemini-pro"]) /\
     ((forall k m e, generateContent Sv k m prompt = Throw e ->
                     is_model_not_found e = false) ->
      count is_getModel evs = 0%nat) /\
     count is_generateContent evs
     = (1 + count is_sleep evs + count is_getModel evs)%nat /\
     (count is_generateContent evs <= 5)%nat)
  /\
  (forall st error,
     (0 <? retries st)%nat = true ->
     generateContent Sv (count is_generateContent (trace w)) (currentModel st) prompt
     = Throw error ->
     is_model_not_found error = false ->
     is_network_error error = false ->
     retry_loop Sv prompt st w
     = (Throw error,
        mkWorld (users w) (bookings w)
          (EvGenerateContent (currentModel st) prompt (Throw error) :: trace w)))
  /\
  (count is_generateContent (new_events w (snd (chatWithAI R Sv req w))) <= 5)%nat
  /\
  (count is_sleep (new_events w (snd (chatWithAI R Sv req w))) <= 2)%nat.
Proof.
  split; [ | split; [ | split ] ].
  - destruct (retry_loop_run Sv prompt (initial_loop_state name) w)
      as (evs & Ht & Hu & Hb & Hrun).
    destruct (loop_run_counts _ _ _ _ _ _ Hrun) as (Hs & Hm & Hc & Hall).
    destruct (loop_run_causes _ _ _ _ _ _ Hrun) as (Hcs & Hcm).
    cbn [initial_loop_state retries currentModelIndex] in *.
    change (List.length fallbackModels - 1)%nat with 2%nat in *.
    cbn [Nat.ltb Nat.leb] in Hc.
    exists evs, (fst (retry_loop Sv prompt (initial_loop_state name) w)).
    split.
    { destruct (retry_loop Sv prompt (initial_loop_state name) w) as [out [u b t]].
      cbn [fst snd users bookings trace] in *. subst. reflexivity. }
    split; [ exact Hrun | ].
    split; [ lia | ].
    split.
    { intros ms Hin. pose proof (forallb_In _ _ _ Hall Hin) as Hev.
      cbn in Hev. destruct (Z.eq_dec ms 1000) as [E | E]; [ exact E | ].
      destruct ms as [ | p | p ]; try discriminate Hev.
      repeat (destruct p as [ p | p | ]; try discriminate Hev); congruence. }
    split; [ exact Hcs | ].
    split; [ lia | ].
    split.
    { intros m Hin. pose proof (forallb_In _ _ _ Hall Hin) as Hev.
      cbn in Hev. apply orb_prop in Hev as [Hev | Hev].
      - apply String.eqb_eq in Hev. left. symmetry. exact Hev.
      - apply orb_prop in Hev as [Hev | Hev]; [ | discriminate Hev ].
        apply String.eqb_eq in Hev. right. left. symmetry. exact Hev. }
    split; [ exact Hcm | ].
    split; lia.
  - intros st error. apply retry_loop_rethrow.
  - apply chatWithAI_llm_calls.
  - apply chatWithAI_llm_calls.
Qed.

(** The loop on an error that is no transport error and no
    model-not-found error (a refused API key): one call, and the error is
    thrown again. *)
Lemma retry_loop_bounded_witness :
  let error := mkError "[400 Bad Request] API key not valid" (Some 400%Z) in
  let prompt := build_prompt Fixture.runtime "" (VStr "hello") in
  retry_loop (Fixture.services [Throw error] None) prompt
    (initial_loop_state "gemini-2.5-flash") Fixture.world0
  = (Throw error,
     mkWorld (users Fixture.world0) (bookings Fixture.world0)
       (EvGenerateContent "gemini-2.5-flash" prompt (Throw error)
        :: trace Fixture.world0)).
Proof.
  cbv zeta.
  apply (proj1 (proj2
           (retry_loop_bounded Fixture.runtime
              (Fixture.services
                 [Throw (mkError "[400 Bad Request] API key not valid" (Some 400%Z))]
                 None)
              (build_prompt Fixture.runtime "" (VStr "hello"))
              "gemini-2.5-flash" (Fixture.chat_request VNull) Fixture.world0))
           (initial_loop_state "gemini-2.5-flash"));
    reflexivity.
Defined.

(* ===================================================================== *)
(** * Errors of the chat endpoint                                         *)
(* ===================================================================== *)

Lemma is_auth_error_spec error :
  is_auth_error error = true <->
  (err_status error = Some 401%Z \/ err_status error = Some 403%Z).
Proof.
  unfold is_auth_error. destruct (err_status error) as [s | ].
  - rewrite orb_true_iff, !Z.eqb_eq. split.
    + intros [-> | ->]; auto.
    + intros [H | H]; inversion H; auto.
  - split; [ discriminate | intros [H | H]; discriminate H ].
Qed.

(** C6. [chatWithAI] never throws: it always sends a reply.  When the
    body of its [try] block throws, the reply is [success: false] with a
    user-facing message: the not-configured message when the API key is
    missing; otherwise the cannot-connect message for a transport error,
    the model-not-found message for a model-not-found error, the
    authentication message for the status 401 or 403, and the generic
    apology for every other error. *)
Theorem chatWithAI_never_throws R Sv req w :
  (exists resp, fst (chatWithAI R Sv req w) = Ok resp) /\
  (forall error w1,
     chat R Sv req w = (Throw error, w1) ->
     exists msg,
       chatWithAI R Sv req w = (Ok (json (JsonFail msg)), w1) /\
       success (json (JsonFail msg)) = false /\
       (env_unset (GEMINI_API_KEY Sv) = true -> msg = NOT_CONFIGURED) /\
       (env_unset (GEMINI_API_KEY Sv) = false ->
        (is_network_error error = true -> msg = CANNOT_CONNECT) /\
        (is_network_error error = false ->
         (is_model_not_found error = true -> msg = MODEL_NOT_FOUND Sv) /\
         (is_model_not_found error = false ->
          (err_status error = Some 401%Z \/ err_status error = Some 403%Z ->
           msg = AUTH_FAILED) /\
          (err_status error <> Some 401%Z -> err_status error <> Some 403%Z ->
           msg = APOLOGY))))).
Proof.
  split.
  - unfold chatWithAI, try_catch, ret.
    destruct (chat R Sv req w) as [[resp | e] w']; cbn [fst]; eauto.
  - intros error w1 E. unfold chatWithAI, try_catch, ret. rewrite E.
    unfold chat_error.
    destruct (env_unset (GEMINI_API_KEY Sv));
      [ | destruct (is_network_error error);
          [ | destruct (is_model_not_found error);
              [ | destruct (is_auth_error error) eqn:Ea ] ] ].
    all: eexists; split; [ reflexivity | ].
    all: repeat match goal with
                | |- _ /\ _ => split
                | |- _ -> _ => intro
                end.
    all: try reflexivity; try discriminate.
    + apply is_auth_error_spec in Ea. tauto.
    + match goal with
      | H : _ \/ _ |- _ => apply is_auth_error_spec in H; congruence
      end.
Qed.

(** A reply of the language model that is no JSON: the parse error is
    caught and the reply is the generic apology. *)
Lemma chatWithAI_never_throws_witness :
  fst (chatWithAI Fixture.runtime (Fixture.services [Ok (Ok "Sorry, no JSON")] None)
         (Fixture.chat_request VNull) Fixture.world0)
  = Ok (json (JsonFail APOLOGY)).
Proof.
  destruct (proj2 (chatWithAI_never_throws Fixture.runtime
                     (Fixture.services [Ok (Ok "Sorry, no JSON")] None)
                     (Fixture.chat_request VNull) Fixture.world0)
              PARSE_ERROR
              (snd (chat Fixture.runtime
                      (Fixture.services [Ok (Ok "Sorry, no JSON")] None)
                      (Fixture.chat_request VNull) Fixture.world0)))
    as (msg & Hrun & _ & _ & Hmsg).
  - vm_compute. reflexivity.
  - rewrite Hrun. cbn [fst]. do 3 f_equal.
    apply Hmsg; try reflexivity; discriminate.
Defined.

(** A language model that cannot be reached: three calls, two waits,
    and the cannot-connect reply. *)
Example chatWithAI_unreachable_model :
  let fetch_failed := Throw (mkError "TypeError: fetch failed" None) in
  let run := chatWithAI Fixture.runtime
               (Fixture.services [fetch_failed; fetch_failed; fetch_failed] None)
               (Fixture.chat_request VNull) Fixture.world0 in
  fst run = Ok (json (JsonFail CANNOT_CONNECT)) /\
  count is_generateContent (trace (snd run)) = 3%nat /\
  count is_sleep (trace (snd run)) = 2%nat.
Proof. vm_compute. repeat split. Qed.

(** The most calls that a request makes: two changes of model, then
    three transport errors. *)
Example chatWithAI_five_calls :
  let not_found := Throw (mkError "[404 Not Found] model is not found" None) in
  let refused := Throw (mkError "connect ECONNREFUSED" None) in
  let run := chatWithAI Fixture.runtime
               (Fixture.services
                  [not_found; not_found; refused; refused; refused] None)
               (Fixture.chat_request VNull) Fixture.world0 in
  fst run = Ok (json (JsonFail CANNOT_CONNECT)) /\
  count is_generateContent (trace (snd run)) = 5%nat /\
  count is_sleep (trace (snd run)) = 2%nat /\
  count is_getModel (trace (snd run)) = 3%nat.
Proof. vm_compute. repeat split. Qed.

(** A model that is not found twice, then an answer of the third model
    of the fallback list. *)
Example chatWithAI_fallback_models :
  let not_found := Throw (mkError "[404 Not Found] model is not found" None) in
  let run := chatWithAI Fixture.runtime
               (Fixture.services
                  [not_found; not_found; Ok (Ok Fixture.greeting_text)] None)
               (Fixture.chat_request VNull) Fixture.world0 in
  fst run = Ok (json (JsonChat (VStr GREETING) None (VStr "greeting"))) /\
  map (fun e => match e with EvGetGenerativeModel m => m | _ => "" end)
      (filter is_getModel (rev (trace (snd run))))
  = fallbackModels.
Proof. vm_compute. repeat split. Qed.

(* ===================================================================== *)
(** * Requests without a message                                          *)
(* ===================================================================== *)

Lemma new_events_refl w : new_events w w = [].
Proof. apply (new_events_app w w []). reflexivity. Qed.

(** C8. A request whose body has no [message] field, or an empty or
    otherwise falsy one, gets the reply [success: false] with the message
    "Message is required", and nothing is called: the world is what it
    was, with no call of the language model or of the database in the
    log. *)
Theorem chatWithAI_message_required R Sv req w :
  let run := chatWithAI R Sv req w in
  nullish (req_body req) = false ->
  truthy (get_opt (req_body req) "message") = false ->
  run = (Ok (json (JsonFail "Message is required")), w) /\
  success (json (JsonFail "Message is required")) = false /\
  count is_llm_call (new_events w (snd run)) = 0%nat /\
  count is_db_call (new_events w (snd run)) = 0%nat.
Proof.
  cbv zeta. intros Hbody Hmsg.
  assert (E : chatWithAI R Sv req w
              = (Ok (json (JsonFail "Message is required")), w)).
  { unfold chatWithAI, chat. unfold_monad. rewrite Hbody, Hmsg. reflexivity. }
  rewrite E. cbn [snd]. rewrite new_events_refl. repeat split.
Qed.

(** A body with no [message], and a body with an empty one. *)
Lemma chatWithAI_message_required_witness :
  (let run := chatWithAI Fixture.runtime (Fixture.services [] None)
                (Fixture.request (VObj []) VNull) Fixture.world0 in
   run = (Ok (json (JsonFail "Message is required")), Fixture.world0) /\
   success (json (JsonFail "Message is required")) = false /\
   count is_llm_call (new_events Fixture.world0 (snd run)) = 0%nat /\
   count is_db_call (new_events Fixture.world0 (snd run)) = 0%nat)
  /\
  (let run := chatWithAI Fixture.runtime (Fixture.services [] None)
                (Fixture.request (VObj [("message", VStr "")]) VNull)
                Fixture.world0 in
   run = (Ok (json (JsonFail "Message is required")), Fixture.world0) /\
   success (json (JsonFail "Message is required")) = false /\
   count is_llm_call (new_events Fixture.world0 (snd run)) = 0%nat /\
   count is_db_call (new_events Fixture.world0 (snd run)) = 0%nat).
Proof.
  split.
  - apply (chatWithAI_message_required Fixture.runtime (Fixture.services [] None)
             (Fixture.request (VObj []) VNull) Fixture.world0);
      reflexivity.
  - apply (chatWithAI_message_required Fixture.runtime (Fixture.services [] None)
             (Fixture.request (VObj [("message", VStr "")]) VNull) Fixture.world0);
      reflexivity.
Defined.

(* ===================================================================== *)
(** * Who creates the booking                                             *)
(* ===================================================================== *)

(** The payload of the reply to a booking request, when there is one,
    is a [booking_confirmation]. *)
Lemma handle_intent_book_inv R Sv userId aiAnalysis aiResponse w w' m ad :
  get_opt aiAnalysis "intent" = VStr "book" ->
  handle_intent R Sv userId aiAnalysis aiResponse w = (Ok (m, ad), w') ->
  ad = None \/
  exists roomId hotelName checkInDate checkOutDate guests totalPrice,
    ad = Some (booking_confirmation roomId hotelName checkInDate checkOutDate
                 guests totalPrice).
Proof.
  intros Hi. unfold handle_intent. rewrite Hi.
  change (strict_eq (VStr "book") (VStr "search")) with false.
  change (strict_eq (VStr "book") (VStr "check_availability")) with false.
  change (strict_eq (VStr "book") (VStr "book")) with true.
  cbv iota. unfold intent_book, call_Room_findById. unfold_monad. intros E.
  repeat (case_step; cbn [fst snd] in * ).
  all: inversion E; subst; clear E; eauto 10.
Qed.

(** C7, as it is stated, fails: no chat message makes [chatWithAI]
    create a Booking document. *)
Lemma chatWithAI_creates_no_booking :
  ~ (exists R Sv req w, bookings (snd (chatWithAI R Sv req w)) <> bookings w).
Proof.
  intros (R & Sv & req & w & Hneq). apply Hneq.
  apply (chatWithAI_read_only R Sv req w).
Qed.

(** C7 (as amended). Handling a chat message never creates a Booking
    document: the bookings are what they were and [Booking.create] is not
    called.  The reply to a message classified as a booking request has
    at most a [booking_confirmation] payload.  The document is created by
    the booking endpoint, [createBookingViaAI]: for a known, logged-in
    user and an available room that is found with its hotel, when the
    database accepts the document. *)
Theorem chatWithAI_leaves_creation_to_book_endpoint R Sv req w :
  (bookings (snd (chatWithAI R Sv req w)) = bookings w /\
   count is_bookingCreate (new_events w (snd (chatWithAI R Sv req w))) = 0%nat)
  /\
  (forall m ad,
     fst (chatWithAI R Sv req w) = Ok (json (JsonChat m ad (VStr "book"))) ->
     ad = None \/
     exists roomId hotelName checkInDate checkOutDate guests totalPrice,
       ad = Some (booking_confirmation roomId hotelName checkInDate checkOutDate
                    guests totalPrice))
  /\
  (forall req' w' user room hotel,
     let body := req_body req' in
     let checkIn := Date_new R (get_opt body "checkInDate") in
     let checkOut := Date_new R (get_opt body "checkOutDate") in
     let doc := mkBooking (ObjectId Sv (List.length (bookings w'))) (req_userId req')
                  (get_opt body "roomId") (hotel__id hotel)
                  (guests_or_1 R (get_opt body "guests"))
                  (get_opt body "checkInDate") (get_opt body "checkOutDate")
                  (num_mul (room_pricePerNight room)
                           (nights_between checkIn checkOut)) in
     nullish body = false ->
     truthy (req_userId req') = true ->
     User_find_error Sv (req_userId req') = None ->
     find (fun u => strict_eq (user__id u) (req_userId req')) (users w') = Some user ->
     checkAvailability Sv (bookings w') (get_opt body "roomId") checkIn checkOut
     = Ok true ->
     Room_findById Sv (get_opt body "roomId") = Ok (Some room) ->
     room_hotel room = Some hotel ->
     Booking_create_error Sv doc = None ->
     bookings (snd (createBookingViaAI R Sv req' w')) = (bookings w' ++ [doc])%list /\
     success_of (fst (createBookingViaAI R Sv req' w')) = true).
Proof.
  split; [ | split ].
  - split; apply (chatWithAI_read_only R Sv req w).
  - intros m ad E.
    destruct (chatWithAI R Sv req w) as [r w'] eqn:Erun. cbn [fst] in E. subst r.
    destruct (chatWithAI_chat_inv R Sv req w _ w' _ _ _ Erun eq_refl)
      as (text & aiAnalysis & aiResponse & w2 & w3 & m0 & _ & Hh & _ & Hi).
    eapply handle_intent_book_inv; [ symmetry; exact Hi | exact Hh ].
  - intros req' w' user room hotel. apply createBookingViaAI_creates.
Qed.

(** The booking endpoint stores the booking of the test data. *)
Lemma chatWithAI_leaves_creation_to_book_endpoint_witness :
  let Sv := Fixture.services [] None in
  let req := Fixture.book_request "2025-01-01" "2025-01-04" (VNum (Fin 2)) in
  let run := createBookingViaAI Fixture.runtime Sv req Fixture.world0 in
  bookings (snd run)
  = (bookings Fixture.world0
     ++ [mkBooking (ObjectId Sv 0) (VStr "user_1") (VStr "room1") "hotel1"
           (guests_or_1 Fixture.runtime (VNum (Fin 2)))
           (VStr "2025-01-01") (VStr "2025-01-04")
           (num_mul (Fin 2000)
              (nights_between
                 (Date_new Fixture.runtime (VStr "2025-01-01"))
                 (Date_new Fixture.runtime (VStr "2025-01-04"))))])%list /\
  success_of (fst run) = true.
Proof.
  apply (proj2 (proj2
           (chatWithAI_leaves_creation_to_book_endpoint Fixture.runtime
              (Fixture.services [] None) (Fixture.chat_request VNull)
              Fixture.world0))
           (Fixture.book_request "2025-01-01" "2025-01-04" (VNum (Fin 2)))
           Fixture.world0 Fixture.alice Fixture.room1 Fixture.hotel1);
    reflexivity.
Defined.

(** From the chat to the booking: the chat replies to a booking request
    with a [booking_confirmation] payload and stores nothing; the booking
    endpoint, called with the fields of that payload, stores the booking
    at the price of the payload. *)
Example chat_then_book :
  let Sv := Fixture.services [Ok (Ok Fixture.book_text)] None in
  let chat_run := chatWithAI Fixture.runtime Sv
                    (Fixture.chat_request (VStr "user_1")) Fixture.world0 in
  let book_run := createBookingViaAI Fixture.runtime Sv
                    (Fixture.book_request "2025-01-01" "2025-01-04" (VNum (Fin 2)))
                    (snd chat_run) in
  option_map actionData (match fst chat_run with Ok r => Some r | _ => None end)
  = Some (Some (booking_confirmation "room1" "Sea View" (VStr "2025-01-01")
                  (VStr "2025-01-04") (VNum (Fin 2)) (Fin (2000 * inject_Z 3)))) /\
  bookings (snd chat_run) = [] /\
  map booking_totalPrice (bookings (snd book_run)) = [Fin (2000 * inject_Z 3)].
Proof. vm_compute. repeat split. Qed.

(* ===================================================================== *)
(** * The Clerk webhook                                                   *)
(* ===================================================================== *)

(** C10. A verified Clerk event with its [data], whose type is none of
    [user.created], [user.updated] and [user.deleted], leaves the users
    (and the bookings) as they are, and the reply is [success: true] with
    the message "Webhook received". *)
Theorem clerkWebhooks_ignores_other_events R Sv req w :
  let body := req_body req in
  let type := get_opt body "type" in
  let run := Clerk.clerkWebhooks R Sv req w in
  Webhook_verify Sv body (req_svix_id req) (req_svix_timestamp req)
    (req_svix_signature req) = None ->
  nullish (get_opt body "data") = false ->
  strict_eq type (VStr "user.created") = false ->
  strict_eq type (VStr "user.updated") = false ->
  strict_eq type (VStr "user.deleted") = false ->
  fst run = Ok (json (JsonOk "Webhook received")) /\
  success (json (JsonOk "Webhook received")) = true /\
  users (snd run) = users w /\
  bookings (snd run) = bookings w /\
  new_events w (snd run) = [EvVerify body].
Proof.
  cbv zeta. intros Hv Hdata H1 H2 H3.
  assert (Hbody : nullish (req_body req) = false)
    by (destruct (req_body req); try reflexivity; discriminate Hdata).
  unfold Clerk.clerkWebhooks, Clerk.webhook, Clerk.verify. unfold_monad.
  rewrite Hv. cbn [users bookings trace]. rewrite Hbody.
  rewrite (get_ok_not_nullish _ "id" Hdata). rewrite H1, H2, H3.
  cbn [fst snd users bookings trace]. new_events_norm. repeat split.
Qed.

(** An event of type [session.created]. *)
Lemma clerkWebhooks_ignores_other_events_witness :
  let req := Fixture.clerk_request "session.created" in
  let run := Clerk.clerkWebhooks Fixture.runtime (Fixture.services [] None)
               req Fixture.world0 in
  fst run = Ok (json (JsonOk "Webhook received")) /\
  success (json (JsonOk "Webhook received")) = true /\
  users (snd run) = users Fixture.world0 /\
  bookings (snd run) = bookings Fixture.world0 /\
  new_events Fixture.world0 (snd run) = [EvVerify (req_body req)].
Proof.
  apply (clerkWebhooks_ignores_other_events Fixture.runtime
           (Fixture.services [] None)
           (Fixture.clerk_request "session.created") Fixture.world0);
    reflexivity.
Defined.

(** The three events that the webhook handles do write. *)
Example clerkWebhooks_user_events :
  let run type w := snd (Clerk.clerkWebhooks Fixture.runtime
                           (Fixture.services [] None)
                           (Fixture.clerk_request type) w) in
  map user_username (users (run "user.created" (mkWorld [] [] [])))
  = [VStr "Alice Liddell"] /\
  map user_username (users (run "user.updated" Fixture.world0))
  = [VStr "Alice Liddell"] /\
  users (run "user.deleted" Fixture.world0) = [].
Proof. vm_compute. repeat split. Qed.
